(** * OpenClaw crontab scheduler: a shallow embedding and its properties

    The development follows [src/cron/crontab-store.ts] (schedule resolver,
    crontab codec, crontab I/O), [src/cron/crontab-exec.ts] (run gate and
    dispatcher) and [src/gateway/server-methods/cron.ts] (RPC facade).

    Conventions of the embedding.
    - A JavaScript string is the list of the bytes of its UTF-8 encoding
      ([jstring]).  Every string primitive used by the code ([includes],
      [indexOf], [startsWith], [slice] at an index returned by [indexOf],
      [trim], [split]) commutes with that encoding, because UTF-8 is
      self-synchronising; strings with lone surrogates have no image.
    - A JavaScript number is an integer or [NaN] ([num]); fractional and
      infinite doubles are outside the model.
    - A function that may throw returns [exn]; external collaborators
      (the [crontab] command, the clock, the agent runtime, the request
      validators) are the fields of a [Host]. *)

From Stdlib Require Import String Ascii List ZArith Lia Bool Arith.
From Stdlib Require Import DecimalString DecimalZ DecimalN DecimalPos.
Import ListNotations.

Local Open Scope list_scope.

(* ================================================================== *)
(** ** Strings *)

Definition jstring := list ascii.

Definition lit (s : string) : jstring := list_ascii_of_string s.

Definition code (c : ascii) : N := N_of_ascii c.

Fixpoint str_eqb (a b : jstring) : bool :=
  match a, b with
  | [], [] => true
  | x :: a', y :: b' => Ascii.eqb x y && str_eqb a' b'
  | _, _ => false
  end.

(** [!s] on a string: the empty string is the only falsy one. *)
Definition truthy (s : jstring) : bool :=
  match s with [] => false | _ :: _ => true end.

Definition opt_truthy (o : option jstring) : bool :=
  match o with Some s => truthy s | None => false end.

(** [x || undefined] on an optional string. *)
Definition or_undefined (o : option jstring) : option jstring :=
  match o with
  | Some s => if truthy s then Some s else None
  | None => None
  end.

Fixpoint startsWith (p s : jstring) : bool :=
  match p, s with
  | [], _ => true
  | x :: p', y :: s' => Ascii.eqb x y && startsWith p' s'
  | _ :: _, [] => false
  end.

(** [s.indexOf(p)]; [None] stands for [-1]. *)
Fixpoint indexOf (p s : jstring) : option nat :=
  if startsWith p s then Some 0%nat
  else match s with
       | [] => None
       | _ :: s' => option_map S (indexOf p s')
       end.

Definition includes (p s : jstring) : bool :=
  match indexOf p s with Some _ => true | None => false end.

Definition join (sep : jstring) (l : list jstring) : jstring :=
  match l with
  | [] => []
  | x :: r => x ++ flat_map (fun y => sep ++ y) r
  end.

(** ASCII lower-casing.  [toLowerCase] is only used to search for the ASCII
    text "no crontab"; no non-ASCII character lower-cases to one of its
    letters, so the search is unaffected by the other case mappings. *)
Definition lower_ascii (c : ascii) : ascii :=
  if (65 <=? code c)%N && (code c <=? 90)%N
  then ascii_of_N (code c + 32) else c.

Definition toLowerCase (s : jstring) : jstring := map lower_ascii s.

(** *** White space

    [trim] and the regular expression class [\s] share one character set:
    TAB, LF, VT, FF, CR, SP, U+00A0, U+1680, U+2000..U+200A, U+2028,
    U+2029, U+202F, U+205F, U+3000 and U+FEFF.  [ws_len s] is the number of
    bytes of the white-space character at the head of [s], or [0]. *)

Definition ascii_ws (c : ascii) : bool :=
  ((9 <=? code c)%N && (code c <=? 13)%N) || (code c =? 32)%N.

Definition ws2 (c1 c2 : ascii) : bool :=
  (code c1 =? 194)%N && (code c2 =? 160)%N.

Definition ws3 (c1 c2 c3 : ascii) : bool :=
  let a := code c1 in let b := code c2 in let c := code c3 in
  ((a =? 225) && (b =? 154) && (c =? 128))%N
  || ((a =? 226) && (b =? 128)
      && (((128 <=? c) && (c <=? 138)) || (c =? 168) || (c =? 169) || (c =? 175)))%N
  || ((a =? 226) && (b =? 129) && (c =? 159))%N
  || ((a =? 227) && (b =? 128) && (c =? 128))%N
  || ((a =? 239) && (b =? 187) && (c =? 191))%N.

Definition ws_len (s : jstring) : nat :=
  match s with
  | [] => 0
  | c1 :: r1 =>
    if ascii_ws c1 then 1
    else match r1 with
         | [] => 0
         | c2 :: r2 =>
           if ws2 c1 c2 then 2
           else match r2 with
                | [] => 0
                | c3 :: _ => if ws3 c1 c2 c3 then 3 else 0
                end
         end
  end.

(** [ws_mask 0 s] marks the bytes of [s] that belong to a white-space
    character; [skip] counts the bytes still owed to the current one. *)
Fixpoint ws_mask (skip : nat) (s : jstring) : list bool :=
  match s with
  | [] => []
  | _ :: r =>
    match skip with
    | S k => true :: ws_mask k r
    | O => match ws_len s with
           | O => false :: ws_mask 0 r
           | S k => true :: ws_mask k r
           end
    end
  end.

Fixpoint drop_lead (m : list bool) (s : jstring) : jstring :=
  match m, s with
  | true :: m', _ :: s' => drop_lead m' s'
  | _, _ => s
  end.

Definition trimStart (s : jstring) : jstring := drop_lead (ws_mask 0 s) s.

Definition trimEnd (s : jstring) : jstring :=
  rev (drop_lead (rev (ws_mask 0 s)) (rev s)).

Definition trim (s : jstring) : jstring := trimEnd (trimStart s).

Definition cons_head (c : ascii) (l : list jstring) : list jstring :=
  match l with
  | [] => [[c]]
  | t :: ts => (c :: t) :: ts
  end.

(** The pieces of [s] between the marked bytes (never an empty list). *)
Fixpoint split_on (m : list bool) (s : jstring) : list jstring :=
  match m, s with
  | b :: m', c :: s' =>
    if b then [] :: split_on m' s' else cons_head c (split_on m' s')
  | _, _ => [[]]
  end.

(** [s.split(/\s+/).filter(Boolean)]. *)
Definition split_ws (s : jstring) : list jstring :=
  filter truthy (split_on (ws_mask 0 s) s).

Definition is_nl (c : ascii) : bool := (code c =? 10)%N.

(** ["\n"] *)
Definition NL : jstring := [ascii_of_N 10].

(** [s.split("\n")]. *)
Definition split_nl (s : jstring) : list jstring :=
  split_on (map is_nl s) s.

(* ================================================================== *)
(** ** Numbers *)

Inductive num : Type :=
| NaN
| Int (z : Z).

Definition num_eqb (a b : num) : bool :=
  match a, b with
  | NaN, NaN => true
  | Int x, Int y => Z.eqb x y
  | _, _ => false
  end.

Fixpoint uint_chars (d : Decimal.uint) : jstring :=
  match d with
  | Decimal.Nil => []
  | Decimal.D0 d => "0"%char :: uint_chars d
  | Decimal.D1 d => "1"%char :: uint_chars d
  | Decimal.D2 d => "2"%char :: uint_chars d
  | Decimal.D3 d => "3"%char :: uint_chars d
  | Decimal.D4 d => "4"%char :: uint_chars d
  | Decimal.D5 d => "5"%char :: uint_chars d
  | Decimal.D6 d => "6"%char :: uint_chars d
  | Decimal.D7 d => "7"%char :: uint_chars d
  | Decimal.D8 d => "8"%char :: uint_chars d
  | Decimal.D9 d => "9"%char :: uint_chars d
  end.

(** [String(z)] for an integer below [10^21] in absolute value. *)
Definition Z_to_string (z : Z) : jstring :=
  match z with
  | Z0 => lit "0"
  | Zpos p => uint_chars (Pos.to_uint p)
  | Zneg p => "-"%char :: uint_chars (Pos.to_uint p)
  end.

Definition num_to_string (n : num) : jstring :=
  match n with
  | NaN => lit "NaN"
  | Int z => Z_to_string z
  end.

Definition digit_val (c : ascii) : option Z :=
  if (48 <=? code c)%N && (code c <=? 57)%N
  then Some (Z.of_N (code c) - 48)%Z else None.

Fixpoint parse_digits (acc : Z) (s : jstring) : Z :=
  match s with
  | [] => acc
  | c :: r =>
    match digit_val c with
    | Some d => parse_digits (10 * acc + d)%Z r
    | None => acc
    end
  end.

Definition starts_with_digit (s : jstring) : bool :=
  match s with
  | c :: _ => match digit_val c with Some _ => true | None => false end
  | [] => false
  end.

(** [Number.parseInt(s, 10)]: leading white space, an optional sign, then
    the longest run of decimal digits; [NaN] without a digit. *)
Definition parseInt (s : jstring) : num :=
  let t := trimStart s in
  let '(neg, body) :=
    match t with
    | c :: r =>
      if Ascii.eqb c "-"%char then (true, r)
      else if Ascii.eqb c "+"%char then (false, r)
      else (false, t)
    | [] => (false, t)
    end in
  if starts_with_digit body
  then Int (if neg then - parse_digits 0 body else parse_digits 0 body)%Z
  else NaN.

(** [n || fallback] on a number: [NaN] and [0] are falsy. *)
Definition num_or (n : num) (fallback : num) : num :=
  match n with
  | NaN => fallback
  | Int z => if (z =? 0)%Z then fallback else n
  end.

(* ================================================================== *)
(** ** Percent-encoding ([encodeURIComponent] / [decodeURIComponent]) *)

Inductive exn (A : Type) : Type :=
| Ok (a : A)
| Throw (msg : jstring).
Arguments Ok {A} a.
Arguments Throw {A} msg.

Definition bind {A B} (m : exn A) (f : A -> exn B) : exn B :=
  match m with
  | Ok a => f a
  | Throw e => Throw e
  end.

Notation "'do' x <- m ;; f" := (bind m (fun x => f))
  (at level 10, x name, m at level 100, f at level 200).

(** The characters [encodeURIComponent] leaves alone:
    [A-Z a-z 0-9 - _ . ! ~ * ' ( )]. *)
Definition unreserved (c : ascii) : bool :=
  let n := code c in
  (((65 <=? n) && (n <=? 90)) || ((97 <=? n) && (n <=? 122))
   || ((48 <=? n) && (n <=? 57))
   || (n =? 45) || (n =? 95) || (n =? 46) || (n =? 33) || (n =? 126)
   || (n =? 42) || (n =? 39) || (n =? 40) || (n =? 41))%N.

Definition hex_digit (n : N) : ascii :=
  if (n <? 10)%N then ascii_of_N (48 + n) else ascii_of_N (55 + n).

Definition hex_val (c : ascii) : option N :=
  let n := code c in
  if ((48 <=? n) && (n <=? 57))%N then Some (n - 48)%N
  else if ((65 <=? n) && (n <=? 70))%N then Some (n - 55)%N
  else if ((97 <=? n) && (n <=? 102))%N then Some (n - 87)%N
  else None.

Definition encode_byte (c : ascii) : jstring :=
  if unreserved c then [c]
  else ["%"%char; hex_digit (code c / 16); hex_digit (code c mod 16)].

(** [encodeURIComponent]: every byte of the UTF-8 encoding outside the
    unreserved set becomes [%XX]. *)
Definition encodeURIComponent (s : jstring) : jstring := flat_map encode_byte s.

Definition in_range (lo hi : N) (c : ascii) : bool :=
  ((lo <=? code c) && (code c <=? hi))%N.

Definition is_cont (c : ascii) : bool := in_range 128 191 c.

(** Length of the well-formed UTF-8 sequence at the head of [s]
    (Unicode, table 3-7), if there is one. *)
Definition utf8_char_len (s : jstring) : option nat :=
  match s with
  | [] => None
  | c1 :: r1 =>
    if (code c1 <? 128)%N then Some 1%nat
    else match r1 with
    | [] => None
    | c2 :: r2 =>
      if in_range 194 223 c1 then (if is_cont c2 then Some 2%nat else None)
      else match r2 with
      | [] => None
      | c3 :: r3 =>
        if (in_range 224 224 c1 && in_range 160 191 c2
            || (in_range 225 236 c1 || in_range 238 239 c1) && is_cont c2
            || in_range 237 237 c1 && in_range 128 159 c2) && is_cont c3
        then Some 3%nat
        else match r3 with
        | [] => None
        | c4 :: _ =>
          if (in_range 240 240 c1 && in_range 144 191 c2
              || in_range 241 243 c1 && is_cont c2
              || in_range 244 244 c1 && in_range 128 143 c2)
             && is_cont c3 && is_cont c4
          then Some 4%nat else None
        end
      end
    end
  end.

(** Well-formed UTF-8: the image of the JavaScript strings that
    [encodeURIComponent] accepts. *)
Fixpoint utf8_valid_from (skip : nat) (s : jstring) : bool :=
  match s with
  | [] => match skip with O => true | S _ => false end
  | c :: r =>
    match skip with
    | S k => is_cont c && utf8_valid_from k r
    | O => match utf8_char_len s with
           | Some (S k) => utf8_valid_from k r
           | _ => false
           end
    end
  end.

Definition utf8_valid (s : jstring) : bool := utf8_valid_from 0 s.

(** First pass of [decodeURIComponent]: resolve the [%XX] escapes and
    remember which bytes came from one.  [None] is a malformed escape. *)
Fixpoint unescape (s : jstring) : option (list (bool * ascii)) :=
  match s with
  | [] => Some []
  | c :: tl =>
    if Ascii.eqb c "%"%char then
      match tl with
      | h1 :: h2 :: rest =>
        match hex_val h1, hex_val h2, unescape rest with
        | Some a, Some b, Some l => Some ((true, ascii_of_N (16 * a + b)) :: l)
        | _, _, _ => None
        end
      | _ => None
      end
    else
      match unescape tl with
      | Some l => Some ((false, c) :: l)
      | None => None
      end
  end.

(** Second pass: an escaped byte above [0x7F] must start a well-formed
    UTF-8 sequence all of whose bytes are escaped. *)
Fixpoint escapes_ok (skip : nat) (l : list (bool * ascii)) : bool :=
  match l with
  | [] => match skip with O => true | S _ => false end
  | (e, c) :: r =>
    match skip with
    | S k => e && escapes_ok k r
    | O =>
      if e && (128 <=? code c)%N then
        match utf8_char_len (map snd l) with
        | Some (S k) => escapes_ok k r
        | _ => false
        end
      else escapes_ok 0 r
    end
  end.

Definition decodeURIComponent (s : jstring) : exn jstring :=
  match unescape s with
  | Some l => if escapes_ok 0 l then Ok (map snd l)
              else Throw (lit "URI malformed")
  | None => Throw (lit "URI malformed")
  end.

(* crontab-store.ts: encodeValue, decodeValue *)

Definition encodeValue (value : jstring) : jstring := encodeURIComponent value.

Definition decodeValue (value : jstring) : jstring :=
  match decodeURIComponent value with
  | Ok v => v
  | Throw _ => value
  end.

(* ================================================================== *)
(** ** Data model ([src/cron/types.ts], as used by the store) *)

Inductive CronSchedule : Type :=
| ScheduleCron (expr : jstring) (tz : option jstring) (staggerMs : option num)
| ScheduleEvery (everyMs : num) (anchorMs : option num)
| ScheduleAt (at_ : jstring).

Definition schedule_kind (s : CronSchedule) : jstring :=
  match s with
  | ScheduleCron _ _ _ => lit "cron"
  | ScheduleEvery _ _ => lit "every"
  | ScheduleAt _ => lit "at"
  end.

Record AgentTurn : Type := mkAgentTurn {
  message : jstring;
  model : option jstring;
  thinking : option jstring;
  timeoutSeconds : option num;
  allowUnsafeExternalContent : option bool;
  deliver : option bool;
  channel : option jstring;
  to : option jstring;
  bestEffortDeliver : option bool
}.

Inductive CronPayload : Type :=
| SystemEvent (text : jstring)
| AgentTurnPayload (turn : AgentTurn).

Record CronDelivery : Type := mkDelivery {
  mode : jstring;
  delivery_channel : option jstring;
  delivery_to : option jstring;
  bestEffort : option bool
}.

Record CronJobState : Type := mkState {
  nextRunAtMs : option num
}.

Record CronJob : Type := mkJob {
  id : jstring;
  agentId : option jstring;
  sessionKey : option jstring;
  name : jstring;
  description : option jstring;
  enabled : bool;
  deleteAfterRun : option bool;
  createdAtMs : num;
  updatedAtMs : num;
  schedule : CronSchedule;
  sessionTarget : jstring;
  wakeMode : jstring;
  payload : CronPayload;
  delivery : option CronDelivery;
  state : CronJobState
}.

Definition set_enabled (b : bool) (j : CronJob) : CronJob :=
  mkJob (id j) (agentId j) (sessionKey j) (name j) (description j) b
        (deleteAfterRun j) (createdAtMs j) (updatedAtMs j) (schedule j)
        (sessionTarget j) (wakeMode j) (payload j) (delivery j) (state j).

Definition set_state (s : CronJobState) (j : CronJob) : CronJob :=
  mkJob (id j) (agentId j) (sessionKey j) (name j) (description j) (enabled j)
        (deleteAfterRun j) (createdAtMs j) (updatedAtMs j) (schedule j)
        (sessionTarget j) (wakeMode j) (payload j) (delivery j) s.

(** ** Records used as dictionaries

    [Record<string,string>]: own string keys in insertion order; assigning
    an existing key keeps its position. *)

Definition dict := list (jstring * jstring).

Fixpoint dict_get (k : jstring) (d : dict) : option jstring :=
  match d with
  | [] => None
  | (k', v) :: r => if str_eqb k k' then Some v else dict_get k r
  end.

Fixpoint dict_set (k v : jstring) (d : dict) : dict :=
  match d with
  | [] => [(k, v)]
  | (k', v') :: r =>
    if str_eqb k k' then (k', v) :: r else (k', v') :: dict_set k v r
  end.

(** [{...a, ...b}] *)
Definition dict_spread (a b : dict) : dict :=
  fold_left (fun acc kv => dict_set (fst kv) (snd kv) acc) b a.

(** [d.k ?? dflt] *)
Definition get_or (k : jstring) (dflt : jstring) (d : dict) : jstring :=
  match dict_get k d with Some v => v | None => dflt end.

Definition bool_string (b : bool) : jstring :=
  if b then lit "true" else lit "false".

(** [d.k === "true" ? true : undefined] *)
Definition true_or_undefined (k : jstring) (d : dict) : option bool :=
  match dict_get k d with
  | Some v => if str_eqb v (lit "true") then Some true else None
  | None => None
  end.

(** [d.k ? Number.parseInt(d.k, 10) : undefined] *)
Definition parsed_if_present (k : jstring) (d : dict) : option num :=
  match dict_get k d with
  | Some v => if truthy v then Some (parseInt v) else None
  | None => None
  end.

(* ================================================================== *)
(** ** The crontab store ([src/cron/crontab-store.ts]) *)

Definition TAG : jstring := lit "openclaw:cron".
Definition TAG_PREFIX : jstring := lit "# " ++ TAG.
Definition CRON_COMMAND : jstring := lit "openclaw cron run".

Definition ONE_MINUTE_MS : Z := 60 * 1000.
Definition ONE_HOUR_MS : Z := 60 * ONE_MINUTE_MS.
Definition ONE_DAY_MS : Z := 24 * ONE_HOUR_MS.

Record CrontabSnapshot : Type := mkSnapshot {
  lines : list jstring;
  jobs : list CronJob;
  errors : list jstring
}.

Record ParsedTaggedEntry : Type := mkEntry {
  entry_id : jstring;
  meta : dict;
  scheduleLine : option jstring;
  scheduleDisabled : option bool;
  scheduleExpr : option jstring;
  scheduleTz : option jstring;
  scheduleIndex : option nat
}.

(** The result of [runCommand]. *)
Record CommandResult : Type := mkResult {
  ok : bool;
  stdout : jstring;
  stderr : jstring
}.

Definition parseKeyValueTokens (text : jstring) : dict :=
  let tokens := split_ws (trim text) in
  fold_left
    (fun out token =>
       match indexOf (lit "=") token with
       | None => out
       | Some O => out
       | Some eq =>
         let key := trim (firstn eq token) in
         let rawValue := trim (skipn (S eq) token) in
         if truthy key then dict_set key (decodeValue rawValue) out else out
       end)
    tokens [].

Definition parseTaggedLine (line : jstring) : option dict :=
  match indexOf TAG_PREFIX line with
  | None => None
  | Some markerIndex =>
    let payload := trim (skipn (markerIndex + length TAG_PREFIX) line) in
    Some (parseKeyValueTokens payload)
  end.

(** Returns [(expr, disabled)]. *)
Definition parseScheduleLine (rawLine : jstring) : option (jstring * bool) :=
  let trimmed := trimStart rawLine in
  let disabled := startsWith (lit "#") trimmed in
  let line := if disabled then trimStart (skipn 1 trimmed) else trimmed in
  if negb (includes TAG line) then None
  else if negb (includes CRON_COMMAND line) then None
  else
    let parts := split_ws line in
    if (length parts <? 7)%nat then None
    else Some (join (lit " ") (firstn 5 parts), disabled).

(** [Map<string, ParsedTaggedEntry>], in insertion order. *)
Definition entry_map := list (jstring * ParsedTaggedEntry).

Fixpoint map_get (k : jstring) (m : entry_map) : option ParsedTaggedEntry :=
  match m with
  | [] => None
  | (k', e) :: r => if str_eqb k k' then Some e else map_get k r
  end.

Fixpoint map_set (k : jstring) (e : ParsedTaggedEntry) (m : entry_map) : entry_map :=
  match m with
  | [] => [(k, e)]
  | (k', e') :: r =>
    if str_eqb k k' then (k', e) :: r else (k', e') :: map_set k e r
  end.

(** One iteration of the first loop of [findTaggedEntries]. *)
Definition scan_line (i : nat) (rawLine : jstring)
    (acc : entry_map * list jstring) : entry_map * list jstring :=
  let '(entries, errs) := acc in
  let line := trim rawLine in
  if negb (includes TAG_PREFIX line) then acc
  else
    let missing := (entries, errs ++ [lit "Tagged cron line missing id: " ++ rawLine]) in
    match parseTaggedLine rawLine with
    | None => missing
    | Some m =>
      match dict_get (lit "id") m with
      | None => missing
      | Some [] => missing
      | Some mid =>
        let entry :=
          match map_get mid entries with
          | Some e => e
          | None => mkEntry mid [] None None None None None
          end in
        let meta' := dict_spread (meta entry) m in
        let entry' :=
          match parseScheduleLine rawLine with
          | Some (expr, disabled) =>
            mkEntry (entry_id entry) meta' (Some rawLine) (Some disabled)
                    (Some expr) (scheduleTz entry) (Some i)
          | None =>
            mkEntry (entry_id entry) meta' (scheduleLine entry)
                    (scheduleDisabled entry) (scheduleExpr entry)
                    (scheduleTz entry) (scheduleIndex entry)
          end in
        (map_set mid entry' entries, errs)
      end
    end.

Fixpoint scan_lines (i : nat) (ls : list jstring)
    (acc : entry_map * list jstring) : entry_map * list jstring :=
  match ls with
  | [] => acc
  | l :: r => scan_lines (S i) r (scan_line i l acc)
  end.

(** The second loop: a [CRON_TZ=] line right before the schedule line. *)
Definition detect_tz (all : list jstring) (entry : ParsedTaggedEntry)
  : ParsedTaggedEntry :=
  match scheduleIndex entry with
  | None => entry
  | Some O => entry
  | Some (S p) =>
    let prevLine := trim (nth p all []) in
    if startsWith (lit "CRON_TZ=") prevLine then
      mkEntry (entry_id entry) (meta entry) (scheduleLine entry)
              (scheduleDisabled entry) (scheduleExpr entry)
              (or_undefined (Some (trim (skipn (length (lit "CRON_TZ=")) prevLine))))
              (scheduleIndex entry)
    else entry
  end.

Definition findTaggedEntries (ls : list jstring) : entry_map * list jstring :=
  let '(entries, errs) := scan_lines 0 ls ([], []) in
  (map (fun kv => (fst kv, detect_tz ls (snd kv))) entries, errs).

Definition buildTaggedLine (values : dict) : jstring :=
  let parts :=
    map (fun kv => fst kv ++ lit "=" ++ encodeValue (snd kv))
        (filter (fun kv => truthy (snd kv)) values) in
  trim (TAG_PREFIX ++ lit " " ++ join (lit " ") parts).

(** [if (x) d.k = x] *)
Definition set_truthy (k : jstring) (o : option jstring) (d : dict) : dict :=
  match o with
  | Some s => if truthy s then dict_set k s d else d
  | None => d
  end.

(** [if (x !== undefined) d.k = x ? "true" : "false"] *)
Definition set_bool (k : jstring) (o : option bool) (d : dict) : dict :=
  match o with
  | Some b => dict_set k (bool_string b) d
  | None => d
  end.

(** [if (x !== undefined) d.k = String(x)] *)
Definition set_num (k : jstring) (o : option num) (d : dict) : dict :=
  match o with
  | Some n => dict_set k (num_to_string n) d
  | None => d
  end.

Definition base_fields (job : CronJob) : dict :=
  let base :=
    [ (lit "id", id job);
      (lit "name", name job);
      (lit "enabled", bool_string (enabled job));
      (lit "session_target", sessionTarget job);
      (lit "wake_mode", wakeMode job);
      (lit "created_at_ms", num_to_string (createdAtMs job));
      (lit "updated_at_ms", num_to_string (updatedAtMs job)) ] in
  let base := set_truthy (lit "description") (description job) base in
  let base := set_truthy (lit "agent_id") (agentId job) base in
  let base := set_truthy (lit "session_key") (sessionKey job) base in
  set_bool (lit "delete_after_run") (deleteAfterRun job) base.

Definition payload_fields (job : CronJob) : dict :=
  match payload job with
  | AgentTurnPayload p =>
    let d :=
      [ (lit "id", id job);
        (lit "payload_kind", lit "agentTurn");
        (lit "payload_message", message p) ] in
    let d := set_truthy (lit "payload_model") (model p) d in
    let d := set_truthy (lit "payload_thinking") (thinking p) d in
    let d := set_num (lit "payload_timeout_seconds") (timeoutSeconds p) d in
    let d := set_bool (lit "payload_allow_unsafe_external_content")
                      (allowUnsafeExternalContent p) d in
    let d := set_bool (lit "payload_deliver") (deliver p) d in
    let d := set_truthy (lit "payload_channel") (channel p) d in
    let d := set_truthy (lit "payload_to") (to p) d in
    set_bool (lit "payload_best_effort_deliver") (bestEffortDeliver p) d
  | SystemEvent text =>
    [ (lit "id", id job);
      (lit "payload_kind", lit "systemEvent");
      (lit "payload_text", text) ]
  end.

(** The optional delivery line. *)
Definition delivery_lines (job : CronJob) : list jstring :=
  match delivery job with
  | Some dl =>
    if negb (str_eqb (mode dl) (lit "none")) then
      let d := [ (lit "id", id job); (lit "delivery_mode", mode dl) ] in
      let d := set_truthy (lit "delivery_channel") (delivery_channel dl) d in
      let d := set_truthy (lit "delivery_to") (delivery_to dl) d in
      let d := set_bool (lit "delivery_best_effort") (bestEffort dl) d in
      [buildTaggedLine d]
    else []
  | None => []
  end.

Definition schedule_fields (job : CronJob) : dict :=
  let d := [ (lit "id", id job);
             (lit "schedule_kind", schedule_kind (schedule job)) ] in
  match schedule job with
  | ScheduleAt at_ => dict_set (lit "schedule_at") at_ d
  | ScheduleEvery everyMs anchorMs =>
    let d := dict_set (lit "schedule_every_ms") (num_to_string everyMs) d in
    set_num (lit "schedule_anchor_ms") anchorMs d
  | ScheduleCron expr tz staggerMs =>
    let d := dict_set (lit "schedule_expr") expr d in
    let d := set_truthy (lit "schedule_tz") tz d in
    set_num (lit "schedule_stagger_ms") staggerMs d
  end.

(** [tz] of a cron schedule when it is truthy. *)
Definition cron_tz (s : CronSchedule) : option jstring :=
  match s with
  | ScheduleCron _ tz _ => or_undefined tz
  | _ => None
  end.

Definition resolveCrontabJobOrThrow (js : list CronJob) (jobId : jstring)
  : exn CronJob :=
  match find (fun entry => str_eqb (id entry) jobId) js with
  | Some job => Ok job
  | None => Throw (lit "cron job not found: " ++ jobId)
  end.

Definition replaceJobInList (js : list CronJob) (job : CronJob) : list CronJob :=
  filter (fun entry => negb (str_eqb (id entry) (id job))) js ++ [job].

Definition removeJobFromList (js : list CronJob) (jobId : jstring) : list CronJob :=
  filter (fun entry => negb (str_eqb (id entry) jobId)) js.

Record CronJobCreate : Type := mkCreate {
  c_agentId : option jstring;
  c_sessionKey : option jstring;
  c_name : jstring;
  c_description : option jstring;
  c_enabled : option bool;
  c_deleteAfterRun : option bool;
  c_schedule : CronSchedule;
  c_sessionTarget : jstring;
  c_wakeMode : jstring;
  c_payload : CronPayload;
  c_delivery : option CronDelivery
}.

(** [s.replace(/\n{3,}/g, "\n\n")]; [n] counts the newlines just emitted. *)
Fixpoint collapse_newlines (n : nat) (s : jstring) : jstring :=
  match s with
  | [] => []
  | c :: r =>
    if is_nl c then
      if (n <? 2)%nat then c :: collapse_newlines (S n) r
      else collapse_newlines n r
    else c :: collapse_newlines 0 r
  end.

(** *** Dates

    [days_to_civil d] is the (year, month 1..12, day 1..31) of the day
    number [d] counted from 1970-01-01 in the proleptic Gregorian calendar. *)
Definition days_to_civil (d : Z) : Z * Z * Z :=
  let z := (d + 719468)%Z in
  let era := (z / 146097)%Z in
  let doe := (z - era * 146097)%Z in
  let yoe := ((doe - doe / 1460 + doe / 36524 - doe / 146096) / 365)%Z in
  let doy := (doe - (365 * yoe + yoe / 4 - yoe / 100))%Z in
  let mp := ((5 * doy + 2) / 153)%Z in
  let dd := (doy - (153 * mp + 2) / 5 + 1)%Z in
  let mm := (if mp <? 10 then mp + 3 else mp - 9)%Z in
  let y := (yoe + era * 400 + (if mm <=? 2 then 1 else 0))%Z in
  (y, mm, dd).

Inductive ScheduleResult : Type :=
| ResolveOk (expr : jstring)
| ResolveError (error : jstring).

Definition format_at (minute hour day month : Z) : jstring :=
  Z_to_string minute ++ lit " " ++ Z_to_string hour ++ lit " "
  ++ Z_to_string day ++ lit " " ++ Z_to_string month ++ lit " *".

(* ================================================================== *)
(** ** Run outcomes, effects and RPC responses *)

Inductive RunMode : Type := Due | Force.

Record CronRunOutcome : Type := mkOutcome {
  status : jstring;
  error : option jstring;
  errorKind : option jstring;
  summary : option jstring;
  sessionId : option jstring;
  outcome_sessionKey : option jstring
}.

(** What [runCronIsolatedAgentTurn] returns. *)
Record IsolatedTurnResult : Type := mkTurnResult {
  r_status : option jstring;
  r_error : option jstring;
  r_summary : option jstring;
  r_sessionId : option jstring;
  r_sessionKey : option jstring
}.

Inductive CrontabRunResult : Type :=
| NotRan (reason : jstring)                        (* {ok:true, ran:false, reason} *)
| Ran (outcome : CronRunOutcome) (next : option num) (* {ok:true, ran:true, ...}   *)
| Failed (error : jstring).                        (* {ok:false, error}          *)

(** The JSON body posted to a webhook. *)
Record WebhookBody : Type := mkBody {
  b_jobId : jstring;
  b_name : jstring;
  b_status : jstring;
  b_summary : option jstring;
  b_error : option jstring;
  b_sessionId : option jstring;
  b_sessionKey : option jstring
}.

(** What [fetchWithSsrFGuard] does: answer, or throw. *)
Inductive FetchResult : Type :=
| Response (res_ok : bool) (res_status : Z)
| FetchThrows (err : jstring).

(** The observable actions of the run pipeline and of the store. *)
Inductive Effect : Type :=
| CrontabList                                   (* crontab -l *)
| CrontabWrite (content : jstring)              (* crontab -, content on stdin *)
| EnqueueSystemEvent (text : jstring) (sessionKey : jstring)
| RequestHeartbeatNow (agentId : jstring) (sessionKey : jstring)
| IsolatedAgentTurn (job : CronJob) (message : jstring)
| WebhookPost (url : jstring) (authorization : option jstring) (body : WebhookBody)
| ServiceCall (method : jstring).               (* the in-process cron service *)

Inductive ErrorCode : Type := INVALID_REQUEST | INTERNAL_ERROR.

Record ErrorShape : Type := errorShape {
  err_code : ErrorCode;
  err_message : jstring
}.

Inductive ResponsePayload : Type :=
| JobPayload (job : CronJob)
| RunPayload (result : CrontabRunResult)
| RemovedPayload.

(** [respond(ok, payload, error)] *)
Record RpcResponse : Type := respond {
  resp_ok : bool;
  resp_payload : option ResponsePayload;
  resp_error : option ErrorShape
}.

(** Computations that may throw and that log their effects. *)
Definition M (A : Type) : Type := exn A * list Effect.

Definition ret {A} (a : A) : M A := (Ok a, []).

Definition raise {A} (msg : jstring) : M A := (Throw msg, []).

Definition perform (e : Effect) : M unit := (Ok tt, [e]).

Definition bindM {A B} (m : M A) (f : A -> M B) : M B :=
  match m with
  | (Ok a, t) => let '(r, t') := f a in (r, t ++ t')
  | (Throw e, t) => (Throw e, t)
  end.

Notation "x <~ m ;; f" := (bindM m (fun x => f))
  (at level 61, m at next level, right associativity).

(** [String(err)] for an [Error] with message [msg]. *)
Definition String_of_error (msg : jstring) : jstring := lit "Error: " ++ msg.

(** [jobs.find(...)], [p.id ?? p.jobId] and friends on optional values. *)
Definition nullish_or {A} (a b : option A) : option A :=
  match a with Some _ => a | None => b end.

Record CronRunParams : Type := mkRunParams {
  p_id : option jstring;
  p_jobId : option jstring;
  p_mode : option RunMode
}.

(* ================================================================== *)
(** ** External collaborators

    Everything the program reaches outside its own source: the [Date]
    object and the clock, the [crontab] command, [./service/jobs.js], the
    agent runtime, the webhook transport, the request validators and the
    configuration.  [Date_parse s] is the time value of [new Date(s)] in
    milliseconds since the epoch ([None] for an Invalid Date);
    [LocalTZA t isUTC] is the offset of the host time zone from UTC in
    milliseconds, at the UTC time value [t] when [isUTC] is [true] and at
    the local time value [t] when it is [false], as in ECMA-262;
    [Date_now] is the reading of [Date.now()].  [crontab_list] is what
    [crontab -l] answers, [crontab_write] what [crontab -] answers to a
    content.  [webhookToken] is [cfg.cron?.webhookToken] and
    [cfg_cron_enabled] is [cfg.cron?.enabled]. *)

Record Host : Type := mkHost {
  Date_parse : jstring -> option Z;
  LocalTZA : Z -> bool -> Z;
  Date_now : Z;
  randomUUID : jstring;
  computeJobNextRunAtMs : CronJob -> Z -> option num;
  isJobDue : CronJob -> Z -> bool;
  crontab_list : CommandResult;
  crontab_write : jstring -> CommandResult;
  resolveDefaultAgentId : jstring;
  resolveAgentMainSessionKey : jstring -> jstring;
  runCronIsolatedAgentTurn : CronJob -> jstring -> IsolatedTurnResult;
  normalizeHttpWebhookUrl : option jstring -> option jstring;
  fetchWithSsrFGuard : jstring -> option jstring -> WebhookBody -> FetchResult;
  webhookToken : option jstring;
  RawParams : Type;
  normalizeCronJobCreate : RawParams -> option RawParams;
  validateCronAddParams : RawParams -> bool;
  formatAddErrors : RawParams -> jstring;
  asCronJobCreate : RawParams -> CronJobCreate;
  validateScheduleTimestamp : CronSchedule -> option jstring;
  validateCronRunParams : CronRunParams -> bool;
  formatRunErrors : CronRunParams -> jstring;
  cfg_cron_enabled : option bool;
  context_cron_add : CronJobCreate -> CronJob;
  context_cron_run : jstring -> RunMode -> CrontabRunResult
}.

(* ================================================================== *)
(** ** A reference host and sample data

    Used to run the program on concrete inputs. *)

Definition days_from_civil (y m d : Z) : Z :=
  let y' := (if m <=? 2 then y - 1 else y)%Z in
  let era := (y' / 400)%Z in
  let yoe := (y' - era * 400)%Z in
  let doy := ((153 * (if 2 <? m then m - 3 else m + 9) + 2) / 5 + d - 1)%Z in
  let doe := (yoe * 365 + yoe / 4 - yoe / 100 + doy)%Z in
  (era * 146097 + doe - 719468)%Z.

Fixpoint all_digits (s : jstring) : bool :=
  match s with
  | [] => true
  | c :: r => match digit_val c with Some _ => all_digits r | None => false end
  end.

Definition field (from len : nat) (s : jstring) : option Z :=
  let f := firstn len (skipn from s) in
  if (length f =? len)%nat && all_digits f then Some (parse_digits 0 f) else None.

(** [new Date(s)] on the date-time format [YYYY-MM-DDTHH:mm:ss.sssZ]. *)
Definition iso_Date_parse (s : jstring) : option Z :=
  match field 0 4 s, field 5 2 s, field 8 2 s,
        field 11 2 s, field 14 2 s, field 17 2 s, field 20 3 s with
  | Some y, Some mo, Some d, Some h, Some mi, Some sec, Some ms =>
    if (length s =? 24)%nat
       && str_eqb (firstn 1 (skipn 4 s)) (lit "-")
       && str_eqb (firstn 1 (skipn 7 s)) (lit "-")
       && str_eqb (firstn 1 (skipn 10 s)) (lit "T")
       && str_eqb (firstn 1 (skipn 13 s)) (lit ":")
       && str_eqb (firstn 1 (skipn 16 s)) (lit ":")
       && str_eqb (firstn 1 (skipn 19 s)) (lit ".")
       && str_eqb (skipn 23 s) (lit "Z")
       && (1 <=? mo)%Z && (mo <=? 12)%Z && (1 <=? d)%Z && (d <=? 31)%Z
       && (h <=? 23)%Z && (mi <=? 59)%Z && (sec <=? 59)%Z
    then Some (days_from_civil y mo d * 86400000
               + h * 3600000 + mi * 60000 + sec * 1000 + ms)%Z
    else None
  | _, _, _, _, _, _, _ => None
  end.

Definition sample_job : CronJob :=
  mkJob (lit "7f3c2a10-9d4e-4b1a-8c55-0e6f1a2b3c4d") None None (lit "ping me")
        (Some (lit "d=1 #x")) true None (Int 1700000000000) (Int 1700000000001)
        (ScheduleCron (lit "*/5 * * * *") None None) (lit "main") (lit "now")
        (SystemEvent (lit "wake up")) None (mkState None).

Definition sample_turn : AgentTurn :=
  mkAgentTurn (lit "summarise the inbox") None None None None None None None None.

Definition sample_isolated_job : CronJob :=
  mkJob (lit "0b8e6c52-1f0a-4e57-b7a3-5d2c9e418f60") None None (lit "digest")
        None true None (Int 1700000000000) (Int 1700000000000)
        (ScheduleEvery (Int 3600000) None) (lit "isolated") (lit "now")
        (AgentTurnPayload sample_turn)
        (Some (mkDelivery (lit "webhook") None (Some (lit "http://hooks.example/cron")) None))
        (mkState None).

(** [job] with another payload. *)
Definition with_payload (p : CronPayload) (j : CronJob) : CronJob :=
  mkJob (id j) (agentId j) (sessionKey j) (name j) (description j) (enabled j)
        (deleteAfterRun j) (createdAtMs j) (updatedAtMs j) (schedule j)
        (sessionTarget j) (wakeMode j) p (delivery j) (state j).

Definition with_delivery (d : option CronDelivery) (j : CronJob) : CronJob :=
  mkJob (id j) (agentId j) (sessionKey j) (name j) (description j) (enabled j)
        (deleteAfterRun j) (createdAtMs j) (updatedAtMs j) (schedule j)
        (sessionTarget j) (wakeMode j) (payload j) d (state j).

Definition sample_turn_result : IsolatedTurnResult :=
  mkTurnResult None None (Some (lit "3 new mails")) (Some (lit "s-1")) (Some (lit "k-1")).

Definition sample_create : CronJobCreate :=
  mkCreate None None (lit "too fast") None None None
           (ScheduleEvery (Int 45000) None) (lit "main") (lit "now")
           (SystemEvent (lit "tick")) None.

Definition payload_kind (p : CronPayload) : jstring :=
  match p with
  | SystemEvent _ => lit "systemEvent"
  | AgentTurnPayload _ => lit "agentTurn"
  end.

(** A crontab holding one user line and [sample_job], disabled. *)
Definition sample_crontab : CommandResult :=
  mkResult true
    (join NL
       [ lit "0 3 * * * /usr/bin/backup.sh";
         lit "";
         lit "# openclaw:cron id=7f3c2a10-9d4e-4b1a-8c55-0e6f1a2b3c4d name=ping%20me enabled=false session_target=main wake_mode=now created_at_ms=1700000000000 updated_at_ms=1700000000001 description=d%3D1%20%23x";
         lit "# openclaw:cron id=7f3c2a10-9d4e-4b1a-8c55-0e6f1a2b3c4d payload_kind=systemEvent payload_text=wake%20up";
         lit "# openclaw:cron id=7f3c2a10-9d4e-4b1a-8c55-0e6f1a2b3c4d schedule_kind=cron schedule_expr=*%2F5%20*%20*%20*%20*";
         lit "# */5 * * * * openclaw cron run 7f3c2a10-9d4e-4b1a-8c55-0e6f1a2b3c4d # openclaw:cron id=7f3c2a10-9d4e-4b1a-8c55-0e6f1a2b3c4d" ])
    [].

(** The reference host: local time is UTC, the crontab is
    [sample_crontab], crontab mode is on, the webhook endpoint answers 500
    and no job is ever due. *)
Definition reference_host : Host :=
  mkHost iso_Date_parse (fun _ _ => 0%Z) 1700000100000
         (lit "5e1f0c9a-3b7d-4c2e-9a61-7d8e4f2b6c10")
         (fun _ _ => None) (fun _ _ => false)
         sample_crontab (fun _ => mkResult true [] [])
         (lit "main") (fun agent => lit "agent:" ++ agent ++ lit ":main")
         (fun _ _ => sample_turn_result)
         or_undefined (fun _ _ _ => Response false 500) None
         CronJobCreate (fun _ => None) (fun _ => true) (fun _ => [])
         (fun c => c) (fun _ => None)
         (fun _ => true) (fun _ => [])
         (Some false) (fun _ => sample_job) (fun _ _ => NotRan (lit "unused")).

(** The reference host with another answer to [crontab -l]. *)
Definition with_crontab_list (r : CommandResult) (h : Host) : Host :=
  mkHost (Date_parse h) (LocalTZA h) (Date_now h) (randomUUID h)
         (computeJobNextRunAtMs h) (isJobDue h) r (crontab_write h)
         (resolveDefaultAgentId h) (resolveAgentMainSessionKey h)
         (runCronIsolatedAgentTurn h) (normalizeHttpWebhookUrl h)
         (fetchWithSsrFGuard h) (webhookToken h)
         (RawParams h) (normalizeCronJobCreate h) (validateCronAddParams h)
         (formatAddErrors h) (asCronJobCreate h) (validateScheduleTimestamp h)
         (validateCronRunParams h) (formatRunErrors h)
         (cfg_cron_enabled h) (context_cron_add h) (context_cron_run h).

(** The host [h] in another time zone. *)
Definition with_zone (zone : Z -> bool -> Z) (h : Host) : Host :=
  mkHost (Date_parse h) zone (Date_now h) (randomUUID h)
         (computeJobNextRunAtMs h) (isJobDue h) (crontab_list h) (crontab_write h)
         (resolveDefaultAgentId h) (resolveAgentMainSessionKey h)
         (runCronIsolatedAgentTurn h) (normalizeHttpWebhookUrl h)
         (fetchWithSsrFGuard h) (webhookToken h)
         (RawParams h) (normalizeCronJobCreate h) (validateCronAddParams h)
         (formatAddErrors h) (asCronJobCreate h) (validateScheduleTimestamp h)
         (validateCronRunParams h) (formatRunErrors h)
         (cfg_cron_enabled h) (context_cron_add h) (context_cron_run h).

(** The host [h] in a time zone [offset] milliseconds east of UTC all
    year. *)
Definition with_offset (offset : Z) (h : Host) : Host :=
  with_zone (fun _ _ => offset) h.

Definition sample_run_params : CronRunParams :=
  mkRunParams (Some (lit "7f3c2a10-9d4e-4b1a-8c55-0e6f1a2b3c4d")) None None.

(** User crontabs: the second one has two empty lines in a row. *)
Definition user_lines : list jstring :=
  [ lit "MAILTO=ops@example.org"; lit ""; lit "0 3 * * * /usr/bin/backup.sh" ].

Definition user_lines_with_gap : list jstring :=
  [ lit "MAILTO=ops@example.org"; lit ""; lit "";
    lit "0 3 * * * /usr/bin/backup.sh" ].

(** A record with an empty field and values that need escaping. *)
Definition sample_record : dict :=
  [ (lit "id", lit "7f3c2a10");
    (lit "name", lit "café #1 = 50%");
    (lit "description", lit "");
    (lit "payload_text", lit "wake up") ].
(* ================================================================== *)
(** ** The program *)

(** [LocalTime(t)] and [UTC(t)] of ECMA-262. *)
Definition LocalTime (h : Host) (t : Z) : Z := (t + LocalTZA h t true)%Z.
Definition UTC (h : Host) (t : Z) : Z := (t - LocalTZA h t false)%Z.

Definition Date_getMilliseconds (h : Host) (t : Z) : Z := (LocalTime h t mod 1000)%Z.
Definition Date_getSeconds (h : Host) (t : Z) : Z := ((LocalTime h t / 1000) mod 60)%Z.
Definition Date_getMinutes (h : Host) (t : Z) : Z := ((LocalTime h t / 60000) mod 60)%Z.
Definition Date_getHours (h : Host) (t : Z) : Z := ((LocalTime h t / 3600000) mod 24)%Z.
Definition Date_getDate (h : Host) (t : Z) : Z :=
  snd (days_to_civil (LocalTime h t / 86400000)).
Definition Date_getMonth (h : Host) (t : Z) : Z :=
  (snd (fst (days_to_civil (LocalTime h t / 86400000))) - 1)%Z.

(** [d.setMinutes(min, sec, ms)]: the day and the hour of the local time
    are kept, the rest is replaced, and the local time so made is turned
    back into an instant ([MakeDate], [MakeTime] and [UTC] of ECMA-262). *)
Definition Date_setMinutes (h : Host) (t : Z) (min sec ms : Z) : Z :=
  let lt := LocalTime h t in
  let day := (lt / 86400000)%Z in
  let time := (Date_getHours h t * 3600000 + min * 60000 + sec * 1000 + ms)%Z in
  UTC h (day * 86400000 + time)%Z.

Definition resolveCrontabSchedule (h : Host) (s : CronSchedule) : ScheduleResult :=
  match s with
  | ScheduleCron expr0 tz staggerMs =>
    let expr := trim expr0 in
    if negb (truthy expr) then ResolveError (lit "cron expression is required")
    else
      let parts := split_ws expr in
      if (length parts =? 6)%nat then
        ResolveError (lit "crontab does not support 6-field cron (seconds)")
      else if negb (length parts =? 5)%nat then
        ResolveError (lit "crontab requires a 5-field cron expression")
      else if opt_truthy tz then
        ResolveError (lit "crontab scheduler does not support per-job timezones")
      else if match staggerMs with Some (Int z) => (0 <? z)%Z | _ => false end then
        ResolveError (lit "crontab scheduler does not support stagger")
      else ResolveOk expr
  | ScheduleEvery everyMs0 anchorMs =>
    match everyMs0 with
    | NaN => ResolveError (lit "every schedule requires a positive interval")
    | Int everyMs =>
      if (everyMs <=? 0)%Z then
        ResolveError (lit "every schedule requires a positive interval")
      else if match anchorMs with Some _ => true | None => false end then
        ResolveError (lit "crontab scheduler does not support anchored intervals")
      else if negb (Z.rem everyMs ONE_MINUTE_MS =? 0)%Z then
        ResolveError (lit "crontab scheduler supports 1-minute granularity")
      else
        let minutes := (everyMs / ONE_MINUTE_MS)%Z in
        if (minutes <=? 0)%Z then
          ResolveError (lit "every schedule must be at least 1 minute")
        else if (minutes <? 60)%Z && (Z.rem 60 minutes =? 0)%Z then
          ResolveOk (lit "*/" ++ Z_to_string minutes ++ lit " * * * *")
        else
          (* [hours = everyMs / ONE_HOUR_MS] is an integer iff the division is exact *)
          let hours := (everyMs / ONE_HOUR_MS)%Z in
          if (Z.rem everyMs ONE_HOUR_MS =? 0)%Z && (0 <? hours)%Z
             && (Z.rem 24 hours =? 0)%Z then
            ResolveOk (lit "0 */" ++ Z_to_string hours ++ lit " * * *")
          else
            let days := (everyMs / ONE_DAY_MS)%Z in
            if (Z.rem everyMs ONE_DAY_MS =? 0)%Z && (0 <? days)%Z
               && (days <=? 31)%Z then
              ResolveOk (lit "0 0 */" ++ Z_to_string days ++ lit " * *")
            else
              ResolveError (lit "every schedule interval is not representable in crontab")
    end
  | ScheduleAt at_ =>
    let raw := trim at_ in
    match (if truthy raw then Date_parse h raw else None) with
    | None => ResolveError (lit "invalid schedule.at timestamp")
    | Some when =>
      let adjusted :=
        if (0 <? Date_getSeconds h when)%Z || (0 <? Date_getMilliseconds h when)%Z
        then Date_setMinutes h when (Date_getMinutes h when + 1) 0 0
        else when in
      let minute := Date_getMinutes h adjusted in
      let hour := Date_getHours h adjusted in
      let day := Date_getDate h adjusted in
      let month := (Date_getMonth h adjusted + 1)%Z in
      ResolveOk (format_at minute hour day month)
    end
  end.

Definition buildTaggedEntryLines (h : Host) (job : CronJob) : exn (list jstring) :=
  let ls := [buildTaggedLine (base_fields job)] in
  let ls := ls ++ [buildTaggedLine (payload_fields job)] in
  let ls := ls ++ delivery_lines job in
  let ls := ls ++ [buildTaggedLine (schedule_fields job)] in
  match resolveCrontabSchedule h (schedule job) with
  | ResolveError e => Throw (lit "job " ++ id job ++ lit ": " ++ e)
  | ResolveOk cronExpr =>
    let ls :=
      match cron_tz (schedule job) with
      | Some tz => ls ++ [lit "CRON_TZ=" ++ tz]
      | None => ls
      end in
    let scheduleLine :=
      cronExpr ++ lit " " ++ CRON_COMMAND ++ lit " " ++ id job ++ lit " "
      ++ TAG_PREFIX ++ lit " id=" ++ encodeValue (id job) in
    let ls := ls ++ [if enabled job then scheduleLine else lit "# " ++ scheduleLine] in
    let ls :=
      match cron_tz (schedule job) with
      | Some _ => ls ++ [lit "CRON_TZ="]
      | None => ls
      end in
    Ok ls
  end.

Definition resolveSchedule (m : dict) (entry : ParsedTaggedEntry)
  : option CronSchedule :=
  let kind := get_or (lit "schedule_kind") (lit "cron") m in
  if str_eqb kind (lit "at") then
    let at_ := get_or (lit "schedule_at") [] m in
    if negb (truthy at_) then None else Some (ScheduleAt at_)
  else if str_eqb kind (lit "every") then
    let raw := get_or (lit "schedule_every_ms") [] m in
    match parseInt raw with
    | NaN => None
    | Int everyMs =>
      if (everyMs <=? 0)%Z then None
      else Some (ScheduleEvery (Int everyMs)
                               (parsed_if_present (lit "schedule_anchor_ms") m))
    end
  else
    let expr :=
      match dict_get (lit "schedule_expr") m with
      | Some e => e
      | None => match scheduleExpr entry with Some e => e | None => [] end
      end in
    if negb (truthy expr) then None
    else Some (ScheduleCron expr
                 (nullish_or (or_undefined (dict_get (lit "schedule_tz") m))
                             (or_undefined (scheduleTz entry)))
                 (parsed_if_present (lit "schedule_stagger_ms") m)).

Definition buildJobFromEntry (h : Host) (entry : ParsedTaggedEntry) : option CronJob :=
  let m := meta entry in
  match option_map trim (dict_get (lit "id") m) with
  | None => None
  | Some [] => None
  | Some jid =>
    match resolveSchedule m entry with
    | None => None
    | Some sched =>
      let payloadKind := get_or (lit "payload_kind") (lit "systemEvent") m in
      let pl :=
        if str_eqb payloadKind (lit "agentTurn") then
          AgentTurnPayload
            (mkAgentTurn
               (get_or (lit "payload_message") [] m)
               (or_undefined (dict_get (lit "payload_model") m))
               (or_undefined (dict_get (lit "payload_thinking") m))
               (parsed_if_present (lit "payload_timeout_seconds") m)
               (true_or_undefined (lit "payload_allow_unsafe_external_content") m)
               (true_or_undefined (lit "payload_deliver") m)
               (or_undefined (dict_get (lit "payload_channel") m))
               (or_undefined (dict_get (lit "payload_to") m))
               (true_or_undefined (lit "payload_best_effort_deliver") m))
        else
          SystemEvent
            (match dict_get (lit "payload_text") m with
             | Some t => t
             | None => get_or (lit "payload_message") [] m
             end) in
      let deliveryMode := get_or (lit "delivery_mode") (lit "none") m in
      let dl :=
        if str_eqb deliveryMode (lit "none") then None
        else Some (mkDelivery deliveryMode
                     (or_undefined (dict_get (lit "delivery_channel") m))
                     (or_undefined (dict_get (lit "delivery_to") m))
                     (true_or_undefined (lit "delivery_best_effort") m)) in
      let en :=
        match scheduleDisabled entry with
        | Some true => false
        | _ => negb (str_eqb (get_or (lit "enabled") [] m) (lit "false"))
        end in
      let job :=
        mkJob jid
              (or_undefined (dict_get (lit "agent_id") m))
              (or_undefined (dict_get (lit "session_key") m))
              (get_or (lit "name") jid m)
              (or_undefined (dict_get (lit "description") m))
              en
              (true_or_undefined (lit "delete_after_run") m)
              (num_or (parseInt (get_or (lit "created_at_ms") (lit "0") m)) (Int (Date_now h)))
              (num_or (parseInt (get_or (lit "updated_at_ms") (lit "0") m)) (Int (Date_now h)))
              sched
              (get_or (lit "session_target") (lit "main") m)
              (get_or (lit "wake_mode") (lit "now") m)
              pl dl (mkState None) in
      Some (if enabled job
            then set_state (mkState (computeJobNextRunAtMs h job (Date_now h))) job
            else job)
    end
  end.

(** [readCrontabSnapshot], from the answer of [crontab -l] on. *)
Definition snapshot_of (h : Host) (listResult : CommandResult) : CrontabSnapshot :=
  let '(ls, errs) :=
    if ok listResult then
      ((if truthy (stdout listResult) then split_nl (stdout listResult) else []), [])
    else if includes (lit "no crontab") (toLowerCase (stderr listResult)) then
      ([], [])
    else
      ([], [lit "crontab: "
            ++ (if truthy (stderr listResult) then stderr listResult
                else lit "failed to read")]) in
  let '(entries, parseErrors) := findTaggedEntries ls in
  let js :=
    flat_map (fun kv => match buildJobFromEntry h (snd kv) with
                        | Some job => [job]
                        | None => []
                        end) entries in
  mkSnapshot ls js (errs ++ parseErrors).

Definition readCrontabSnapshot (h : Host) : M CrontabSnapshot :=
  _ <~ perform CrontabList ;; ret (snapshot_of h (crontab_list h)).

(** The text that [writeCrontabJobs] pipes to [crontab -]. *)
Definition crontab_content (h : Host) (js : list CronJob) (existingLines : list jstring)
  : exn jstring :=
  let filtered :=
    filter (fun line => negb (includes TAG_PREFIX line) && negb (includes TAG line))
           existingLines in
  do entries <-
    fold_right (fun job acc =>
                  do ls <- buildTaggedEntryLines h job ;;
                  do rest <- acc ;;
                  Ok (ls ++ rest))
               (Ok []) js ;;
  let nextLines :=
    filtered ++ (if (length filtered =? 0)%nat then [] else [[]]) ++ entries ++ [[]] in
  Ok (collapse_newlines 0 (join NL nextLines)).

Definition writeCrontabJobs (h : Host) (js : list CronJob) (existingLines : list jstring)
  : M unit :=
  match crontab_content h js existingLines with
  | Throw e => raise e
  | Ok content =>
    _ <~ perform (CrontabWrite content) ;;
    let writeResult := crontab_write h content in
    if ok writeResult then ret tt
    else raise (lit "crontab - failed: "
                ++ (if truthy (stderr writeResult) then stderr writeResult
                    else lit "unknown error"))
  end.

Definition createCronJobFromInput (h : Host) (input : CronJobCreate) : CronJob :=
  mkJob (randomUUID h) (c_agentId input) (c_sessionKey input) (c_name input)
        (c_description input)
        (match c_enabled input with Some b => b | None => true end)
        (c_deleteAfterRun input) (Int (Date_now h)) (Int (Date_now h))
        (c_schedule input) (c_sessionTarget input) (c_wakeMode input)
        (c_payload input) (c_delivery input) (mkState None).

(* ------------------------------------------------------------------ *)
(** *** The run pipeline ([src/cron/crontab-exec.ts]) *)


Definition resolveJobNextRun (h : Host) (job : CronJob) (nowMs : Z) : option num :=
  if negb (enabled job) then None else computeJobNextRunAtMs h job nowMs.

Definition shouldRunJob (h : Host) (job : CronJob) (mode : RunMode) : bool :=
  match mode with
  | Force => true
  | Due => isJobDue h job (Date_now h)
  end.

(** Returns [(delivered, error)]. *)
Definition deliverWebhook (h : Host) (job : CronJob) (outcome : CronRunOutcome)
  : (bool * option jstring) * list Effect :=
  match delivery job with
  | None => ((false, None), [])
  | Some dl =>
    if negb (str_eqb (mode dl) (lit "webhook")) then ((false, None), [])
    else
      match normalizeHttpWebhookUrl h (delivery_to dl) with
      | None => ((false, Some (lit "invalid webhook url")), [])
      | Some url =>
        let body :=
          mkBody (id job) (name job) (status outcome) (summary outcome)
                 (error outcome) (sessionId outcome) (outcome_sessionKey outcome) in
        let token := option_map trim (webhookToken h) in
        let authorization :=
          match token with
          | Some t => if truthy t then Some (lit "Bearer " ++ t) else None
          | None => None
          end in
        match fetchWithSsrFGuard h url authorization body with
        | Response res_ok res_status =>
          ((res_ok,
            if res_ok then None
            else Some (lit "webhook failed: " ++ Z_to_string res_status)),
           [WebhookPost url authorization body])
        | FetchThrows err =>
          ((false, Some err), [WebhookPost url authorization body])
        end
      end
  end.

(** [if (webhook.error && job.delivery?.bestEffort !== true) {...}] *)
Definition fold_webhook_error (job : CronJob) (webhook_error : option jstring)
    (outcome : CronRunOutcome) : CronRunOutcome :=
  let best :=
    match delivery job with
    | Some dl => match bestEffort dl with Some true => true | _ => false end
    | None => false
    end in
  if opt_truthy webhook_error && negb best then
    mkOutcome (lit "error") webhook_error (Some (lit "delivery-target"))
              (summary outcome) (sessionId outcome) (outcome_sessionKey outcome)
  else outcome.

Definition runCrontabJob (h : Host) (job : CronJob) (mode : RunMode)
  : CrontabRunResult * list Effect :=
  if negb (shouldRunJob h job mode) then (NotRan (lit "not-due"), [])
  else if str_eqb (sessionTarget job) (lit "main") then
    match payload job with
    | AgentTurnPayload _ =>
      (Failed (lit "main session jobs require systemEvent payload"), [])
    | SystemEvent text =>
      let agent :=
        match agentId job with Some a => a | None => resolveDefaultAgentId h end in
      let key :=
        match sessionKey job with
        | Some k => k
        | None => resolveAgentMainSessionKey h agent
        end in
      let wake :=
        if str_eqb (wakeMode job) (lit "now")
           || str_eqb (wakeMode job) (lit "next-heartbeat")
        then [RequestHeartbeatNow agent key] else [] in
      let outcome := mkOutcome (lit "ok") None None None None (Some key) in
      let '((_, webhook_error), posted) := deliverWebhook h job outcome in
      let outcome := fold_webhook_error job webhook_error outcome in
      (Ran outcome (resolveJobNextRun h job (Date_now h)),
       [EnqueueSystemEvent text key] ++ wake ++ posted)
    end
  else
    match payload job with
    | SystemEvent _ =>
      (Failed (lit "isolated jobs require agentTurn payload"), [])
    | AgentTurnPayload p =>
      let result := runCronIsolatedAgentTurn h job (message p) in
      let outcome :=
        mkOutcome (match r_status result with Some s => s | None => lit "ok" end)
                  (r_error result) None (r_summary result) (r_sessionId result)
                  (r_sessionKey result) in
      let '((_, webhook_error), posted) := deliverWebhook h job outcome in
      let outcome := fold_webhook_error job webhook_error outcome in
      (Ran outcome (resolveJobNextRun h job (Date_now h)),
       [IsolatedAgentTurn job (message p)] ++ posted)
    end.

(* ------------------------------------------------------------------ *)
(** *** The RPC facade ([src/gateway/server-methods/cron.ts]) *)


Definition useCrontabSourceOfTruth (h : Host) : bool :=
  match cfg_cron_enabled h with Some false => true | _ => false end.

Definition validateCrontabScheduleOrThrow (h : Host) (s : CronSchedule) : M unit :=
  match resolveCrontabSchedule h s with
  | ResolveError e => raise e
  | ResolveOk _ => ret tt
  end.

Definition invalid_request (msg : jstring) : RpcResponse :=
  respond false None (Some (errorShape INVALID_REQUEST msg)).

Definition internal_error (msg : jstring) : RpcResponse :=
  respond false None (Some (errorShape INTERNAL_ERROR msg)).

(** The ["cron.add"] handler: the response and the effects it had. *)
Definition cron_add (h : Host) (params : RawParams h) : RpcResponse * list Effect :=
  let normalized :=
    match normalizeCronJobCreate h params with Some n => n | None => params end in
  if negb (validateCronAddParams h normalized) then
    (invalid_request (lit "invalid cron.add params: " ++ formatAddErrors h normalized), [])
  else
    let jobCreate := asCronJobCreate h normalized in
    match validateScheduleTimestamp h (c_schedule jobCreate) with
    | Some msg => (invalid_request msg, [])
    | None =>
      if useCrontabSourceOfTruth h then
        let attempt : M CronJob :=
          _ <~ validateCrontabScheduleOrThrow h (c_schedule jobCreate) ;;
          snapshot <~ readCrontabSnapshot h ;;
          let job := createCronJobFromInput h jobCreate in
          let nextJobs := jobs snapshot ++ [job] in
          _ <~ writeCrontabJobs h nextJobs (lines snapshot) ;;
          ret job in
        match attempt with
        | (Ok job, fx) => (respond true (Some (JobPayload job)) None, fx)
        | (Throw err, fx) => (internal_error (String_of_error err), fx)
        end
      else
        (respond true (Some (JobPayload (context_cron_add h jobCreate))) None,
         [ServiceCall (lit "add")])
    end.

(** The ["cron.run"] handler. *)
Definition cron_run (h : Host) (p : CronRunParams) : RpcResponse * list Effect :=
  if negb (validateCronRunParams h p) then
    (invalid_request (lit "invalid cron.run params: " ++ formatRunErrors h p), [])
  else
    match or_undefined (nullish_or (p_id p) (p_jobId p)) with
    | None => (invalid_request (lit "invalid cron.run params: missing id"), [])
    | Some jobId =>
      let m := match p_mode p with Some m => m | None => Force end in
      if useCrontabSourceOfTruth h then
        let attempt : M RpcResponse :=
          snapshot <~ readCrontabSnapshot h ;;
          job <~ (resolveCrontabJobOrThrow (jobs snapshot) jobId, []) ;;
          if negb (shouldRunJob h job m) then
            ret (respond true (Some (RunPayload (NotRan (lit "not-due")))) None)
          else
            result <~ (let '(r, fx) := runCrontabJob h job m in (Ok r, fx)) ;;
            match result with
            | Failed e => ret (internal_error e)
            | _ =>
              _ <~ (match schedule job, deleteAfterRun job, result with
                    | ScheduleAt _, Some true, Ran _ _ =>
                      writeCrontabJobs h (removeJobFromList (jobs snapshot) jobId)
                                       (lines snapshot)
                    | _, _, _ => ret tt
                    end) ;;
              ret (respond true (Some (RunPayload result)) None)
            end in
        match attempt with
        | (Ok r, fx) => (r, fx)
        | (Throw err, fx) => (internal_error (String_of_error err), fx)
        end
      else
        (respond true (Some (RunPayload (context_cron_run h jobId m))) None,
         [ServiceCall (lit "run")])
    end.

(** The crontab-mode branch of the ["cron.remove"] handler, for the
    [jobId] of a request that passed the checks. *)
Definition cron_remove (h : Host) (jobId : jstring) : RpcResponse * list Effect :=
  let attempt : M unit :=
    snapshot <~ readCrontabSnapshot h ;;
    let nextJobs := removeJobFromList (jobs snapshot) jobId in
    writeCrontabJobs h nextJobs (lines snapshot) in
  match attempt with
  | (Ok _, fx) => (respond true (Some RemovedPayload) None, fx)
  | (Throw err, fx) => (internal_error (String_of_error err), fx)
  end.

(* ------------------------------------------------------------------ *)
(** *** The run history ([src/cron/crontab-history.ts])

    The history of a job is read off the log of the cron daemon: the
    journal of [cron.service] or [crond.service], else [/var/log/cron] or
    [/var/log/syslog]. *)

Definition COMMAND_MARKER : jstring := lit "openclaw cron run".

Record CronRunLogEntry : Type := mkLogEntry {
  entry_ts : Z;
  entry_jobId : jstring;
  entry_status : jstring
}.

(** What the history reads: [journalctl -u unit --no-pager -o short-iso],
    as [runCommand] reports it, and [fs.readFile(path, "utf8")], [None]
    when it throws. *)
Record HistoryHost : Type := mkHistoryHost {
  journalctl : jstring -> CommandResult;
  readFile : jstring -> option jstring
}.

Inductive HistoryEffect : Type :=
| Journalctl (unit_ : jstring)
| ReadFile (path : jstring).

(** The items of [/^(\d{4}-\d{2}-\d{2} \d{2}:\d{2}:\d{2})/]. *)
Inductive PatternItem : Type := Digit | Char (c : ascii).

Definition journal_pattern : list PatternItem :=
  [ Digit; Digit; Digit; Digit; Char "-"; Digit; Digit; Char "-"; Digit; Digit;
    Char " "; Digit; Digit; Char ":"; Digit; Digit; Char ":"; Digit; Digit ]%char.

(** The text matched by a pattern anchored at the start of [s]. *)
Fixpoint match_prefix (p : list PatternItem) (s : jstring) : option jstring :=
  match p, s with
  | [], _ => Some []
  | item :: p', c :: s' =>
    if match item with
       | Digit => match digit_val c with Some _ => true | None => false end
       | Char x => Ascii.eqb x c
       end
    then option_map (cons c) (match_prefix p' s')
    else None
  | _ :: _, [] => None
  end.

(** [s.replace(a, b)] for one-character strings: the first [a] only. *)
Fixpoint replace_first (a b : ascii) (s : jstring) : jstring :=
  match s with
  | [] => []
  | c :: r => if Ascii.eqb a c then b :: r else c :: replace_first a b r
  end.

Definition parseJournalTimestamp (h : Host) (line : jstring) : Z :=
  match match_prefix journal_pattern line with
  | None => Date_now h
  | Some m =>
    match Date_parse h (replace_first " " "T" m ++ lit "Z") with
    | Some parsed => parsed
    | None => Date_now h
    end
  end.

Definition parseRunEntry (h : Host) (line jobId : jstring) : option CronRunLogEntry :=
  if negb (includes COMMAND_MARKER line) then None
  else if negb (includes jobId line) then None
  else
    Some (mkLogEntry (parseJournalTimestamp h line) jobId
                     (if includes (lit "error") (toLowerCase line)
                      then lit "error" else lit "ok")).

Definition readJournalLines (hh : HistoryHost) : list jstring * list HistoryEffect :=
  let res := journalctl hh (lit "cron.service") in
  if ok res && truthy (stdout res) then
    (split_nl (stdout res), [Journalctl (lit "cron.service")])
  else
    let res' := journalctl hh (lit "crond.service") in
    if ok res' && truthy (stdout res') then
      (split_nl (stdout res'),
       [Journalctl (lit "cron.service"); Journalctl (lit "crond.service")])
    else
      ([], [Journalctl (lit "cron.service"); Journalctl (lit "crond.service")]).

Definition readSyslogLines (hh : HistoryHost) : list jstring * list HistoryEffect :=
  let usable :=
    fun path => match readFile hh path with
                | Some content => if truthy (trim content) then Some content else None
                | None => None
                end in
  match usable (lit "/var/log/cron") with
  | Some content => (split_nl content, [ReadFile (lit "/var/log/cron")])
  | None =>
    match usable (lit "/var/log/syslog") with
    | Some content =>
      (split_nl content,
       [ReadFile (lit "/var/log/cron"); ReadFile (lit "/var/log/syslog")])
    | None => ([], [ReadFile (lit "/var/log/cron"); ReadFile (lit "/var/log/syslog")])
    end
  end.

(** The loop of [readCrontabRunHistory] over the lines, newest first;
    [entries] is what it has collected so far. *)
Fixpoint collect (h : Host) (jobId : jstring) (limit : Z) (ls : list jstring)
    (entries : list CronRunLogEntry) : list CronRunLogEntry :=
  match ls with
  | [] => entries
  | line :: r =>
    match parseRunEntry h line jobId with
    | None => collect h jobId limit r entries
    | Some parsed =>
      let entries' := entries ++ [parsed] in
      if (limit <=? Z.of_nat (length entries'))%Z then entries'
      else collect h jobId limit r entries'
    end
  end.

Definition readCrontabRunHistory (h : Host) (hh : HistoryHost)
    (jobId : jstring) (limit : Z) : list CronRunLogEntry * list HistoryEffect :=
  let '(journal, fx) := readJournalLines hh in
  let '(ls, fx') :=
    if (length journal =? 0)%nat then readSyslogLines hh else readJournalLines hh in
  (collect h jobId limit (rev ls) [], fx ++ fx').

(* ------------------------------------------------------------------ *)
(** *** The scheduler status ([src/infra/scheduler-status.ts]) *)

Record SchedulerStatus : Type := mkStatus {
  status_crontab : jstring;
  systemdTimers : option jstring;
  systemdServices : option jstring;
  status_errors : option (list jstring)
}.

(** [readSchedulerStatus], from the answers of [crontab -l],
    [systemctl --user list-timers] and [systemctl --user list-units] on. *)
Definition readSchedulerStatus (cronResult timersResult servicesResult : CommandResult)
  : SchedulerStatus :=
  let failed := fun what (r : CommandResult) =>
    [what ++ (if truthy (stderr r) then stderr r else lit "failed to read")] in
  let '(crontab, errs) :=
    if ok cronResult then (stdout cronResult, [])
    else if includes (lit "no crontab") (toLowerCase (stderr cronResult)) then ([], [])
    else ([], failed (lit "crontab: ") cronResult) in
  let '(timers, errs) :=
    if ok timersResult then (Some (stdout timersResult), errs)
    else (None, errs ++ failed (lit "systemd timers: ") timersResult) in
  let '(services, errs) :=
    if ok servicesResult then (Some (stdout servicesResult), errs)
    else (None, errs ++ failed (lit "systemd services: ") servicesResult) in
  mkStatus crontab timers services
           (if (length errs =? 0)%nat then None else Some errs).

(* ------------------------------------------------------------------ *)
(** *** The managed block ([src/unnamed/part_001], first module)

    An earlier writer of the crontab keeps the jobs in one block between
    two marker lines and replaces the block on every sync.  Its
    [resolveCrontabSchedule] is, statement for statement, the one of the
    store, which stands for it here. *)

Definition OPENCLAW_BLOCK_START : jstring := lit "# openclaw:cron begin".
Definition OPENCLAW_BLOCK_END : jstring := lit "# openclaw:cron end".
Definition OPENCLAW_ENTRY_TAG : jstring := lit "# openclaw:cron".
Definition RUN_CMD_PREFIX : jstring := lit "openclaw cron run".

(** [xs.findIndex(p)], [None] for [-1]. *)
Fixpoint findIndex {A : Type} (p : A -> bool) (xs : list A) : option nat :=
  match xs with
  | [] => None
  | x :: r => if p x then Some 0 else option_map S (findIndex p r)
  end.

Definition stripManagedBlock (ls : list jstring) : list jstring :=
  match findIndex (fun line => str_eqb (trim line) OPENCLAW_BLOCK_START) ls with
  | None => ls
  | Some startIndex =>
    (* the first line after [startIndex] that is the end marker *)
    match findIndex (fun line => str_eqb (trim line) OPENCLAW_BLOCK_END)
                    (skipn (S startIndex) ls) with
    | None => firstn startIndex ls
    | Some k =>
      let endIndex := S startIndex + k in
      firstn startIndex ls ++ skipn (endIndex + 1) ls
    end
  end.

(** [text.replace(/\s+/g, " ")]: every run of white space becomes one
    space; [inRun] tells that the byte before belongs to a run. *)
Fixpoint squeeze_ws (inRun : bool) (m : list bool) (s : jstring) : jstring :=
  match m, s with
  | b :: m', c :: s' =>
    if b then
      if inRun then squeeze_ws true m' s'
      else " "%char :: squeeze_ws true m' s'
    else c :: squeeze_ws false m' s'
  | _, _ => []
  end.

(** The characters of the class [[#\r\n]]. *)
Definition hash_or_break (c : ascii) : bool :=
  Ascii.eqb c "#"%char || (code c =? 13)%N || is_nl c.

Definition sanitizeInline (text : jstring) : jstring :=
  let t := squeeze_ws false (ws_mask 0 text) text in
  let t := map (fun c => if hash_or_break c then " "%char else c) t in
  trim t.

Definition formatCrontabCommand (jobId : jstring) : jstring :=
  RUN_CMD_PREFIX ++ lit " " ++ jobId.

(** One turn of the loop of [buildManagedBlock].  The result of
    [resolveCrontabSchedule] never carries a [tz], so that no [CRON_TZ]
    line is pushed. *)
Definition block_job_lines (h : Host) (job : CronJob) : exn (list jstring) :=
  match resolveCrontabSchedule h (schedule job) with
  | ResolveError e => Throw (lit "job " ++ id job ++ lit ": " ++ e)
  | ResolveOk expr =>
    let displayName :=
      sanitizeInline (if truthy (name job) then name job else id job) in
    let tagLine :=
      trim (OPENCLAW_ENTRY_TAG ++ lit " job " ++ id job ++ lit " " ++ displayName) in
    let entry :=
      trim (expr ++ lit " " ++ formatCrontabCommand (id job) ++ lit " "
            ++ OPENCLAW_ENTRY_TAG) in
    Ok [tagLine; if enabled job then entry else lit "# " ++ entry]
  end.

Definition buildManagedBlock (h : Host) (js : list CronJob) : exn (list jstring) :=
  match js with
  | [] => Ok [OPENCLAW_BLOCK_START; lit "# (no cron jobs)"; OPENCLAW_BLOCK_END]
  | _ :: _ =>
    do body <-
      fold_right (fun job acc =>
                    do ls <- block_job_lines h job ;;
                    do rest <- acc ;;
                    Ok (ls ++ rest))
                 (Ok []) js ;;
    Ok (OPENCLAW_BLOCK_START :: body ++ [OPENCLAW_BLOCK_END])
  end.

(** The text that [syncCrontabForJobs] pipes to [crontab -], from the
    lines it has read. *)
Definition sync_content (h : Host) (js : list CronJob) (ls : list jstring)
  : exn jstring :=
  let unmanaged := stripManagedBlock ls in
  do managedBlock <- buildManagedBlock h js ;;
  let nextLines :=
    filter (fun line => negb (str_eqb (trim line) [])) unmanaged
    ++ [[]] ++ managedBlock ++ [[]] in
  Ok (collapse_newlines 0 (join NL nextLines)).

Definition syncCrontabForJobs (h : Host) (js : list CronJob) : M unit :=
  _ <~ perform CrontabList ;;
  let listResult := crontab_list h in
  ls <~ (if ok listResult then ret (split_nl (stdout listResult))
         else if includes (lit "no crontab") (toLowerCase (stderr listResult))
              then ret []
              else raise (lit "crontab -l failed: "
                          ++ (if truthy (stderr listResult) then stderr listResult
                              else lit "unknown error"))) ;;
  match sync_content h js ls with
  | Throw e => raise e
  | Ok content =>
    _ <~ perform (CrontabWrite content) ;;
    let writeResult := crontab_write h content in
    if ok writeResult then ret tt
    else raise (lit "crontab - failed: "
                ++ (if truthy (stderr writeResult) then stderr writeResult
                    else lit "unknown error"))
  end.

(* ------------------------------------------------------------------ *)
(** *** Notions used by the statements *)

(** The outcome assembled by the dispatch, before delivery. *)
Definition dispatch_outcome (h : Host) (job : CronJob) : CronRunOutcome :=
  match payload job with
  | SystemEvent _ =>
    let agent := match agentId job with Some a => a | None => resolveDefaultAgentId h end in
    mkOutcome (lit "ok") None None None None
      (Some (match sessionKey job with
             | Some k => k
             | None => resolveAgentMainSessionKey h agent
             end))
  | AgentTurnPayload p =>
    let result := runCronIsolatedAgentTurn h job (message p) in
    mkOutcome (match r_status result with Some s => s | None => lit "ok" end)
              (r_error result) None (r_summary result) (r_sessionId result)
              (r_sessionKey result)
  end.

(** The session target and the payload kind agree. *)
Definition well_paired (job : CronJob) : bool :=
  if str_eqb (sessionTarget job) (lit "main")
  then str_eqb (payload_kind (payload job)) (lit "systemEvent")
  else str_eqb (payload_kind (payload job)) (lit "agentTurn").

Definition best_effort (job : CronJob) : bool :=
  match delivery job with
  | Some dl => match bestEffort dl with Some true => true | _ => false end
  | None => false
  end.


(** The wall-clock time [L], rounded up to a whole minute. *)
Definition whole_minute_up (L : Z) : Z :=
  if (L mod 60000 =? 0)%Z then L else (L - L mod 60000 + 60000)%Z.


(** Seven-bit characters, and those among them that are not white space. *)
Definition ascii7 (c : ascii) : bool := (code c <? 128)%N.
Definition plain (c : ascii) : bool := ascii7 c && negb (ascii_ws c).

(** A string that [trim] leaves alone: empty, or with a plain character
    at both ends. *)
Definition tight (s : jstring) : bool :=
  match s with
  | [] => true
  | c :: _ => plain c && plain (last s c)
  end.

(** The characters of an encoded value: plain, and never ['=']. *)
Definition enc_char (c : ascii) : bool := plain c && negb (Ascii.eqb c "="%char).

(** How [unescape] sees the encoding of the byte [c]. *)
Definition mark (c : ascii) : bool * ascii := (negb (unreserved c), c).

Definition is_digit (c : ascii) : bool :=
  match digit_val c with Some _ => true | None => false end.

(** A metadata key: non-empty, of plain characters other than ['=']. *)
Definition good_key (k : jstring) : bool := truthy k && forallb enc_char k.

Definition has_value (kv : jstring * jstring) : bool := truthy (snd kv).

Fixpoint uniq_keys (d : dict) : bool :=
  match d with
  | [] => true
  | (k, _) :: r =>
    match dict_get k r with
    | None => uniq_keys r
    | Some _ => false
    end
  end.

(** A record the codec can carry: distinct good keys, well-formed values. *)
Definition fields_ok (d : dict) : bool :=
  forallb (fun kv => good_key (fst kv) && utf8_valid (snd kv)) d.

Definition dict_ok (d : dict) : bool := uniq_keys d && fields_ok d.

Definition keys_ok (d : dict) : bool :=
  forallb (fun kv => good_key (fst kv)) d.

(** One [key=value] token of a tagged line. *)
Definition token_of (kv : jstring * jstring) : jstring :=
  fst kv ++ lit "=" ++ encodeValue (snd kv).

(** What a tagged line built from [d] parses to. *)
Definition parsed (d : dict) : dict := dict_spread [] (filter has_value d).

(** [d.k] when it is a non-empty string. *)
Definition present (k : jstring) (d : dict) : option jstring :=
  or_undefined (dict_get k d).

(** The fields of the base record that follow [enabled]. *)
Definition base_rest (job : CronJob) : dict :=
  let base :=
    [ (lit "session_target", sessionTarget job);
      (lit "wake_mode", wakeMode job);
      (lit "created_at_ms", num_to_string (createdAtMs job));
      (lit "updated_at_ms", num_to_string (updatedAtMs job)) ] in
  let base := set_truthy (lit "description") (description job) base in
  let base := set_truthy (lit "agent_id") (agentId job) base in
  let base := set_truthy (lit "session_key") (sessionKey job) base in
  set_bool (lit "delete_after_run") (deleteAfterRun job) base.

(** The execution line of [job], before the disabling prefix. *)
Definition execution_line (job : CronJob) (cronExpr : jstring) : jstring :=
  cronExpr ++ lit " " ++ CRON_COMMAND ++ lit " " ++ id job ++ lit " "
  ++ TAG_PREFIX ++ lit " id=" ++ encodeValue (id job).

(** [a] is contained in [b], in order. *)
Inductive subseq {A : Type} : list A -> list A -> Prop :=
| subseq_nil (b : list A) : subseq [] b
| subseq_keep (x : A) (a b : list A) : subseq a b -> subseq (x :: a) (x :: b)
| subseq_skip (x : A) (a b : list A) : subseq a b -> subseq a (x :: b).

(** A line as [split("\n")] returns them: without a newline. *)
Definition single_line (l : jstring) : bool := forallb (fun c => negb (is_nl c)) l.

(** Two empty lines in a row. *)
Fixpoint blank_run (ls : list jstring) : bool :=
  match ls with
  | a :: r =>
    match r with
    | b :: _ => (negb (truthy a) && negb (truthy b)) || blank_run r
    | [] => false
    end
  | [] => false
  end.

(** The lines of a crontab that are not ours. *)
Definition untagged (ls : list jstring) : list jstring :=
  filter (fun l => negb (includes TAG l)) ls.

(** *** The normal form of stored jobs

    The jobs the codec carries without loss.  Ids are made of letters,
    digits and ['-'] (they come from [randomUUID]); required strings are
    non-empty; an optional string is absent or non-empty; an optional flag
    is absent or [true]; the creation and update times are non-zero
    integers; a delivery has a mode other than ["none"]; a cron expression
    has no white space around it, contains no ['#'], no [':'] and no
    newline, and has no time zone.  Every string is well-formed and every integer is below
    [10^21] in absolute value, so that [String] prints it in decimal. *)

Definition id_char (c : ascii) : bool :=
  let n := code c in
  (((65 <=? n) && (n <=? 90)) || ((97 <=? n) && (n <=? 122))
   || ((48 <=? n) && (n <=? 57)) || (n =? 45))%N.

Definition expr_char (c : ascii) : bool :=
  negb (Ascii.eqb c "#"%char) && negb (Ascii.eqb c ":"%char) && negb (is_nl c).

Definition required_string (s : jstring) : bool := truthy s && utf8_valid s.

Definition optional_string (o : option jstring) : bool :=
  match o with
  | Some s => required_string s
  | None => true
  end.

Definition optional_flag (o : option bool) : bool :=
  match o with
  | Some false => false
  | _ => true
  end.

Definition decimal (n : num) : bool :=
  match n with
  | NaN => true
  | Int z => (Z.abs z <? 10 ^ 21)%Z
  end.

Definition optional_number (o : option num) : bool :=
  match o with
  | Some n => decimal n
  | None => true
  end.

Definition timestamp (n : num) : bool :=
  match n with
  | NaN => false
  | Int z => negb (z =? 0)%Z && (Z.abs z <? 10 ^ 21)%Z
  end.

Definition schedule_normal (s : CronSchedule) : bool :=
  match s with
  | ScheduleCron expr tz staggerMs =>
    utf8_valid expr && tight expr && forallb expr_char expr
    && match tz with None => true | Some _ => false end
    && optional_number staggerMs
  | ScheduleEvery everyMs anchorMs => decimal everyMs && optional_number anchorMs
  | ScheduleAt at_ => utf8_valid at_
  end.

Definition payload_normal (p : CronPayload) : bool :=
  match p with
  | SystemEvent text => utf8_valid text
  | AgentTurnPayload t =>
    utf8_valid (message t) && optional_string (model t)
    && optional_string (thinking t) && optional_number (timeoutSeconds t)
    && optional_flag (allowUnsafeExternalContent t) && optional_flag (deliver t)
    && optional_string (channel t) && optional_string (to t)
    && optional_flag (bestEffortDeliver t)
  end.

Definition delivery_normal (o : option CronDelivery) : bool :=
  match o with
  | None => true
  | Some d =>
    required_string (mode d) && negb (str_eqb (mode d) (lit "none"))
    && optional_string (delivery_channel d) && optional_string (delivery_to d)
    && optional_flag (bestEffort d)
  end.

Definition normal_form (j : CronJob) : bool :=
  truthy (id j) && forallb id_char (id j)
  && required_string (name j)
  && optional_string (description j) && optional_string (agentId j)
  && optional_string (sessionKey j) && optional_flag (deleteAfterRun j)
  && timestamp (createdAtMs j) && timestamp (updatedAtMs j)
  && schedule_normal (schedule j)
  && required_string (sessionTarget j) && required_string (wakeMode j)
  && payload_normal (payload j) && delivery_normal (delivery j).

(** Decoding, as [readCrontabSnapshot] does on its lines. *)
Definition decode_lines (h : Host) (ls : list jstring) : list CronJob :=
  flat_map (fun kv => match buildJobFromEntry h (snd kv) with
                      | Some job => [job]
                      | None => []
                      end)
           (fst (findTaggedEntries ls)).

(** A character that can sit inside a token of a tagged line: seven-bit,
    not white space, and neither ['='] nor ['#']. *)
Definition token_safe (c : ascii) : bool :=
  plain c && negb (Ascii.eqb c "="%char) && negb (Ascii.eqb c "#"%char).

(** No run of three newlines in [s], when [k] newlines come right before. *)
Fixpoint runs_ok (k : nat) (s : jstring) : bool :=
  match s with
  | [] => true
  | c :: r => if is_nl c then (k <? 2)%nat && runs_ok (S k) r else runs_ok 0 r
  end.

Definition is_post (e : Effect) : bool :=
  match e with WebhookPost _ _ _ => true | _ => false end.

(** The job asks for webhook delivery. *)
Definition webhook_delivery (job : CronJob) : bool :=
  match delivery job with
  | Some dl => str_eqb (mode dl) (lit "webhook")
  | None => false
  end.

Definition feasible (h : Host) (job : CronJob) : bool :=
  match resolveCrontabSchedule h (schedule job) with
  | ResolveOk _ => true
  | ResolveError _ => false
  end.

Definition is_write (e : Effect) : bool :=
  match e with CrontabWrite _ => true | _ => false end.

(** The run result says that the job was dispatched. *)
Definition ran (r : CrontabRunResult) : bool :=
  match r with Ran _ _ => true | _ => false end.

(** [jobId] is the id of a one-shot job of [js]: an ["at"] schedule with
    [deleteAfterRun] set. *)
Definition one_shot (job : CronJob) : bool :=
  match schedule job, deleteAfterRun job with
  | ScheduleAt _, Some true => true
  | _, _ => false
  end.

(** The runs of [jobId] that the lines record, in the order of the lines. *)
Definition runs_of (h : Host) (jobId : jstring) (ls : list jstring)
  : list CronRunLogEntry :=
  flat_map (fun l => match parseRunEntry h l jobId with
                     | Some e => [e]
                     | None => []
                     end) ls.

(** The log lines the history works on: the journal when it has lines,
    else the log file. *)
Definition history_lines (hh : HistoryHost) : list jstring :=
  if (length (fst (readJournalLines hh)) =? 0)%nat then fst (readSyslogLines hh)
  else fst (readJournalLines hh).

(** The command failed, and not for want of a crontab. *)
Definition read_error (r : CommandResult) : bool :=
  negb (ok r) && negb (includes (lit "no crontab") (toLowerCase (stderr r))).

(** An expression that can open an execution line: it starts with a plain
    character and contains no ['#'], no [':'] and no newline. *)
Definition exec_ok (E : jstring) : bool :=
  match E with
  | [] => false
  | c :: _ => plain c
  end && forallb expr_char E.

(** What the first loop of [findTaggedEntries] does to the entry of a
    tagged line that parses to [m]. *)
Definition absorb (i : nat) (rawLine : jstring) (m : dict) (entry : ParsedTaggedEntry)
  : ParsedTaggedEntry :=
  let meta' := dict_spread (meta entry) m in
  match parseScheduleLine rawLine with
  | Some (expr, disabled) =>
    mkEntry (entry_id entry) meta' (Some rawLine) (Some disabled)
            (Some expr) (scheduleTz entry) (Some i)
  | None =>
    mkEntry (entry_id entry) meta' (scheduleLine entry)
            (scheduleDisabled entry) (scheduleExpr entry)
            (scheduleTz entry) (scheduleIndex entry)
  end.

(** The record behind the delivery line, when there is one. *)
Definition delivery_dicts (job : CronJob) : list dict :=
  match delivery job with
  | Some dl =>
    if negb (str_eqb (mode dl) (lit "none")) then
      let d := [ (lit "id", id job); (lit "delivery_mode", mode dl) ] in
      let d := set_truthy (lit "delivery_channel") (delivery_channel dl) d in
      let d := set_truthy (lit "delivery_to") (delivery_to dl) d in
      let d := set_bool (lit "delivery_best_effort") (bestEffort dl) d in
      [d]
    else []
  | None => []
  end.

(** The records of the metadata lines of a job, in the order of the lines. *)
Definition stored_dicts (job : CronJob) : list dict :=
  [base_fields job; payload_fields job] ++ delivery_dicts job
  ++ [schedule_fields job].

(** The last value that a list of records gives to [k], else [a]. *)
Fixpoint find_last (k : jstring) (ds : list dict) (a : option jstring)
  : option jstring :=
  match ds with
  | [] => a
  | d :: r =>
    find_last k r (match present k d with Some v => Some v | None => a end)
  end.

(** The metadata that the lines of a job add up to. *)
Definition stored_meta (job : CronJob) : dict :=
  dict_spread
    (fold_left dict_spread (map parsed (stored_dicts job)) [])
    [(lit "id", id job)].

(** A tagged line of the job [ID] that parses to [m]. *)
Definition line_of (ID : jstring) (lm : jstring * dict) : Prop :=
  includes TAG_PREFIX (trim (fst lm)) = true
  /\ parseTaggedLine (fst lm) = Some (snd lm)
  /\ dict_get (lit "id") (snd lm) = Some ID.


(** The keys of the four kinds of metadata lines. *)
Definition base_keys : list jstring :=
  [ lit "id"; lit "name"; lit "enabled"; lit "session_target"; lit "wake_mode";
    lit "created_at_ms"; lit "updated_at_ms"; lit "description"; lit "agent_id";
    lit "session_key"; lit "delete_after_run" ].

Definition payload_keys : list jstring :=
  [ lit "id"; lit "payload_kind"; lit "payload_message"; lit "payload_text";
    lit "payload_model"; lit "payload_thinking"; lit "payload_timeout_seconds";
    lit "payload_allow_unsafe_external_content"; lit "payload_deliver";
    lit "payload_channel"; lit "payload_to"; lit "payload_best_effort_deliver" ].

Definition delivery_keys : list jstring :=
  [ lit "id"; lit "delivery_mode"; lit "delivery_channel"; lit "delivery_to";
    lit "delivery_best_effort" ].

Definition schedule_keys : list jstring :=
  [ lit "id"; lit "schedule_kind"; lit "schedule_at"; lit "schedule_every_ms";
    lit "schedule_anchor_ms"; lit "schedule_expr"; lit "schedule_tz";
    lit "schedule_stagger_ms" ].

Definition among (k : jstring) (keys : list jstring) : bool :=
  existsb (str_eqb k) keys.

(** The lines of all the jobs, as [writeCrontabJobs] lays them out. *)
Definition entry_lines (h : Host) (js : list CronJob) : exn (list jstring) :=
  fold_right (fun job acc =>
                do ls <- buildTaggedEntryLines h job ;;
                do rest <- acc ;;
                Ok (ls ++ rest))
             (Ok []) js.

(** [J'] is [J] with another [state]. *)
Definition same_job (J J' : CronJob) : Prop := set_state (state J) J' = J.

(** What the first loop of [findTaggedEntries] holds for the job [J], in
    the crontab [whole]. *)
Definition entry_of (whole : list jstring) (J : CronJob)
    (kv : jstring * ParsedTaggedEntry) : Prop :=
  fst kv = id J
  /\ meta (snd kv) = stored_meta J
  /\ scheduleDisabled (snd kv) = Some (negb (enabled J))
  /\ scheduleTz (snd kv) = None
  /\ detect_tz whole (snd kv) = snd kv.

(** A line that is not the begin marker of the managed block. *)
Definition not_start (l : jstring) : bool :=
  negb (str_eqb (trim l) OPENCLAW_BLOCK_START).

(** A job whose id and cron expression hold no newline. *)
Definition one_line_job (j : CronJob) : bool :=
  single_line (id j)
  && match schedule j with
     | ScheduleCron expr _ _ => single_line expr
     | _ => true
     end.

(** A line that is not the end marker of the managed block. *)
Definition not_end (l : jstring) : bool :=
  negb (str_eqb (trim l) OPENCLAW_BLOCK_END).

(** The lines of the jobs in the managed block, between the markers. *)
Definition block_body (h : Host) (js : list CronJob) : exn (list jstring) :=
  fold_right (fun job acc =>
                do ls <- block_job_lines h job ;;
                do rest <- acc ;;
                Ok (ls ++ rest))
             (Ok []) js.


(* ------------------------------------------------------------------ *)
(** *** Further sample data *)

(** A one-shot job, and a crontab that holds it as the store writes it. *)
Definition one_shot_job : CronJob :=
  mkJob (lit "c4d1e8a2-77b0-4f3e-9c1d-2a5b6e7f8091") None None (lit "remind once")
        None true (Some true) (Int 1700000000000) (Int 1700000000000)
        (ScheduleAt (lit "2030-06-15T12:34:00.000Z")) (lit "main") (lit "now")
        (SystemEvent (lit "stand up")) None (mkState None).

Definition one_shot_crontab : CommandResult :=
  mkResult true
    (match buildTaggedEntryLines reference_host one_shot_job with
     | Ok ls => join NL ls
     | Throw _ => []
     end)
    [].

Definition one_shot_run_params : CronRunParams :=
  mkRunParams (Some (lit "c4d1e8a2-77b0-4f3e-9c1d-2a5b6e7f8091")) None None.

(** An answer of [crontab -l] that is a failure, and not for want of a
    crontab. *)
Definition denied_crontab : CommandResult :=
  mkResult false [] (lit "crontab: permission denied").

(** A request to add a job every five minutes. *)
Definition sample_create_ok : CronJobCreate :=
  mkCreate None None (lit "five") None None None
           (ScheduleEvery (Int 300000) None) (lit "main") (lit "now")
           (SystemEvent (lit "tick")) None.

(** A line of the log of the cron daemon, as syslog writes it. *)
Definition sample_log_line : jstring :=
  lit "Jun 15 12:34:01 host CRON[4242]: (ops) CMD (openclaw cron run 7f3c2a10-9d4e)".

(** Lines of the user around the lines of the store. *)
Definition user_lines_before : list jstring :=
  [lit "MAILTO=ops@example.org"; lit "0 3 * * * /usr/local/bin/backup"].

Definition user_lines_after : list jstring :=
  [lit "# rotate the logs"; lit "15 4 * * 0 /usr/sbin/logrotate"].

(** A job whose cron expression has five fields on three lines, the second
    of which reads as the end marker of the managed block. *)
Definition three_line_job : CronJob :=
  mkJob (lit "a1b2") None None (lit "daily") None true None
        (Int 1700000000000) (Int 1700000000000)
        (ScheduleCron (lit "A=1" ++ NL ++ lit "# openclaw:cron end" ++ NL
                       ++ lit "@daily") None None)
        (lit "main") (lit "now") (SystemEvent (lit "tick")) None (mkState None).





(** A host in a zone that is one hour east of UTC before
    2030-03-31T01:00:00Z and two hours east from then on; a local time
    that the change skips is read with the offset before the change. *)
Definition spring_forward : Z := 1901149200000%Z.

Definition spring_host : Host :=
  with_zone (fun t isUTC =>
               if isUTC then (if t <? spring_forward then 3600000 else 7200000)%Z
               else (if t <? spring_forward + 7200000 then 3600000 else 7200000)%Z)
            reference_host.

(* ================================================================== *)
(** ** Lemmas on strings *)

Lemma str_eqb_refl (a : jstring) : str_eqb a a = true.
Proof.
  induction a as [|c a IH]; cbn; [reflexivity|].
  now rewrite Ascii.eqb_refl.
Qed.

Lemma str_eqb_eq (a b : jstring) : str_eqb a b = true -> a = b.
Proof.
  revert b; induction a as [|x a IH]; destruct b as [|y b]; cbn;
    try discriminate; auto.
  intros H. apply andb_prop in H as [H1 H2].
  apply Ascii.eqb_eq in H1. f_equal; auto.
Qed.

Lemma str_eqb_neq (a b : jstring) : a <> b -> str_eqb a b = false.
Proof.
  intros H. destruct (str_eqb a b) eqn:E; [|reflexivity].
  exfalso. apply H, str_eqb_eq, E.
Qed.

(** *** White space *)

Ltac bool_hyp H :=
  repeat rewrite ?orb_true_iff, ?andb_true_iff, ?N.eqb_eq, ?N.leb_le,
    ?N.ltb_lt, ?negb_true_iff, ?orb_false_iff, ?andb_false_iff,
    ?N.eqb_neq, ?N.leb_gt, ?N.ltb_ge in H.

Lemma ws2_high (c1 c2 : ascii) :
  ws2 c1 c2 = true -> ascii7 c1 = false /\ ascii7 c2 = false.
Proof.
  unfold ws2, ascii7. intros H. bool_hyp H.
  rewrite !N.ltb_ge. lia.
Qed.

Lemma ws3_high (c1 c2 c3 : ascii) :
  ws3 c1 c2 c3 = true ->
  ascii7 c1 = false /\ ascii7 c2 = false /\ ascii7 c3 = false.
Proof.
  unfold ws3, ascii7. cbv zeta.
  generalize (code c1) (code c2) (code c3); intros a b c H. bool_hyp H.
  rewrite !N.ltb_ge. lia.
Qed.

Lemma ascii_ws_ascii7 (c : ascii) : ascii_ws c = true -> ascii7 c = true.
Proof.
  unfold ascii_ws, ascii7. intros H. bool_hyp H. apply N.ltb_lt. lia.
Qed.

Lemma ws2_false_l c1 c2 : ascii7 c1 = true -> ws2 c1 c2 = false.
Proof.
  intros H. destruct (ws2 c1 c2) eqn:E; [|reflexivity].
  apply ws2_high in E. destruct E; congruence.
Qed.

Lemma ws2_false_r c1 c2 : ascii7 c2 = true -> ws2 c1 c2 = false.
Proof.
  intros H. destruct (ws2 c1 c2) eqn:E; [|reflexivity].
  apply ws2_high in E. destruct E; congruence.
Qed.

Lemma ws3_false c1 c2 c3 :
  ascii7 c1 = true \/ ascii7 c2 = true \/ ascii7 c3 = true ->
  ws3 c1 c2 c3 = false.
Proof.
  intros H. destruct (ws3 c1 c2 c3) eqn:E; [|reflexivity].
  apply ws3_high in E. destruct E as (? & ? & ?).
  destruct H as [H | [H | H]]; congruence.
Qed.

Lemma ws_len_ascii7 (c : ascii) (s : jstring) :
  ascii7 c = true -> ws_len (c :: s) = if ascii_ws c then 1 else 0.
Proof.
  intros H. cbn. destruct (ascii_ws c); [reflexivity|].
  destruct s as [|c2 [|c3 r]]; [reflexivity | |];
    rewrite ws2_false_l by exact H; [reflexivity|].
  rewrite ws3_false by auto. reflexivity.
Qed.

Lemma ws_len_app (c : ascii) (A B : jstring) :
  ascii7 c = true -> A <> [] -> ws_len (A ++ c :: B) = ws_len A.
Proof.
  intros H HA. destruct A as [|c1 [|c2 [|c3 r]]]; [contradiction | | |];
    cbn [app ws_len].
  - destruct (ascii_ws c1); [reflexivity|].
    rewrite ws2_false_r by exact H.
    destruct B; [reflexivity|]. rewrite ws3_false by auto. reflexivity.
  - destruct (ascii_ws c1); [reflexivity|].
    destruct (ws2 c1 c2); [reflexivity|].
    rewrite ws3_false by auto. reflexivity.
  - reflexivity.
Qed.

Lemma ws_len_le (s : jstring) : ws_len s <= length s.
Proof.
  destruct s as [|c1 [|c2 [|c3 r]]]; cbn;
    repeat match goal with |- context [if ?b then _ else _] => destruct b end;
    lia.
Qed.

Lemma ws_mask_length (s : jstring) : forall k, length (ws_mask k s) = length s.
Proof.
  induction s as [|c s IH]; intros k; [reflexivity|].
  cbn [ws_mask]. destruct k; [destruct (ws_len (c :: s))|]; cbn; now rewrite IH.
Qed.

Lemma ws_mask_app (c : ascii) (B : jstring) :
  ascii7 c = true ->
  forall A k, k <= length A ->
    ws_mask k (A ++ c :: B) = ws_mask k A ++ ws_mask 0 (c :: B).
Proof.
  intros H. induction A as [|a A IH]; intros k Hk.
  - cbn in Hk. replace k with 0 by lia. reflexivity.
  - cbn [app]. cbn [ws_mask]. destruct k as [|k].
    + change (a :: A ++ c :: B) with ((a :: A) ++ c :: B).
      rewrite ws_len_app by (auto; discriminate).
      pose proof (ws_len_le (a :: A)) as Hle. cbn [length] in Hle.
      destruct (ws_len (a :: A)) as [|n]; cbn [app]; f_equal; apply IH; lia.
    + cbn [app]. f_equal. apply IH. cbn in Hk. lia.
Qed.

Lemma ws_mask_ascii7 (c : ascii) (B : jstring) :
  ascii7 c = true -> ws_mask 0 (c :: B) = ascii_ws c :: ws_mask 0 B.
Proof.
  intros H. cbn [ws_mask]. rewrite ws_len_ascii7 by exact H.
  destruct (ascii_ws c); reflexivity.
Qed.

Lemma plain_ascii7 c : plain c = true -> ascii7 c = true.
Proof. unfold plain. intros H. apply andb_prop in H. tauto. Qed.

Lemma plain_not_ws c : plain c = true -> ascii_ws c = false.
Proof.
  unfold plain. intros H. apply andb_prop in H as [_ H].
  now apply negb_true_iff.
Qed.

Lemma ws_mask_plain_cons (c : ascii) (B : jstring) :
  plain c = true -> ws_mask 0 (c :: B) = false :: ws_mask 0 B.
Proof.
  intros H. rewrite ws_mask_ascii7 by (apply plain_ascii7, H).
  now rewrite plain_not_ws.
Qed.

Lemma ws_mask_plain (s : jstring) :
  forallb plain s = true -> ws_mask 0 s = map (fun _ => false) s.
Proof.
  induction s as [|c s IH]; [reflexivity|]. cbn [forallb]. intros H.
  apply andb_prop in H as [Hc Hs].
  rewrite ws_mask_plain_cons by exact Hc. cbn. now rewrite IH.
Qed.

(** *** [trim] *)

Lemma trimStart_ws (c : ascii) (s : jstring) :
  ascii_ws c = true -> trimStart (c :: s) = trimStart s.
Proof.
  intros H. unfold trimStart.
  rewrite ws_mask_ascii7 by (apply ascii_ws_ascii7, H). now rewrite H.
Qed.

Lemma trimStart_plain (c : ascii) (s : jstring) :
  plain c = true -> trimStart (c :: s) = c :: s.
Proof.
  intros H. unfold trimStart. now rewrite ws_mask_plain_cons.
Qed.

Lemma trimEnd_plain (c : ascii) (s : jstring) :
  plain c = true -> trimEnd (s ++ [c]) = s ++ [c].
Proof.
  intros H. unfold trimEnd.
  rewrite ws_mask_app
    by (first [apply plain_ascii7; exact H | apply Nat.le_0_l]).
  rewrite ws_mask_plain_cons by exact H. cbn [ws_mask].
  rewrite !rev_app_distr. cbn. now rewrite rev_involutive.
Qed.

Lemma trim_tight (s : jstring) : tight s = true -> trim s = s.
Proof.
  destruct s as [|c r]; [reflexivity|]. unfold tight. intros H.
  apply andb_prop in H as [H1 H2]. unfold trim.
  rewrite trimStart_plain by exact H1.
  rewrite (app_removelast_last c (l := c :: r)) by discriminate.
  apply trimEnd_plain. exact H2.
Qed.

Lemma tight_plain (s : jstring) : forallb plain s = true -> tight s = true.
Proof.
  destruct s as [|c r]; [reflexivity|]. intros H. unfold tight.
  rewrite forallb_forall in H.
  rewrite (H c) by (left; reflexivity). cbn [andb].
  apply H.
  destruct (@exists_last _ (c :: r)) as (l' & a & E); [discriminate|].
  rewrite E, last_last. apply in_or_app. right. left. reflexivity.
Qed.

(** *** Splitting *)

Lemma split_on_not_nil (m : list bool) (s : jstring) : split_on m s <> [].
Proof.
  revert s; induction m as [|b m IH]; intros [|c s]; cbn; try discriminate.
  destruct b; [discriminate|].
  specialize (IH s). destruct (split_on m s); [contradiction | discriminate].
Qed.

Lemma split_on_app (m1 m2 : list bool) (A B : jstring) (c : ascii) :
  length m1 = length A ->
  split_on (m1 ++ true :: m2) (A ++ c :: B) = split_on m1 A ++ split_on m2 B.
Proof.
  revert A; induction m1 as [|b m1 IH]; intros [|a A] Hlen; cbn in Hlen;
    try discriminate; [reflexivity|].
  cbn [app split_on]. rewrite IH by lia.
  destruct b; [reflexivity|].
  pose proof (split_on_not_nil m1 A) as Hn.
  destruct (split_on m1 A); [contradiction | reflexivity].
Qed.

Lemma split_ws_app (c : ascii) (A B : jstring) :
  ascii_ws c = true -> split_ws (A ++ c :: B) = split_ws A ++ split_ws B.
Proof.
  intros H. unfold split_ws.
  rewrite ws_mask_app
    by (first [apply ascii_ws_ascii7; exact H | apply Nat.le_0_l]).
  rewrite ws_mask_ascii7 by (apply ascii_ws_ascii7, H). rewrite H.
  rewrite split_on_app by apply ws_mask_length.
  apply filter_app.
Qed.

Lemma split_on_none (s : jstring) : split_on (map (fun _ => false) s) s = [s].
Proof.
  induction s as [|c s IH]; [reflexivity|]. cbn. now rewrite IH.
Qed.

Lemma split_ws_plain (s : jstring) :
  forallb plain s = true -> s <> [] -> split_ws s = [s].
Proof.
  intros H Hn. unfold split_ws. rewrite ws_mask_plain by exact H.
  rewrite split_on_none. destruct s; [contradiction | reflexivity].
Qed.

Lemma join_cons (sep x y : jstring) (r : list jstring) :
  join sep (x :: y :: r) = x ++ sep ++ join sep (y :: r).
Proof. cbn. now rewrite <- !app_assoc. Qed.

Lemma join_app (sep : jstring) (A B : list jstring) (x : jstring) :
  join sep (A ++ x :: B)
  = flat_map (fun y => y ++ sep) A ++ x ++ flat_map (fun y => sep ++ y) B.
Proof.
  induction A as [|a A IH]; [reflexivity|].
  destruct A as [|a' A].
  - cbn. now rewrite <- !app_assoc.
  - change ((a :: a' :: A) ++ x :: B) with (a :: a' :: (A ++ x :: B)).
    rewrite join_cons. change (a' :: A ++ x :: B) with ((a' :: A) ++ x :: B).
    rewrite IH. cbn [flat_map]. now rewrite <- !app_assoc.
Qed.

(** A word: a non-empty string of plain characters. *)
Lemma split_ws_join (ps : list jstring) :
  Forall (fun p => forallb plain p = true /\ p <> []) ps ->
  split_ws (join (lit " ") ps) = ps.
Proof.
  induction ps as [|p ps IH]; intros H; [reflexivity|].
  inversion H as [|? ? [Hp Hne] Hps]; subst.
  destruct ps as [|q ps].
  - cbn [join flat_map]. rewrite app_nil_r. now apply split_ws_plain.
  - rewrite join_cons.
    change (p ++ lit " " ++ join (lit " ") (q :: ps))
      with (p ++ " "%char :: join (lit " ") (q :: ps)).
    rewrite split_ws_app by reflexivity.
    rewrite split_ws_plain by assumption. rewrite IH by assumption.
    reflexivity.
Qed.

(** *** Percent-encoding *)

Ltac each_ascii c :=
  destruct c as [[] [] [] [] [] [] [] []].

Lemma encode_byte_chars (c : ascii) : forallb enc_char (encode_byte c) = true.
Proof. each_ascii c; reflexivity. Qed.

Lemma encode_chars (s : jstring) :
  forallb enc_char (encodeURIComponent s) = true.
Proof.
  induction s as [|c s IH]; [reflexivity|].
  unfold encodeURIComponent in *. cbn [flat_map].
  rewrite forallb_app, encode_byte_chars, IH. reflexivity.
Qed.

Lemma encode_not_nil (s : jstring) : s <> [] -> encodeURIComponent s <> [].
Proof.
  destruct s as [|c s]; [contradiction|]. intros _.
  unfold encodeURIComponent. cbn [flat_map]. unfold encode_byte.
  destruct (unreserved c); discriminate.
Qed.

Lemma unescape_encode_byte (c : ascii) (rest : jstring) :
  unescape (encode_byte c ++ rest)
  = match unescape rest with
    | Some l => Some (mark c :: l)
    | None => None
    end.
Proof. each_ascii c; cbn; destruct (unescape rest); reflexivity. Qed.

Lemma unescape_encode (s : jstring) :
  unescape (encodeURIComponent s) = Some (map mark s).
Proof.
  induction s as [|c s IH]; [reflexivity|].
  unfold encodeURIComponent in *. cbn [flat_map map].
  rewrite unescape_encode_byte, IH. reflexivity.
Qed.

Lemma is_cont_reserved (c : ascii) : is_cont c = true -> unreserved c = false.
Proof. each_ascii c; cbn; intros H; solve [reflexivity | discriminate H]. Qed.

Lemma unreserved_ascii7 (c : ascii) : unreserved c = true -> ascii7 c = true.
Proof. each_ascii c; cbn; intros H; solve [reflexivity | discriminate H]. Qed.

Lemma map_snd_mark (s : jstring) : map snd (map mark s) = s.
Proof. induction s as [|c s IH]; cbn; [reflexivity | now rewrite IH]. Qed.

Lemma utf8_char_len_ascii7 (c : ascii) (s : jstring) :
  ascii7 c = true -> utf8_char_len (c :: s) = Some 1.
Proof. unfold ascii7. intros H. cbn. now rewrite H. Qed.

Lemma escapes_ok_mark (s : jstring) :
  forall k, utf8_valid_from k s = true -> escapes_ok k (map mark s) = true.
Proof.
  induction s as [|c s IH]; intros k H; [exact H|].
  cbn [map]. unfold mark at 1. cbn [escapes_ok]. cbn [utf8_valid_from] in H.
  destruct k as [|k].
  - destruct (negb (unreserved c) && (128 <=? code c)%N) eqn:E.
    + change ((negb (unreserved c), c) :: map mark s) with (map mark (c :: s)).
      rewrite map_snd_mark.
      destruct (utf8_char_len (c :: s)) as [[|n]|]; try discriminate H.
      apply IH, H.
    + assert (H7 : ascii7 c = true).
      { destruct (unreserved c) eqn:U; [apply unreserved_ascii7, U|].
        cbn in E. unfold ascii7. apply N.ltb_lt. apply N.leb_gt in E. exact E. }
      rewrite utf8_char_len_ascii7 in H by exact H7. apply IH, H.
  - apply andb_prop in H as [Hc Hs].
    rewrite (is_cont_reserved c Hc). cbn. apply IH, Hs.
Qed.

Lemma decode_encode (s : jstring) :
  utf8_valid s = true -> decodeValue (encodeValue s) = s.
Proof.
  intros H. unfold decodeValue, encodeValue, decodeURIComponent.
  rewrite unescape_encode, escapes_ok_mark by exact H.
  apply map_snd_mark.
Qed.

Lemma utf8_valid_ascii7 (s : jstring) :
  forallb ascii7 s = true -> utf8_valid s = true.
Proof.
  unfold utf8_valid. induction s as [|c s IH]; [reflexivity|].
  cbn [forallb]. intros H. apply andb_prop in H as [Hc Hs].
  cbn [utf8_valid_from]. rewrite utf8_char_len_ascii7 by exact Hc.
  apply IH, Hs.
Qed.

(** *** Searching *)

Lemma startsWith_app (p s : jstring) : startsWith p (p ++ s) = true.
Proof.
  induction p as [|c p IH]; [reflexivity|]. cbn.
  now rewrite Ascii.eqb_refl, IH.
Qed.

Lemma indexOf_prefix (p s : jstring) : indexOf p (p ++ s) = Some 0.
Proof.
  destruct p as [|c p]; [destruct s; reflexivity|].
  cbn [app indexOf]. change (c :: p ++ s) with ((c :: p) ++ s).
  now rewrite startsWith_app.
Qed.

Lemma indexOf_cons (p : jstring) (a : ascii) (s : jstring) :
  indexOf p (a :: s)
  = if startsWith p (a :: s) then Some 0 else option_map S (indexOf p s).
Proof. reflexivity. Qed.

(** A pattern whose first character does not occur before it. *)
Lemma indexOf_fresh (c : ascii) (p A B : jstring) :
  forallb (fun x => negb (Ascii.eqb c x)) A = true ->
  indexOf (c :: p) (A ++ (c :: p) ++ B) = Some (length A).
Proof.
  induction A as [|a A IH]; intros H.
  - exact (indexOf_prefix (c :: p) B).
  - cbn [forallb] in H. apply andb_prop in H as [Ha HA].
    change ((a :: A) ++ (c :: p) ++ B) with (a :: (A ++ (c :: p) ++ B)).
    rewrite indexOf_cons. cbn [startsWith].
    apply negb_true_iff in Ha. rewrite Ha. cbn [andb].
    rewrite IH by exact HA. reflexivity.
Qed.

Lemma indexOf_startsWith (p s : jstring) (i : nat) :
  indexOf p s = Some i -> startsWith p (skipn i s) = true.
Proof.
  revert i; induction s as [|c s IH]; intros i; cbn [indexOf].
  - destruct (startsWith p []) eqn:E; [|discriminate].
    intros [= <-]. exact E.
  - destruct (startsWith p (c :: s)) eqn:E.
    + intros [= <-]. exact E.
    + destruct (indexOf p s) as [j|]; [|discriminate].
      cbn. intros [= <-]. cbn. apply IH. reflexivity.
Qed.

Lemma startsWith_includes (p s : jstring) (i : nat) :
  startsWith p (skipn i s) = true -> includes p s = true.
Proof.
  unfold includes. revert i; induction s as [|c s IH]; intros i H.
  - rewrite skipn_nil in H. cbn. now rewrite H.
  - cbn [indexOf]. destruct (startsWith p (c :: s)) eqn:E; [reflexivity|].
    destruct i as [|i]; [cbn in H; congruence|].
    cbn in H. specialize (IH i H).
    destruct (indexOf p s); [reflexivity | discriminate].
Qed.

Lemma startsWith_app_l (a b s : jstring) :
  startsWith (a ++ b) s = true -> startsWith b (skipn (length a) s) = true.
Proof.
  revert s; induction a as [|x a IH]; intros s H; [exact H|].
  destruct s as [|y s]; [discriminate H|].
  cbn in H. apply andb_prop in H as [_ H]. cbn. apply IH, H.
Qed.

Lemma includes_suffix_pattern (a b s : jstring) :
  includes (a ++ b) s = true -> includes b s = true.
Proof.
  unfold includes at 1. destruct (indexOf (a ++ b) s) as [i|] eqn:E;
    [|discriminate]. intros _.
  apply indexOf_startsWith in E. apply startsWith_app_l in E.
  rewrite skipn_skipn in E. eapply startsWith_includes, E.
Qed.

Lemma includes_app (p a b : jstring) : includes p (a ++ p ++ b) = true.
Proof.
  apply (startsWith_includes p (a ++ p ++ b) (length a)).
  rewrite skipn_app, skipn_all, Nat.sub_diag. cbn [skipn app].
  apply startsWith_app.
Qed.

(** *** Numbers *)

Ltac eval_digit :=
  match goal with
  | |- context [digit_val ?c] =>
    let v := eval vm_compute in (digit_val c) in
    change (digit_val c) with v
  end.

Lemma parse_digits_acc (u : Decimal.uint) :
  forall acc, parse_digits (Z.pos acc) (uint_chars u)
              = Z.pos (Pos.of_uint_acc u acc).
Proof.
  induction u; intros acc; cbn [uint_chars parse_digits Pos.of_uint_acc];
    try reflexivity; eval_digit; cbv iota beta;
    rewrite <- IHu; f_equal; lia.
Qed.

Lemma parse_digits_uint (u : Decimal.uint) :
  parse_digits 0 (uint_chars u) = Z.of_N (Pos.of_uint u).
Proof.
  induction u; cbn [uint_chars parse_digits Pos.of_uint];
    try reflexivity; eval_digit; cbv iota beta;
    solve [exact IHu | apply (parse_digits_acc u)].
Qed.

Lemma uint_chars_digits (u : Decimal.uint) :
  forallb is_digit (uint_chars u) = true.
Proof. induction u; cbn [uint_chars forallb]; try reflexivity; exact IHu. Qed.

Lemma uint_chars_not_nil (p : positive) : uint_chars (Pos.to_uint p) <> [].
Proof.
  pose proof (DecimalPos.Unsigned.to_uint_nonnil p) as H.
  destruct (Pos.to_uint p); try discriminate. contradiction.
Qed.

Lemma is_digit_facts (c : ascii) :
  is_digit c = true ->
  enc_char c = true /\ Ascii.eqb c "-"%char = false
  /\ Ascii.eqb c "+"%char = false.
Proof.
  each_ascii c; cbn; intros H; solve [discriminate H | repeat split].
Qed.

Lemma enc_char_plain (c : ascii) : enc_char c = true -> plain c = true.
Proof. unfold enc_char. intros H. apply andb_prop in H. tauto. Qed.

Lemma parseInt_digits (c : ascii) (r : jstring) :
  is_digit c = true -> parseInt (c :: r) = Int (parse_digits 0 (c :: r)).
Proof.
  intros H. destruct (is_digit_facts c H) as (He & Hm & Hp).
  unfold parseInt. rewrite trimStart_plain by (apply enc_char_plain, He).
  rewrite Hm, Hp. unfold starts_with_digit. unfold is_digit in H.
  destruct (digit_val c); [reflexivity | discriminate].
Qed.

Lemma parseInt_minus (c : ascii) (r : jstring) :
  is_digit c = true ->
  parseInt ("-"%char :: c :: r) = Int (- parse_digits 0 (c :: r)).
Proof.
  intros H. unfold parseInt. rewrite trimStart_plain by reflexivity.
  cbn [Ascii.eqb Bool.eqb andb]. unfold starts_with_digit. unfold is_digit in H.
  destruct (digit_val c); [reflexivity | discriminate].
Qed.

Lemma parseInt_Z_to_string (z : Z) : parseInt (Z_to_string z) = Int z.
Proof.
  destruct z as [|p|p]; [reflexivity | |]; cbn [Z_to_string];
    pose proof (uint_chars_not_nil p) as Hn;
    pose proof (uint_chars_digits (Pos.to_uint p)) as Hd;
    pose proof (parse_digits_uint (Pos.to_uint p)) as Hv;
    rewrite DecimalPos.Unsigned.of_to in Hv;
    destruct (uint_chars (Pos.to_uint p)) as [|c r]; try contradiction;
    cbn [forallb] in Hd; apply andb_prop in Hd as [Hc _].
  - rewrite parseInt_digits by exact Hc. now rewrite Hv.
  - rewrite parseInt_minus by exact Hc. now rewrite Hv.
Qed.

Lemma parseInt_num_to_string (n : num) : parseInt (num_to_string n) = n.
Proof. destruct n; [reflexivity | apply parseInt_Z_to_string]. Qed.

Lemma forallb_impl {A} (P Q : A -> bool) (l : list A) :
  (forall x, P x = true -> Q x = true) ->
  forallb P l = true -> forallb Q l = true.
Proof.
  intros HPQ. induction l as [|x l IH]; [reflexivity|]. cbn.
  intros H. apply andb_prop in H as [H1 H2]. now rewrite (HPQ x H1), IH.
Qed.

Lemma Z_to_string_chars (z : Z) : forallb enc_char (Z_to_string z) = true.
Proof.
  assert (H : forall u, forallb enc_char (uint_chars u) = true).
  { intros u. apply (forallb_impl is_digit); [|apply uint_chars_digits].
    intros c Hc. apply is_digit_facts, Hc. }
  destruct z; cbn [Z_to_string]; [reflexivity | apply H |].
  cbn [forallb]. now rewrite H.
Qed.

Lemma num_to_string_chars (n : num) : forallb enc_char (num_to_string n) = true.
Proof. destruct n; [reflexivity | apply Z_to_string_chars]. Qed.

Lemma num_to_string_truthy (n : num) : truthy (num_to_string n) = true.
Proof.
  destruct n as [|[|p|p]]; try reflexivity. cbn.
  pose proof (uint_chars_not_nil p).
  destruct (uint_chars (Pos.to_uint p)); [contradiction | reflexivity].
Qed.

Lemma enc_chars_utf8 (s : jstring) :
  forallb enc_char s = true -> utf8_valid s = true.
Proof.
  intros H. apply utf8_valid_ascii7. revert H. apply forallb_impl.
  intros c Hc. apply plain_ascii7, enc_char_plain, Hc.
Qed.

Lemma num_to_string_utf8 (n : num) : utf8_valid (num_to_string n) = true.
Proof. apply enc_chars_utf8, num_to_string_chars. Qed.

(** *** Dictionaries *)

Lemma str_eqb_spec (a b : jstring) : reflect (a = b) (str_eqb a b).
Proof.
  destruct (str_eqb a b) eqn:E; constructor.
  - apply str_eqb_eq, E.
  - intros ->. rewrite str_eqb_refl in E. discriminate.
Qed.

Lemma dict_get_set (k k' v : jstring) (d : dict) :
  dict_get k (dict_set k' v d)
  = if str_eqb k k' then Some v else dict_get k d.
Proof.
  induction d as [|[k1 v1] d IH]; cbn.
  - destruct (str_eqb k k'); reflexivity.
  - destruct (str_eqb_spec k' k1) as [-> | Hne]; cbn.
    + destruct (str_eqb k k1); reflexivity.
    + rewrite IH. destruct (str_eqb_spec k k1) as [-> | Hne'].
      * rewrite str_eqb_neq by congruence. reflexivity.
      * reflexivity.
Qed.

Lemma uniq_keys_set (k v : jstring) (d : dict) :
  uniq_keys d = true -> uniq_keys (dict_set k v d) = true.
Proof.
  induction d as [|[k1 v1] d IH]; [reflexivity|]. cbn.
  destruct (dict_get k1 d) eqn:E; [discriminate|]. intros H.
  destruct (str_eqb_spec k k1) as [-> | Hne]; cbn.
  - now rewrite E.
  - rewrite dict_get_set, str_eqb_neq by congruence. rewrite E. apply IH, H.
Qed.

Lemma uniq_keys_spread (b a : dict) :
  uniq_keys a = true -> uniq_keys (dict_spread a b) = true.
Proof.
  unfold dict_spread. revert a; induction b as [|[k v] b IH]; intros a H;
    [exact H|]. cbn. apply IH, uniq_keys_set, H.
Qed.

Lemma dict_get_spread (k : jstring) (b a : dict) :
  uniq_keys b = true ->
  dict_get k (dict_spread a b)
  = match dict_get k b with Some v => Some v | None => dict_get k a end.
Proof.
  unfold dict_spread. revert a; induction b as [|[k1 v1] b IH]; intros a H;
    [reflexivity|].
  cbn in H. destruct (dict_get k1 b) eqn:E; [discriminate|].
  cbn. rewrite IH by exact H. rewrite dict_get_set.
  destruct (str_eqb_spec k k1) as [-> | Hne]; [now rewrite E | reflexivity].
Qed.

Lemma filter_has_value_cons (k v : jstring) (d : dict) :
  filter has_value ((k, v) :: d)
  = if truthy v then (k, v) :: filter has_value d else filter has_value d.
Proof. reflexivity. Qed.

Lemma dict_get_filter (k : jstring) (d : dict) :
  uniq_keys d = true ->
  dict_get k (filter has_value d) = present k d.
Proof.
  unfold present.
  induction d as [|[k1 v1] d IH]; [reflexivity|]. cbn [uniq_keys].
  destruct (dict_get k1 d) eqn:E; [discriminate|]. intros H.
  rewrite filter_has_value_cons. cbn [dict_get].
  destruct (str_eqb_spec k k1) as [-> | Hne].
  - destruct v1 as [|c v1]; cbn [truthy or_undefined].
    + rewrite IH by exact H. now rewrite E.
    + cbn [dict_get]. now rewrite str_eqb_refl.
  - destruct (truthy v1); [cbn [dict_get]; rewrite str_eqb_neq by exact Hne|];
      apply IH, H.
Qed.

Lemma uniq_keys_filter (d : dict) :
  uniq_keys d = true -> uniq_keys (filter has_value d) = true.
Proof.
  induction d as [|[k1 v1] d IH]; [reflexivity|]. cbn [uniq_keys].
  destruct (dict_get k1 d) eqn:E; [discriminate|]. intros H.
  rewrite filter_has_value_cons. destruct (truthy v1); [|apply IH, H].
  cbn [uniq_keys]. rewrite dict_get_filter by exact H. unfold present.
  rewrite E. apply IH, H.
Qed.

Lemma uniq_keys_parsed (d : dict) : uniq_keys (parsed d) = true.
Proof. apply uniq_keys_spread. reflexivity. Qed.

Lemma dict_get_parsed (k : jstring) (d : dict) :
  uniq_keys d = true -> dict_get k (parsed d) = present k d.
Proof.
  intros H. unfold parsed.
  rewrite dict_get_spread by (apply uniq_keys_filter, H).
  rewrite dict_get_filter by exact H.
  destruct (present k d); reflexivity.
Qed.

(** *** Tagged lines *)

Lemma last_app_r {A} (x b : list A) (d d' : A) :
  b <> [] -> last (x ++ b) d = last b d'.
Proof.
  intros Hb. induction x as [|a x IH].
  - cbn. destruct b as [|c b]; [contradiction|]. clear Hb.
    revert c; induction b as [|e b IHb]; intros c; [reflexivity|].
    cbn in *. apply IHb.
  - cbn [app last]. destruct (x ++ b) eqn:E; [|exact IH].
    apply app_eq_nil in E. destruct E; contradiction.
Qed.

Lemma tight_app (a m b : jstring) :
  a <> [] -> b <> [] -> tight a = true -> tight b = true ->
  tight (a ++ m ++ b) = true.
Proof.
  intros Ha Hb Ta Tb.
  destruct a as [|c a]; [contradiction|]. destruct b as [|e b]; [contradiction|].
  unfold tight in *. cbn [app].
  apply andb_prop in Ta as [Hc _]. apply andb_prop in Tb as [_ He].
  rewrite Hc. cbn [andb].
  rewrite app_assoc, app_comm_cons.
  rewrite (last_app_r (c :: a ++ m) (e :: b) c e) by discriminate. exact He.
Qed.

Lemma word_token (kv : jstring * jstring) :
  good_key (fst kv) = true ->
  forallb plain (token_of kv) = true /\ token_of kv <> [].
Proof.
  unfold good_key, token_of. intros H. apply andb_prop in H as [Hk Hc].
  split.
  - rewrite !forallb_app. rewrite (forallb_impl enc_char plain _ enc_char_plain Hc).
    rewrite (forallb_impl enc_char plain _ enc_char_plain (encode_chars _)).
    reflexivity.
  - destruct (fst kv); [discriminate Hk | discriminate].
Qed.

Lemma join_not_nil (sep q : jstring) (r : list jstring) :
  q <> [] -> join sep (q :: r) <> [].
Proof. destruct q; [contradiction|]. discriminate. Qed.

Lemma tight_join (ps : list jstring) :
  Forall (fun p => forallb plain p = true /\ p <> []) ps ->
  tight (join (lit " ") ps) = true.
Proof.
  induction ps as [|p ps IH]; intros H; [reflexivity|].
  inversion H as [|? ? [Hp Hne] Hps]; subst.
  destruct ps as [|q ps].
  - cbn [join flat_map]. rewrite app_nil_r. apply tight_plain, Hp.
  - rewrite join_cons. apply tight_app; auto.
    + inversion Hps as [|? ? [_ Hq] _]; subst. apply join_not_nil, Hq.
    + apply tight_plain, Hp.
Qed.

(** The loop body of [parseKeyValueTokens]. *)
Definition token_step (out : dict) (token : jstring) : dict :=
  match indexOf (lit "=") token with
  | None => out
  | Some O => out
  | Some eq =>
    let key := trim (firstn eq token) in
    let rawValue := trim (skipn (S eq) token) in
    if truthy key then dict_set key (decodeValue rawValue) out else out
  end.

Lemma parseKeyValueTokens_fold (text : jstring) :
  parseKeyValueTokens text = fold_left token_step (split_ws (trim text)) [].
Proof. reflexivity. Qed.

Lemma enc_char_not_eq (k : jstring) :
  forallb enc_char k = true ->
  forallb (fun x => negb (Ascii.eqb "="%char x)) k = true.
Proof.
  apply forallb_impl. intros c H. unfold enc_char in H.
  apply andb_prop in H as [_ H]. now rewrite Ascii.eqb_sym.
Qed.

Lemma token_step_token (out : dict) (kv : jstring * jstring) :
  good_key (fst kv) = true -> utf8_valid (snd kv) = true ->
  token_step out (token_of kv) = dict_set (fst kv) (snd kv) out.
Proof.
  destruct kv as [k v]. cbn [fst snd]. intros Hk Hv.
  unfold good_key in Hk. apply andb_prop in Hk as [Hne Hc].
  unfold token_step, token_of. cbn [fst snd].
  change (lit "=") with ("="%char :: []).
  rewrite (indexOf_fresh "="%char [] k (encodeValue v)) by (apply enc_char_not_eq, Hc).
  destruct k as [|c k]; [discriminate Hne|]. cbn [length]. cbv iota beta zeta.
  change (S (length k)) with (length (c :: k)).
  rewrite firstn_app, firstn_all, Nat.sub_diag. cbn [firstn]. rewrite app_nil_r.
  change (S (length (c :: k))) with (1 + length (c :: k)).
  rewrite <- skipn_skipn. rewrite skipn_app, skipn_all, Nat.sub_diag.
  cbn [skipn app].
  rewrite trim_tight
    by (apply tight_plain, (forallb_impl enc_char plain _ enc_char_plain Hc)).
  rewrite trim_tight
    by (apply tight_plain,
          (forallb_impl enc_char plain _ enc_char_plain (encode_chars v))).
  cbn [truthy]. now rewrite decode_encode.
Qed.

Lemma fold_tokens (l : list (jstring * jstring)) :
  forallb (fun kv => good_key (fst kv) && utf8_valid (snd kv)) l = true ->
  forall out,
    fold_left token_step (map token_of l) out
    = fold_left (fun acc kv => dict_set (fst kv) (snd kv) acc) l out.
Proof.
  induction l as [|kv l IH]; intros H out; [reflexivity|].
  cbn [forallb] in H. apply andb_prop in H as [Hkv Hl].
  apply andb_prop in Hkv as [Hk Hv].
  cbn [map fold_left]. rewrite token_step_token by assumption.
  apply IH, Hl.
Qed.

Lemma fields_ok_filter (d : dict) :
  fields_ok d = true -> fields_ok (filter has_value d) = true.
Proof.
  unfold fields_ok. induction d as [|kv d IH]; [reflexivity|].
  cbn [forallb filter]. intros H. apply andb_prop in H as [H1 H2].
  destruct (has_value kv); [cbn [forallb]; rewrite H1|]; apply IH, H2.
Qed.

Lemma keys_ok_filter (d : dict) :
  keys_ok d = true -> keys_ok (filter has_value d) = true.
Proof.
  unfold keys_ok. induction d as [|kv d IH]; [reflexivity|].
  cbn [forallb filter]. intros H. apply andb_prop in H as [H1 H2].
  destruct (has_value kv); [cbn [forallb]; rewrite H1|]; apply IH, H2.
Qed.

Lemma fields_ok_keys (d : dict) : fields_ok d = true -> keys_ok d = true.
Proof.
  unfold fields_ok, keys_ok. apply forallb_impl.
  intros kv H. apply andb_prop in H. tauto.
Qed.

Lemma words_tokens (l : list (jstring * jstring)) :
  keys_ok l = true ->
  Forall (fun p => forallb plain p = true /\ p <> []) (map token_of l).
Proof.
  unfold keys_ok. induction l as [|kv l IH]; intros H; [constructor|].
  cbn [forallb] in H. apply andb_prop in H as [Hk Hl].
  cbn [map]. constructor; [apply word_token, Hk | apply IH, Hl].
Qed.

Lemma buildTaggedLine_shape (d : dict) :
  keys_ok d = true ->
  filter has_value d <> [] ->
  buildTaggedLine d
  = TAG_PREFIX ++ lit " " ++ join (lit " ") (map token_of (filter has_value d)).
Proof.
  intros Hok Hne. unfold buildTaggedLine.
  change (fun kv : jstring * jstring => fst kv ++ lit "=" ++ encodeValue (snd kv))
    with token_of.
  change (fun kv : jstring * jstring => truthy (snd kv)) with has_value.
  apply trim_tight. apply tight_app; try discriminate.
  - destruct (filter has_value d) as [|kv l] eqn:E; [contradiction|].
    cbn [map]. apply join_not_nil.
    apply keys_ok_filter in Hok. rewrite E in Hok. unfold keys_ok in Hok.
    cbn [forallb] in Hok. apply andb_prop in Hok as [Hk _].
    apply word_token, Hk.
  - reflexivity.
  - apply tight_join, words_tokens, keys_ok_filter, Hok.
Qed.

(** A tagged line built from a well-formed record parses back to it. *)
Lemma tagged_line_roundtrip (d : dict) :
  fields_ok d = true ->
  includes TAG_PREFIX (trim (buildTaggedLine d)) = true
  /\ parseTaggedLine (buildTaggedLine d) = Some (parsed d).
Proof.
  intros Hok. destruct (filter has_value d) as [|kv0 l0] eqn:E.
  - unfold buildTaggedLine, parsed.
    change (fun kv : jstring * jstring => truthy (snd kv)) with has_value.
    rewrite E. split; reflexivity.
  - assert (Hne : filter has_value d <> []) by (rewrite E; discriminate).
    rewrite (buildTaggedLine_shape d (fields_ok_keys d Hok) Hne).
    unfold parsed. rewrite E.
    pose proof (fields_ok_filter d Hok) as Hf. rewrite E in Hf.
    set (ps := map token_of (kv0 :: l0)).
    assert (Hw : Forall (fun p => forallb plain p = true /\ p <> []) ps)
      by (apply words_tokens, fields_ok_keys, Hf).
    assert (Ht : tight (join (lit " ") ps) = true) by (apply tight_join, Hw).
    assert (Hj : join (lit " ") ps <> []).
    { subst ps. cbn [map] in *. apply join_not_nil.
      inversion Hw as [|? ? [_ Hx] _]. exact Hx. }
    assert (Hline : tight (TAG_PREFIX ++ lit " " ++ join (lit " ") ps) = true)
      by (apply tight_app; try discriminate; auto).
    rewrite (trim_tight _ Hline). split.
    + unfold includes. now rewrite indexOf_prefix.
    + unfold parseTaggedLine. rewrite indexOf_prefix.
      cbn [Nat.add]. rewrite skipn_app, skipn_all, Nat.sub_diag.
      cbn [skipn app]. f_equal.
      rewrite parseKeyValueTokens_fold.
      assert (Htrim : trim (lit " " ++ join (lit " ") ps) = join (lit " ") ps).
      { unfold trim. change (lit " " ++ ?x) with (" "%char :: x).
        rewrite trimStart_ws by reflexivity. apply trim_tight, Ht. }
      rewrite Htrim, (trim_tight _ Ht), split_ws_join by exact Hw.
      subst ps. rewrite fold_tokens by exact Hf.
      reflexivity.
Qed.

(** *** Records under assignment *)

Lemma forallb_dict_set (P : jstring * jstring -> bool) (k v : jstring) (d : dict) :
  P (k, v) = true -> forallb P d = true -> forallb P (dict_set k v d) = true.
Proof.
  intros Hkv. induction d as [|[k1 v1] d IH]; cbn.
  - now rewrite Hkv.
  - intros H. apply andb_prop in H as [H1 H2].
    destruct (str_eqb_spec k k1) as [-> | Hne]; cbn.
    + now rewrite Hkv, H2.
    + now rewrite H1, IH.
Qed.

Lemma dict_set_app (k v : jstring) (A B : dict) :
  dict_get k A = None -> dict_set k v (A ++ B) = A ++ dict_set k v B.
Proof.
  induction A as [|[k1 v1] A IH]; [reflexivity|]. cbn.
  destruct (str_eqb k k1); [discriminate|]. intros H. now rewrite IH.
Qed.

Lemma set_truthy_app (k : jstring) (o : option jstring) (A B : dict) :
  dict_get k A = None -> set_truthy k o (A ++ B) = A ++ set_truthy k o B.
Proof.
  intros H. destruct o as [s|]; [|reflexivity]. cbn.
  destruct (truthy s); [apply dict_set_app, H | reflexivity].
Qed.

Lemma set_bool_app (k : jstring) (o : option bool) (A B : dict) :
  dict_get k A = None -> set_bool k o (A ++ B) = A ++ set_bool k o B.
Proof.
  intros H. destruct o; [apply dict_set_app, H | reflexivity].
Qed.

Lemma keys_ok_set (k v : jstring) (d : dict) :
  good_key k = true -> keys_ok d = true -> keys_ok (dict_set k v d) = true.
Proof. intros Hk. apply forallb_dict_set. exact Hk. Qed.

Lemma keys_ok_set_truthy (k : jstring) (o : option jstring) (d : dict) :
  good_key k = true -> keys_ok d = true -> keys_ok (set_truthy k o d) = true.
Proof.
  intros Hk Hd. destruct o as [s|]; [|exact Hd]. cbn.
  destruct (truthy s); [now apply keys_ok_set | exact Hd].
Qed.

Lemma keys_ok_set_bool (k : jstring) (o : option bool) (d : dict) :
  good_key k = true -> keys_ok d = true -> keys_ok (set_bool k o d) = true.
Proof.
  intros Hk Hd. destruct o; [now apply keys_ok_set | exact Hd].
Qed.

Lemma keys_ok_set_num (k : jstring) (o : option num) (d : dict) :
  good_key k = true -> keys_ok d = true -> keys_ok (set_num k o d) = true.
Proof.
  intros Hk Hd. destruct o; [now apply keys_ok_set | exact Hd].
Qed.

Ltac keys_ok_tac :=
  repeat first [ apply keys_ok_set_truthy; [reflexivity|]
               | apply keys_ok_set_bool; [reflexivity|]
               | apply keys_ok_set_num; [reflexivity|]
               | apply keys_ok_set; [reflexivity|] ];
  reflexivity.

Lemma base_fields_split (b : bool) (job : CronJob) :
  base_fields (set_enabled b job)
  = [ (lit "id", id job); (lit "name", name job) ]
    ++ (lit "enabled", bool_string b) :: base_rest job.
Proof.
  unfold base_fields, base_rest. cbn [set_enabled id name enabled sessionTarget
    wakeMode createdAtMs updatedAtMs description agentId sessionKey deleteAfterRun].
  change [ (lit "id", id job); (lit "name", name job);
           (lit "enabled", bool_string b);
           (lit "session_target", sessionTarget job);
           (lit "wake_mode", wakeMode job);
           (lit "created_at_ms", num_to_string (createdAtMs job));
           (lit "updated_at_ms", num_to_string (updatedAtMs job)) ]
    with ([ (lit "id", id job); (lit "name", name job);
            (lit "enabled", bool_string b) ]
          ++ [ (lit "session_target", sessionTarget job);
               (lit "wake_mode", wakeMode job);
               (lit "created_at_ms", num_to_string (createdAtMs job));
               (lit "updated_at_ms", num_to_string (updatedAtMs job)) ]).
  rewrite !set_truthy_app, set_bool_app by reflexivity. reflexivity.
Qed.

Lemma keys_ok_base (job : CronJob) : keys_ok (base_fields job) = true.
Proof. unfold base_fields. keys_ok_tac. Qed.

Lemma filter_has_value_app (A B : dict) :
  filter has_value (A ++ B) = filter has_value A ++ filter has_value B.
Proof. apply filter_app. Qed.

(** The base line, cut around its [enabled] token. *)
Lemma base_line_split (b : bool) (job : CronJob) :
  buildTaggedLine (base_fields (set_enabled b job))
  = (TAG_PREFIX ++ lit " "
     ++ flat_map (fun y => y ++ lit " ")
          (map token_of
             (filter has_value [ (lit "id", id job); (lit "name", name job) ])))
    ++ (lit "enabled=" ++ bool_string b)
    ++ flat_map (fun y => lit " " ++ y)
         (map token_of (filter has_value (base_rest job))).
Proof.
  rewrite buildTaggedLine_shape.
  - rewrite base_fields_split, filter_has_value_app,
      (filter_has_value_cons (lit "enabled") (bool_string b) (base_rest job)).
    replace (truthy (bool_string b)) with true by (destruct b; reflexivity).
    rewrite map_app. cbn [map]. rewrite join_app.
    replace (token_of (lit "enabled", bool_string b))
      with (lit "enabled=" ++ bool_string b) by (destruct b; reflexivity).
    now rewrite <- !app_assoc.
  - apply keys_ok_base.
  - rewrite base_fields_split, filter_has_value_app,
      (filter_has_value_cons (lit "enabled") (bool_string b) (base_rest job)).
    replace (truthy (bool_string b)) with true by (destruct b; reflexivity).
    intros H. apply app_eq_nil in H. destruct H as [_ H]. discriminate H.
Qed.

Lemma payload_fields_enabled (b : bool) (job : CronJob) :
  payload_fields (set_enabled b job) = payload_fields job.
Proof. reflexivity. Qed.

Lemma delivery_lines_enabled (b : bool) (job : CronJob) :
  delivery_lines (set_enabled b job) = delivery_lines job.
Proof. reflexivity. Qed.

Lemma schedule_fields_enabled (b : bool) (job : CronJob) :
  schedule_fields (set_enabled b job) = schedule_fields job.
Proof. reflexivity. Qed.

(** *** Newlines *)

Lemma collapse_line (l : jstring) :
  single_line l = true -> l <> [] ->
  forall n s, collapse_newlines n (l ++ s) = l ++ collapse_newlines 0 s.
Proof.
  unfold single_line. induction l as [|c l IH]; [contradiction|].
  intros H _ n s. cbn [forallb] in H. apply andb_prop in H as [Hc Hl].
  apply negb_true_iff in Hc. cbn [app collapse_newlines]. rewrite Hc. f_equal.
  destruct l as [|c' l]; [reflexivity|]. apply IH; [exact Hl | discriminate].
Qed.

Lemma collapse_nl (n : nat) (s : jstring) :
  n <= 1 -> collapse_newlines n (NL ++ s) = NL ++ collapse_newlines (S n) s.
Proof.
  intros H. cbn. destruct n as [|[|n]]; [reflexivity | reflexivity | lia].
Qed.

Lemma join_single (sep l : jstring) : join sep [l] = l.
Proof. cbn. apply app_nil_r. Qed.

Lemma join_app_ne (sep : jstring) (A B : list jstring) :
  A <> [] -> B <> [] -> join sep (A ++ B) = join sep A ++ sep ++ join sep B.
Proof.
  intros HA HB. induction A as [|a A IH]; [contradiction|].
  destruct A as [|a' A].
  - destruct B as [|b B]; [contradiction|].
    cbn [app]. now rewrite join_cons, join_single.
  - change ((a :: a' :: A) ++ B) with (a :: a' :: (A ++ B)).
    rewrite !join_cons. change (a' :: A ++ B) with ((a' :: A) ++ B).
    rewrite IH by discriminate. now rewrite <- !app_assoc.
Qed.

Lemma collapse_lines (L : list jstring) :
  Forall (fun l => single_line l = true) L ->
  blank_run L = false -> L <> [] ->
  forall n T,
    (n <= 1 \/ hd [] L <> []) ->
    exists n',
      collapse_newlines n (join NL L ++ NL ++ T)
      = join NL L ++ NL ++ collapse_newlines n' T.
Proof.
  induction L as [|l L IH]; [contradiction|].
  intros Hs Hb _ n T Hn. inversion Hs as [|? ? Hl HL]; subst.
  destruct L as [|l2 L].
  - rewrite join_single. destruct l as [|c l].
    + cbn [app hd] in *. destruct Hn as [Hn | Hn]; [|contradiction].
      exists (S n). apply (collapse_nl n T Hn).
    + exists 1. rewrite collapse_line by (auto; discriminate).
      now rewrite collapse_nl by lia.
  - rewrite join_cons. rewrite <- !app_assoc.
    cbn [blank_run] in Hb. apply orb_false_iff in Hb as [Hb1 Hb2].
    destruct l as [|c l].
    + cbn [app hd] in *. destruct Hn as [Hn | Hn]; [|contradiction].
      rewrite collapse_nl by exact Hn.
      destruct (IH HL Hb2 ltac:(discriminate) (S n) T) as [n' E].
      * right. cbn [hd]. cbn in Hb1. destruct l2; [discriminate|discriminate].
      * exists n'. now rewrite E.
    + rewrite collapse_line by (auto; discriminate).
      rewrite collapse_nl by lia.
      destruct (IH HL Hb2 ltac:(discriminate) 1 T) as [n' E]; [left; lia|].
      exists n'. rewrite E, <- !app_assoc. reflexivity.
Qed.

Lemma split_on_free (l : jstring) :
  single_line l = true -> split_on (map is_nl l) l = [l].
Proof.
  unfold single_line. induction l as [|c l IH]; [reflexivity|].
  cbn [forallb map split_on]. intros H. apply andb_prop in H as [Hc Hl].
  apply negb_true_iff in Hc. rewrite Hc, IH by exact Hl. reflexivity.
Qed.

Lemma split_nl_line (l X : jstring) :
  single_line l = true -> split_nl (l ++ NL ++ X) = l :: split_nl X.
Proof.
  intros H. unfold split_nl. rewrite map_app.
  change (map is_nl (NL ++ X)) with (true :: map is_nl X).
  change (NL ++ X) with (ascii_of_N 10 :: X).
  rewrite split_on_app by apply length_map.
  now rewrite split_on_free.
Qed.

Lemma split_nl_lines (L : list jstring) (X : jstring) :
  Forall (fun l => single_line l = true) L -> L <> [] ->
  split_nl (join NL L ++ NL ++ X) = L ++ split_nl X.
Proof.
  induction L as [|l L IH]; [contradiction|]. intros Hs _.
  inversion Hs as [|? ? Hl HL]; subst. destruct L as [|l2 L].
  - rewrite join_single. now rewrite split_nl_line.
  - rewrite join_cons, <- !app_assoc. rewrite split_nl_line by exact Hl.
    cbn [app]. f_equal. apply IH; [exact HL | discriminate].
Qed.

Lemma subseq_refl {A} (l : list A) : subseq l l.
Proof. induction l; constructor; assumption. Qed.

Lemma subseq_app_r {A} (l r : list A) : subseq l (l ++ r).
Proof. induction l; cbn; constructor; assumption. Qed.

Lemma not_tag_not_prefix (l : jstring) :
  includes TAG l = false -> includes TAG_PREFIX l = false.
Proof.
  intros H. destruct (includes TAG_PREFIX l) eqn:E; [|reflexivity].
  unfold TAG_PREFIX in E. apply includes_suffix_pattern in E. congruence.
Qed.

(** *** Words *)

Lemma Z_to_string_word (z : Z) :
  forallb plain (Z_to_string z) = true /\ Z_to_string z <> [].
Proof.
  split.
  - apply (forallb_impl enc_char plain _ enc_char_plain), Z_to_string_chars.
  - pose proof (num_to_string_truthy (Int z)) as H. cbn in H.
    destruct (Z_to_string z); [discriminate | discriminate].
Qed.

Lemma split_ws_words (ps : list jstring) :
  Forall (fun p => forallb plain p = true /\ p <> []) ps ->
  length (split_ws (join (lit " ") ps)) = length ps.
Proof. intros H. now rewrite split_ws_join. Qed.

Lemma word_app (a b : jstring) :
  forallb plain a = true -> a <> [] ->
  forallb plain b = true ->
  forallb plain (a ++ b) = true /\ a ++ b <> [].
Proof.
  intros Ha Hne Hb. split.
  - now rewrite forallb_app, Ha, Hb.
  - destruct a; [contradiction | discriminate].
Qed.

Ltac word_tac :=
  repeat first
    [ apply Forall_cons | apply Forall_nil
    | apply Z_to_string_word
    | apply word_app; [reflexivity | discriminate | apply Z_to_string_word]
    | split; [reflexivity | discriminate] ].

Lemma resolve_ok_no_tz (h : Host) (s : CronSchedule) (e : jstring) :
  resolveCrontabSchedule h s = ResolveOk e -> cron_tz s = None.
Proof.
  destruct s as [expr tz st | ms an | at_]; try reflexivity.
  cbn [resolveCrontabSchedule cron_tz].
  destruct (negb (truthy (trim expr))); [discriminate|].
  destruct (length (split_ws (trim expr)) =? 6)%nat; [discriminate|].
  destruct (negb (length (split_ws (trim expr)) =? 5)%nat); [discriminate|].
  destruct tz as [[|c tz]|]; cbn; try reflexivity. discriminate.
Qed.

Lemma startsWith_split (p s : jstring) :
  startsWith p s = true -> exists b, s = p ++ b.
Proof.
  revert s; induction p as [|c p IH]; intros s H; [now exists s|].
  destruct s as [|x s]; [discriminate|]. cbn [startsWith] in H.
  apply andb_prop in H as [Hc H]. apply Ascii.eqb_eq in Hc. subst x.
  destruct (IH s H) as [b ->]. now exists b.
Qed.

Lemma includes_split (p s : jstring) :
  includes p s = true -> exists a b, s = a ++ p ++ b.
Proof.
  unfold includes. destruct (indexOf p s) as [i|] eqn:E; [|discriminate].
  intros _. apply indexOf_startsWith in E.
  destruct (startsWith_split _ _ E) as [b Hb].
  exists (firstn i s), b. rewrite <- Hb. symmetry. apply firstn_skipn.
Qed.

Lemma includes_trans (a b c : jstring) :
  includes a b = true -> includes b c = true -> includes a c = true.
Proof.
  intros Hab Hbc.
  destruct (includes_split _ _ Hab) as (u & v & ->).
  destruct (includes_split _ _ Hbc) as (x & y & ->).
  replace (x ++ (u ++ a ++ v) ++ y) with ((x ++ u) ++ a ++ (v ++ y))
    by now rewrite <- !app_assoc.
  apply includes_app.
Qed.

(* ------------------------------------------------------------------ *)
(** *** The codec on whole jobs *)

Lemma is_digit_expr (c : ascii) : is_digit c = true -> expr_char c = true.
Proof. each_ascii c; cbn; intros H; solve [discriminate H | reflexivity]. Qed.

Lemma Z_to_string_expr (z : Z) : forallb expr_char (Z_to_string z) = true.
Proof.
  assert (H : forall u, forallb expr_char (uint_chars u) = true).
  { intros u. apply (forallb_impl is_digit); [|apply uint_chars_digits].
    apply is_digit_expr. }
  destruct z; cbn [Z_to_string]; [reflexivity | apply H |].
  cbn [forallb]. now rewrite H.
Qed.

Lemma Z_to_string_head (z : Z) (r : jstring) :
  exists c t, Z_to_string z ++ r = c :: t /\ plain c = true.
Proof.
  destruct (Z_to_string_word z) as [Hp Hn].
  destruct (Z_to_string z) as [|c t]; [contradiction|].
  exists c, (t ++ r). split; [reflexivity|].
  cbn [forallb] in Hp. apply andb_prop in Hp. tauto.
Qed.

Lemma id_char_facts (c : ascii) :
  id_char c = true ->
  plain c = true /\ Ascii.eqb "#"%char c = false /\ unreserved c = true.
Proof. each_ascii c; cbn; intros H; solve [discriminate H | repeat split]. Qed.

Lemma id_plain (s : jstring) : forallb id_char s = true -> forallb plain s = true.
Proof. apply forallb_impl. intros c H. apply id_char_facts, H. Qed.

Lemma id_no_hash (s : jstring) :
  forallb id_char s = true ->
  forallb (fun x => negb (Ascii.eqb "#"%char x)) s = true.
Proof.
  apply forallb_impl. intros c H.
  destruct (id_char_facts c H) as (_ & -> & _). reflexivity.
Qed.

Lemma expr_no_hash (s : jstring) :
  forallb expr_char s = true ->
  forallb (fun x => negb (Ascii.eqb "#"%char x)) s = true.
Proof.
  apply forallb_impl. intros c H. unfold expr_char in H.
  apply andb_prop in H as [H _]. apply andb_prop in H as [H _].
  now rewrite Ascii.eqb_sym.
Qed.

(** [p] does not start a string whose first character foreign to [p]
    comes before a character of [p] that the string lacks so far. *)
Lemma startsWith_blocked (c x : ascii) (b : jstring) :
  forall p a,
    forallb (fun y => negb (Ascii.eqb c y)) p = true ->
    existsb (Ascii.eqb x) p = true ->
    forallb (fun y => negb (Ascii.eqb x y)) a = true ->
    startsWith p (a ++ c :: b) = false.
Proof.
  induction p as [|y p IH]; intros a Hc Hx Ha; [discriminate Hx|].
  cbn [forallb] in Hc. apply andb_prop in Hc as [Hy Hc].
  destruct a as [|a0 a]; cbn [app startsWith].
  - rewrite Ascii.eqb_sym. apply negb_true_iff in Hy. now rewrite Hy.
  - destruct (Ascii.eqb y a0) eqn:E; [|reflexivity]. cbn [andb].
    cbn [forallb] in Ha. apply andb_prop in Ha as [Ha0 Ha].
    apply Ascii.eqb_eq in E. subst a0.
    cbn [existsb] in Hx. apply negb_true_iff in Ha0. rewrite Ha0 in Hx.
    cbn [orb] in Hx. now apply IH.
Qed.

Lemma exec_head (E : jstring) :
  exec_ok E = true ->
  exists c t, E = c :: t /\ plain c = true /\ Ascii.eqb "#"%char c = false.
Proof.
  unfold exec_ok. destruct E as [|c t]; [discriminate|]. intros HE.
  apply andb_prop in HE as [Hc Hx]. exists c, t. repeat split; [exact Hc|].
  cbn [forallb] in Hx. apply andb_prop in Hx as [Hx _].
  unfold expr_char in Hx. apply andb_prop in Hx as [Hx _].
  apply andb_prop in Hx as [Hx _].
  apply negb_true_iff in Hx. now rewrite Ascii.eqb_sym.
Qed.

Lemma exec_chars (E : jstring) : exec_ok E = true -> forallb expr_char E = true.
Proof. unfold exec_ok. intros HE. apply andb_prop in HE. tauto. Qed.

Lemma tight_ends (c : ascii) (s w : jstring) :
  plain c = true -> forallb plain w = true -> w <> [] ->
  tight ((c :: s) ++ w) = true.
Proof.
  intros Hc Hw Hn. unfold tight. cbn [app]. rewrite Hc. cbn [andb].
  rewrite app_comm_cons, (last_app_r (c :: s) w c c) by exact Hn.
  rewrite forallb_forall in Hw. apply Hw.
  destruct (@exists_last _ w Hn) as (l' & a & ->).
  rewrite last_last. apply in_or_app. right. now left.
Qed.

Section ExecutionLine.

Variables (ID E : jstring).
Hypothesis HID : forallb id_char ID = true.
Hypothesis HIDne : ID <> [].
Hypothesis HE : exec_ok E = true.

(** The execution line, cut at the marker. *)
Let front : jstring := E ++ lit " " ++ CRON_COMMAND ++ lit " " ++ ID ++ lit " ".
Let back : jstring := TAG_PREFIX ++ lit " id=" ++ encodeValue ID.

Lemma front_no_hash :
  forallb (fun x => negb (Ascii.eqb "#"%char x)) front = true.
Proof using HID HIDne HE.
  unfold front. rewrite !forallb_app.
  rewrite (expr_no_hash _ (exec_chars E HE)), (id_no_hash _ HID). reflexivity.
Qed.

Lemma id_utf8 : utf8_valid ID = true.
Proof using HID HIDne HE.
  apply utf8_valid_ascii7, (forallb_impl plain); [|apply id_plain, HID].
  apply plain_ascii7.
Qed.

Lemma id_token_word :
  forallb plain (lit "id=" ++ encodeValue ID) = true.
Proof using HID HIDne HE.
  rewrite forallb_app. unfold encodeValue.
  rewrite (forallb_impl enc_char plain _ enc_char_plain (encode_chars ID)).
  reflexivity.
Qed.

Lemma execution_line_cut (J : CronJob) :
  id J = ID -> execution_line J E = front ++ back.
Proof using HID HIDne HE.
  intros <-. unfold execution_line, front, back.
  now rewrite <- !app_assoc.
Qed.

Lemma back_parses (X : jstring) :
  indexOf TAG_PREFIX (X ++ back) = Some (length X) ->
  parseTaggedLine (X ++ back) = Some [(lit "id", ID)].
Proof using HID HIDne HE.
  intros Hi. unfold parseTaggedLine. rewrite Hi. f_equal.
  unfold back. rewrite skipn_app, skipn_all2 by lia.
  replace (length X + length TAG_PREFIX - length X) with (length TAG_PREFIX) by lia.
  rewrite skipn_app, skipn_all, Nat.sub_diag. cbn [app skipn].
  assert (Ht : tight (lit "id=" ++ encodeValue ID) = true)
    by (apply tight_plain, id_token_word).
  assert (Htrim : trim (lit " id=" ++ encodeValue ID) = lit "id=" ++ encodeValue ID).
  { unfold trim. change (lit " id=" ++ ?x) with (" "%char :: lit "id=" ++ x).
    rewrite trimStart_ws by reflexivity. apply trim_tight, Ht. }
  rewrite Htrim, parseKeyValueTokens_fold, (trim_tight _ Ht).
  rewrite split_ws_plain by (first [apply id_token_word | discriminate]).
  cbn [fold_left].
  apply (token_step_token [] (lit "id", ID)); [reflexivity | apply id_utf8].
Qed.

Lemma back_found : indexOf TAG_PREFIX (front ++ back) = Some (length front).
Proof using HID HIDne HE.
  unfold back.
  apply (indexOf_fresh "#"%char (lit " " ++ TAG) front
           (lit " id=" ++ encodeValue ID)).
  apply front_no_hash.
Qed.

Lemma back_found_disabled :
  indexOf TAG_PREFIX (lit "# " ++ front ++ back)
  = Some (length (lit "# " ++ front)).
Proof using HID HIDne HE.
  change (lit "# " ++ front ++ back)
    with ("#"%char :: " "%char :: front ++ back).
  rewrite indexOf_cons.
  assert (H0 : startsWith TAG_PREFIX ("#"%char :: " "%char :: front ++ back)
               = false).
  { change TAG_PREFIX with ("#"%char :: " "%char :: TAG).
    cbn [startsWith Ascii.eqb Bool.eqb andb].
    unfold front. rewrite <- app_assoc.
    change (lit " " ++ ?x) with (" "%char :: x).
    apply (startsWith_blocked " "%char ":"%char); try reflexivity.
    apply (forallb_impl expr_char); [|apply (exec_chars E HE)].
    intros c H. unfold expr_char in H. apply andb_prop in H as [H _].
    apply andb_prop in H as [_ H]. now rewrite Ascii.eqb_sym. }
  rewrite H0, indexOf_cons.
  change (startsWith TAG_PREFIX (" "%char :: front ++ back)) with false.
  cbv iota. rewrite back_found. reflexivity.
Qed.

(** The words of the line after the expression. *)
Let rest_words : list jstring :=
  [ lit "openclaw"; lit "cron"; lit "run"; ID; lit "#"; TAG;
    lit "id=" ++ encodeValue ID ].

Lemma line_rest :
  front ++ back = E ++ " "%char :: join (lit " ") rest_words.
Proof using HID HIDne HE.
  unfold front, back, rest_words, CRON_COMMAND, TAG_PREFIX, TAG.
  cbn [join flat_map]. rewrite <- !app_assoc, app_nil_r.
  cbn [lit list_ascii_of_string app]. reflexivity.
Qed.

Lemma rest_words_ok :
  Forall (fun p => forallb plain p = true /\ p <> []) rest_words.
Proof using HID HIDne HE.
  unfold rest_words.
  repeat first [apply Forall_cons | apply Forall_nil];
    try (split; [reflexivity | discriminate]).
  - split; [apply id_plain, HID | exact HIDne].
  - split; [apply id_token_word | discriminate].
Qed.

Lemma line_schedule : exists x, parseScheduleLine (front ++ back) = Some (x, false).
Proof using HID HIDne HE.
  destruct (exec_head E HE) as (c & t & HEq & Hc & Hh).
  unfold parseScheduleLine.
  assert (Hs : trimStart (front ++ back) = front ++ back).
  { unfold front. rewrite HEq. cbn [app]. apply trimStart_plain, Hc. }
  rewrite Hs.
  assert (Hd : startsWith (lit "#") (front ++ back) = false).
  { unfold front. rewrite HEq. change (lit "#") with ["#"%char].
    cbn [app startsWith]. now rewrite Hh. }
  rewrite Hd.
  assert (Ht : includes TAG (front ++ back) = true).
  { unfold back, TAG_PREFIX. rewrite <- !app_assoc.
    rewrite (app_assoc front (lit "# ")). apply includes_app. }
  rewrite Ht. cbn [negb].
  assert (Hc' : includes CRON_COMMAND (front ++ back) = true).
  { unfold front. rewrite <- !app_assoc.
    rewrite (app_assoc E (lit " ")). apply includes_app. }
  rewrite Hc'. cbn [negb].
  rewrite line_rest, split_ws_app by reflexivity.
  rewrite (split_ws_join _ rest_words_ok).
  rewrite length_app. cbn [length rest_words].
  replace (length (split_ws E) + 7 <? 7) with false
    by (symmetry; apply Nat.ltb_ge; lia).
  eauto.
Qed.

Lemma line_schedule_disabled :
  exists x, parseScheduleLine (lit "# " ++ front ++ back) = Some (x, true).
Proof using HID HIDne HE.
  destruct line_schedule as [x Hx]. exists x.
  destruct (exec_head E HE) as (c & t & HEq & Hc & Hh).
  unfold parseScheduleLine in *.
  change (lit "# " ++ front ++ back)
    with ("#"%char :: " "%char :: front ++ back).
  rewrite trimStart_plain by reflexivity.
  cbn [startsWith lit list_ascii_of_string Ascii.eqb Bool.eqb andb skipn].
  rewrite trimStart_ws by reflexivity.
  assert (Hs : trimStart (front ++ back) = front ++ back).
  { unfold front. rewrite HEq. cbn [app]. apply trimStart_plain, Hc. }
  rewrite Hs in *.
  assert (Hd : startsWith (lit "#") (front ++ back) = false).
  { unfold front. rewrite HEq. change (lit "#") with ["#"%char].
    cbn [app startsWith]. now rewrite Hh. }
  rewrite Hd in Hx.
  destruct (negb (includes TAG (front ++ back))); [discriminate Hx|].
  destruct (negb (includes CRON_COMMAND (front ++ back))); [discriminate Hx|].
  destruct (length (split_ws (front ++ back)) <? 7); [discriminate Hx|].
  injection Hx as <-. reflexivity.
Qed.

Lemma line_tight (pre : jstring) :
  pre = [] \/ pre = lit "# " ->
  trim (pre ++ front ++ back) = pre ++ front ++ back.
Proof using HID HIDne HE.
  intros Hpre. apply trim_tight.
  destruct (exec_head E HE) as (c & t & HEq & Hc & Hh).
  assert (Hsplit : pre ++ front ++ back
                   = (pre ++ front ++ TAG_PREFIX ++ lit " ")
                     ++ (lit "id=" ++ encodeValue ID)).
  { unfold back. now rewrite <- !app_assoc. }
  rewrite Hsplit.
  destruct Hpre as [-> | ->].
  - unfold front. rewrite HEq. cbn [app].
    apply (tight_ends c); [exact Hc | apply id_token_word | discriminate].
  - change (lit "# " ++ ?x) with ("#"%char :: " "%char :: x).
    apply (tight_ends "#"%char);
      [reflexivity | apply id_token_word | discriminate].
Qed.

End ExecutionLine.

(** **** Scanning the lines of one job *)

Lemma scan_lines_app (a b : list jstring) :
  forall i acc,
    scan_lines i (a ++ b) acc = scan_lines (i + length a) b (scan_lines i a acc).
Proof.
  induction a as [|l a IH]; intros i acc; cbn [app scan_lines length].
  - now rewrite Nat.add_0_r.
  - rewrite IH. f_equal. lia.
Qed.

Lemma scan_line_tagged (i : nat) (L ID : jstring) (m : dict)
    (entries : entry_map) (errs : list jstring) :
  includes TAG_PREFIX (trim L) = true ->
  parseTaggedLine L = Some m ->
  dict_get (lit "id") m = Some ID ->
  ID <> [] ->
  scan_line i L (entries, errs)
  = (map_set ID
       (absorb i L m
          (match map_get ID entries with
           | Some e => e
           | None => mkEntry ID [] None None None None None
           end))
       entries,
     errs).
Proof.
  intros Hi Hp Hid Hne. unfold scan_line. rewrite Hi, Hp, Hid. cbn [negb].
  destruct ID as [|c r]; [contradiction|]. unfold absorb.
  destruct (parseScheduleLine L) as [[x d]|]; reflexivity.
Qed.

Lemma absorb_keeps (i : nat) (L : jstring) (m : dict) (e : ParsedTaggedEntry) :
  entry_id (absorb i L m e) = entry_id e
  /\ meta (absorb i L m e) = dict_spread (meta e) m
  /\ scheduleTz (absorb i L m e) = scheduleTz e.
Proof.
  unfold absorb. destruct (parseScheduleLine L) as [[x d]|]; repeat split.
Qed.

Lemma absorb_schedule (i : nat) (L x : jstring) (d : bool) (m : dict)
    (e : ParsedTaggedEntry) :
  parseScheduleLine L = Some (x, d) ->
  absorb i L m e
  = mkEntry (entry_id e) (dict_spread (meta e) m) (Some L) (Some d) (Some x)
            (scheduleTz e) (Some i).
Proof. unfold absorb. now intros ->. Qed.

Lemma map_set_absent (k : jstring) (e : ParsedTaggedEntry) (pre : entry_map) :
  map_get k pre = None -> map_set k e pre = pre ++ [(k, e)].
Proof.
  induction pre as [|[k1 e1] pre IH]; [reflexivity|]. cbn [map_get map_set app].
  destruct (str_eqb k k1); [discriminate|]. intros H. now rewrite IH.
Qed.

Lemma map_get_last (k : jstring) (e : ParsedTaggedEntry) (pre : entry_map) :
  map_get k pre = None -> map_get k (pre ++ [(k, e)]) = Some e.
Proof.
  induction pre as [|[k1 e1] pre IH]; cbn [map_get app].
  - now rewrite str_eqb_refl.
  - destruct (str_eqb k k1); [discriminate | exact IH].
Qed.

Lemma map_set_last (k : jstring) (e e' : ParsedTaggedEntry) (pre : entry_map) :
  map_get k pre = None ->
  map_set k e' (pre ++ [(k, e)]) = pre ++ [(k, e')].
Proof.
  induction pre as [|[k1 e1] pre IH]; cbn [map_get map_set app].
  - now rewrite str_eqb_refl.
  - destruct (str_eqb k k1); [discriminate|]. intros H. now rewrite IH.
Qed.

Lemma scan_own_lines (ID : jstring) (lms : list (jstring * dict))
    (pre : entry_map) (errs : list jstring) :
  ID <> [] -> map_get ID pre = None ->
  Forall (line_of ID) lms ->
  forall i e,
  exists e',
    scan_lines i (map fst lms) ((pre ++ [(ID, e)] : entry_map), errs)
    = ((pre ++ [(ID, e')] : entry_map), errs)
    /\ entry_id e' = entry_id e
    /\ meta e' = fold_left dict_spread (map snd lms) (meta e)
    /\ scheduleTz e' = scheduleTz e.
Proof.
  intros Hne Hpre. induction 1 as [|[L m] lms (Hi & Hp & Hid) _ IH]; intros i e.
  - exists e. repeat split.
  - cbn [map fst snd scan_lines fold_left] in *.
    rewrite (scan_line_tagged i L ID m _ _ Hi Hp Hid Hne).
    rewrite (map_get_last ID e pre Hpre), (map_set_last ID e _ pre Hpre).
    destruct (absorb_keeps i L m e) as (K1 & K2 & K3).
    destruct (IH (S i) (absorb i L m e)) as (e' & Hs & H1 & H2 & H3).
    exists e'. rewrite H1, H2, H3, K1, K2, K3. repeat split. exact Hs.
Qed.

Lemma scan_job_lines (ID L0 Lx x : jstring) (m0 mx : dict) (d : bool)
    (lms : list (jstring * dict)) (i : nat) (pre : entry_map)
    (errs : list jstring) :
  ID <> [] -> map_get ID pre = None ->
  line_of ID (L0, m0) ->
  Forall (line_of ID) lms ->
  line_of ID (Lx, mx) ->
  parseScheduleLine Lx = Some (x, d) ->
  scan_lines i (L0 :: map fst lms ++ [Lx]) (pre, errs)
  = (pre ++ [(ID, mkEntry ID
             (dict_spread
                (fold_left dict_spread (map snd lms) (dict_spread [] m0)) mx)
             (Some Lx) (Some d) (Some x) None (Some (i + S (length lms))))],
     errs).
Proof.
  intros Hne Hpre (Hi0 & Hp0 & Hid0) Hl (Hix & Hpx & Hidx) Hx.
  cbn [fst snd] in Hi0, Hp0, Hid0, Hix, Hpx, Hidx. cbn [scan_lines].
  rewrite (scan_line_tagged i L0 ID m0 _ _ Hi0 Hp0 Hid0 Hne).
  rewrite Hpre, (map_set_absent ID _ pre Hpre).
  destruct (absorb_keeps i L0 m0 (mkEntry ID [] None None None None None))
    as (K1 & K2 & K3). cbn [entry_id meta scheduleTz] in K1, K2, K3.
  remember (absorb i L0 m0 (mkEntry ID [] None None None None None)) as e1.
  rewrite scan_lines_app.
  destruct (scan_own_lines ID lms pre errs Hne Hpre Hl (S i) e1)
    as (e' & Hs & H1 & H2 & H3).
  rewrite Hs. cbn [scan_lines].
  rewrite (scan_line_tagged _ Lx ID mx _ _ Hix Hpx Hidx Hne).
  rewrite (map_get_last ID e' pre Hpre), (map_set_last ID e' _ pre Hpre).
  rewrite (absorb_schedule _ Lx x d mx e' Hx).
  rewrite H1, H2, H3, K1, K2, K3, length_map.
  replace (S i + length lms) with (i + S (length lms)) by lia. reflexivity.
Qed.

(** **** Metadata lines *)

Lemma buildTaggedLine_tight (d : dict) :
  keys_ok d = true -> filter has_value d <> [] ->
  trim (buildTaggedLine d) = buildTaggedLine d.
Proof.
  intros Hok Hne. rewrite (buildTaggedLine_shape d Hok Hne).
  apply trim_tight.
  pose proof (words_tokens _ (keys_ok_filter d Hok)) as Hw.
  apply tight_app; try discriminate.
  - destruct (filter has_value d) as [|kv l]; [contradiction|].
    cbn [map]. apply join_not_nil.
    inversion Hw as [|? ? [_ Hx] _]. exact Hx.
  - reflexivity.
  - apply tight_join, Hw.
Qed.

Lemma metadata_line (ID : jstring) (d : dict) :
  fields_ok d = true -> uniq_keys d = true ->
  present (lit "id") d = Some ID ->
  line_of ID (buildTaggedLine d, parsed d).
Proof.
  intros Hf Hu Hid. destruct (tagged_line_roundtrip d Hf) as [Hi Hp].
  repeat split; cbn [fst snd]; [exact Hi | exact Hp|].
  now rewrite dict_get_parsed.
Qed.

Lemma present_has_value (k v : jstring) (d : dict) :
  present k d = Some v -> filter has_value d <> [].
Proof.
  unfold present. induction d as [|[k1 v1] d IH]; [discriminate|].
  cbn [dict_get]. rewrite filter_has_value_cons.
  destruct (str_eqb k k1).
  - cbn [or_undefined]. destruct (truthy v1); discriminate.
  - intros H. destruct (truthy v1); [discriminate | apply IH, H].
Qed.

Lemma metadata_line_head (ID : jstring) (d : dict) :
  fields_ok d = true -> present (lit "id") d = Some ID ->
  startsWith (lit "CRON_TZ=") (trim (buildTaggedLine d)) = false.
Proof.
  intros Hf Hid.
  pose proof (present_has_value _ _ _ Hid) as Hne.
  rewrite (buildTaggedLine_tight d (fields_ok_keys d Hf) Hne).
  rewrite (buildTaggedLine_shape d (fields_ok_keys d Hf) Hne).
  reflexivity.
Qed.

(** **** Looking a key up in the metadata of a job *)

Lemma dict_get_fold_spread (k : jstring) (ds : list dict) :
  Forall (fun d => uniq_keys d = true) ds ->
  forall a,
    dict_get k (fold_left dict_spread (map parsed ds) a)
    = find_last k ds (dict_get k a).
Proof.
  induction 1 as [|d ds Hd _ IH]; intros a; [reflexivity|].
  cbn [map fold_left find_last]. rewrite IH.
  rewrite dict_get_spread by apply uniq_keys_parsed.
  now rewrite dict_get_parsed.
Qed.

Lemma dict_get_set_truthy (k k' : jstring) (o : option jstring) (d : dict) :
  dict_get k (set_truthy k' o d)
  = if str_eqb k k'
    then match or_undefined o with Some s => Some s | None => dict_get k d end
    else dict_get k d.
Proof.
  unfold set_truthy, or_undefined. destruct o as [s|].
  - destruct (truthy s); [apply dict_get_set|]. now destruct (str_eqb k k').
  - now destruct (str_eqb k k').
Qed.

Lemma dict_get_set_bool (k k' : jstring) (o : option bool) (d : dict) :
  dict_get k (set_bool k' o d)
  = if str_eqb k k'
    then match o with Some b => Some (bool_string b) | None => dict_get k d end
    else dict_get k d.
Proof.
  unfold set_bool. destruct o as [b|]; [apply dict_get_set|].
  now destruct (str_eqb k k').
Qed.

Lemma dict_get_set_num (k k' : jstring) (o : option num) (d : dict) :
  dict_get k (set_num k' o d)
  = if str_eqb k k'
    then match o with Some n => Some (num_to_string n) | None => dict_get k d end
    else dict_get k d.
Proof.
  unfold set_num. destruct o as [n|]; [apply dict_get_set|].
  now destruct (str_eqb k k').
Qed.

(** **** The records of a job in normal form *)

Lemma fields_ok_set (k v : jstring) (d : dict) :
  good_key k = true -> utf8_valid v = true ->
  fields_ok d = true -> fields_ok (dict_set k v d) = true.
Proof.
  intros Hk Hv. apply forallb_dict_set. cbn [fst snd]. now rewrite Hk, Hv.
Qed.

Lemma fields_ok_set_truthy (k : jstring) (o : option jstring) (d : dict) :
  good_key k = true -> optional_string o = true ->
  fields_ok d = true -> fields_ok (set_truthy k o d) = true.
Proof.
  intros Hk Ho Hd. destruct o as [s|]; [|exact Hd]. cbn.
  unfold optional_string, required_string in Ho.
  apply andb_prop in Ho as [_ Hs].
  destruct (truthy s); [now apply fields_ok_set | exact Hd].
Qed.

Lemma fields_ok_set_bool (k : jstring) (o : option bool) (d : dict) :
  good_key k = true ->
  fields_ok d = true -> fields_ok (set_bool k o d) = true.
Proof.
  intros Hk Hd. destruct o as [[|]|]; [| |exact Hd];
    now apply fields_ok_set.
Qed.

Lemma fields_ok_set_num (k : jstring) (o : option num) (d : dict) :
  good_key k = true ->
  fields_ok d = true -> fields_ok (set_num k o d) = true.
Proof.
  intros Hk Hd. destruct o as [n|]; [|exact Hd].
  apply fields_ok_set; auto. apply num_to_string_utf8.
Qed.

Lemma uniq_keys_set_truthy (k : jstring) (o : option jstring) (d : dict) :
  uniq_keys d = true -> uniq_keys (set_truthy k o d) = true.
Proof.
  intros Hd. destruct o as [s|]; [|exact Hd]. cbn.
  destruct (truthy s); [now apply uniq_keys_set | exact Hd].
Qed.

Lemma uniq_keys_set_bool (k : jstring) (o : option bool) (d : dict) :
  uniq_keys d = true -> uniq_keys (set_bool k o d) = true.
Proof. intros Hd. destruct o; [now apply uniq_keys_set | exact Hd]. Qed.

Lemma uniq_keys_set_num (k : jstring) (o : option num) (d : dict) :
  uniq_keys d = true -> uniq_keys (set_num k o d) = true.
Proof. intros Hd. destruct o; [now apply uniq_keys_set | exact Hd]. Qed.

Ltac eval_keys :=
  repeat match goal with
         | |- context [str_eqb (lit ?a) (lit ?b)] =>
           let v := eval vm_compute in (str_eqb (lit a) (lit b)) in
           change (str_eqb (lit a) (lit b)) with v
         end.

Ltac key_eval :=
  repeat first
    [ progress eval_keys
    | progress cbv iota
    | rewrite dict_get_set_bool | rewrite dict_get_set_truthy
    | rewrite dict_get_set_num | rewrite dict_get_set
    | progress cbn [dict_get] ].

Ltac split_andb :=
  repeat match goal with
         | H : (_ && _) = true |- _ => apply andb_prop in H as [? ?]
         end.

Lemma utf8_valid_id (s : jstring) : forallb id_char s = true -> utf8_valid s = true.
Proof.
  intros H. apply utf8_valid_ascii7, (forallb_impl plain); [|apply id_plain, H].
  apply plain_ascii7.
Qed.

Ltac fields_tac :=
  repeat first
    [ apply fields_ok_set_truthy; [reflexivity | assumption |]
    | apply fields_ok_set_bool; [reflexivity |]
    | apply fields_ok_set_num; [reflexivity |]
    | apply fields_ok_set;
      [reflexivity | first [assumption | apply num_to_string_utf8] |] ].

Ltac uniq_tac :=
  repeat first
    [ apply uniq_keys_set_truthy | apply uniq_keys_set_bool
    | apply uniq_keys_set_num | apply uniq_keys_set ];
  reflexivity.

Lemma bool_string_utf8 (b : bool) : utf8_valid (bool_string b) = true.
Proof. now destruct b. Qed.

(** Each record of a job in normal form can be carried by a line, and
    names the job. *)
Lemma normal_dicts (J : CronJob) :
  normal_form J = true ->
  Forall (fun d => fields_ok d = true /\ uniq_keys d = true
                   /\ present (lit "id") d = Some (id J))
         (stored_dicts J).
Proof.
  unfold normal_form. intros H. split_andb.
  assert (Hid : utf8_valid (id J) = true) by now apply utf8_valid_id.
  assert (Hpid : forall d, dict_get (lit "id") d = Some (id J) ->
                           present (lit "id") d = Some (id J)).
  { intros d Hd. unfold present. rewrite Hd. unfold or_undefined.
    now replace (truthy (id J)) with true. }
  unfold required_string in *. split_andb.
  unfold stored_dicts.
  repeat apply Forall_cons; [| |apply Forall_app; split; [|apply Forall_cons; [|constructor]]].
  - (* base *)
    unfold base_fields. split; [|split].
    + fields_tac. cbn [fields_ok forallb fst snd].
      repeat match goal with H : utf8_valid _ = true |- _ => rewrite H end.
      now rewrite !num_to_string_utf8, bool_string_utf8.
    + uniq_tac.
    + apply Hpid. key_eval. reflexivity.
  - (* payload *)
    unfold payload_fields, payload_normal in *.
    destruct (payload J) as [text | t]; split_andb; (split; [|split]).
    + cbn [fields_ok forallb fst snd].
      repeat match goal with H : utf8_valid _ = true |- _ => rewrite H end.
      reflexivity.
    + reflexivity.
    + apply Hpid. key_eval. reflexivity.
    + fields_tac. cbn [fields_ok forallb fst snd].
      repeat match goal with H : utf8_valid _ = true |- _ => rewrite H end.
      reflexivity.
    + uniq_tac.
    + apply Hpid. key_eval. reflexivity.
  - (* delivery *)
    unfold delivery_dicts, delivery_normal in *.
    destruct (delivery J) as [dl|]; [|constructor].
    unfold required_string in *. split_andb.
    match goal with H : negb _ = true |- _ => rewrite H end.
    apply Forall_cons; [|constructor]. split; [|split].
    + fields_tac. cbn [fields_ok forallb fst snd].
      repeat match goal with H : utf8_valid _ = true |- _ => rewrite H end.
      reflexivity.
    + uniq_tac.
    + apply Hpid. key_eval. reflexivity.
  - (* schedule *)
    unfold schedule_fields, schedule_normal in *.
    destruct (schedule J) as [expr tz st | ms an | at_]; split_andb;
      (split; [|split]);
      try (apply Hpid; key_eval; reflexivity); try uniq_tac.
    + destruct tz; [discriminate|]. cbn [set_truthy].
      fields_tac. cbn [fields_ok forallb fst snd].
      repeat match goal with H : utf8_valid _ = true |- _ => rewrite H end.
      reflexivity.
    + fields_tac. cbn [fields_ok forallb fst snd].
      repeat match goal with H : utf8_valid _ = true |- _ => rewrite H end.
      reflexivity.
    + fields_tac. cbn [fields_ok forallb fst snd].
      repeat match goal with H : utf8_valid _ = true |- _ => rewrite H end.
      reflexivity.
Qed.

(** **** The lines of a job *)

Lemma delivery_lines_dicts (J : CronJob) :
  delivery_lines J = map buildTaggedLine (delivery_dicts J).
Proof.
  unfold delivery_lines, delivery_dicts.
  destruct (delivery J) as [dl|]; [|reflexivity].
  destruct (negb _); reflexivity.
Qed.

Lemma entry_lines_resolved (h : Host) (J : CronJob) (E : jstring) :
  resolveCrontabSchedule h (schedule J) = ResolveOk E ->
  buildTaggedEntryLines h J
  = Ok (map buildTaggedLine (stored_dicts J)
        ++ [(if enabled J then [] else lit "# ") ++ execution_line J E]).
Proof.
  intros HE. unfold buildTaggedEntryLines. rewrite HE.
  rewrite (resolve_ok_no_tz h _ _ HE). fold (execution_line J E).
  unfold stored_dicts. rewrite delivery_lines_dicts, !map_app.
  f_equal. cbn [map app]. rewrite <- !app_assoc. cbn [app].
  now destruct (enabled J).
Qed.

Lemma five_words_head (E : jstring) :
  E <> [] -> tight E = true ->
  exists c t, E = c :: t /\ plain c = true.
Proof.
  destruct E as [|c t]; [contradiction|]. intros _ H. unfold tight in H.
  apply andb_prop in H as [Hc _]. now exists c, t.
Qed.

Lemma resolve_exec_ok (h : Host) (s : CronSchedule) (E : jstring) :
  schedule_normal s = true ->
  resolveCrontabSchedule h s = ResolveOk E -> exec_ok E = true.
Proof.
  intros Hn. destruct s as [expr tz st | [|ms] an | at_];
    cbn [resolveCrontabSchedule].
  - unfold schedule_normal in Hn. split_andb.
    rewrite (trim_tight expr) by assumption.
    repeat match goal with
           | |- context [if ?b then _ else _] =>
             let Eb := fresh "Eb" in destruct b eqn:Eb; try discriminate
           end.
    intros [= <-]. unfold exec_ok.
    destruct expr as [|c t]; [discriminate|].
    match goal with H : tight (c :: t) = true |- _ =>
      unfold tight in H; apply andb_prop in H as [-> _] end.
    assumption.
  - discriminate.
  - repeat match goal with
           | |- context [if ?b then _ else _] =>
             let Eb := fresh "Eb" in destruct b eqn:Eb; try discriminate
           end; intros [= <-]; unfold exec_ok;
      cbn [lit list_ascii_of_string app andb forallb];
      rewrite ?forallb_app, ?Z_to_string_expr; reflexivity.
  - destruct (if truthy (trim at_) then Date_parse h (trim at_) else None)
      as [when|]; [|discriminate].
    intros [= <-]. unfold format_at, exec_ok.
    rewrite !forallb_app, !Z_to_string_expr.
    match goal with
    | |- context [Z_to_string ?m ++ ?r] =>
      destruct (Z_to_string_head m r) as (c & t & -> & ->)
    end.
    reflexivity.
Qed.

Lemma nth_before_last {A} (L0 Ls Lx d : A) (mid : list A) :
  nth (length mid) ((mid ++ [Ls]) ++ [Lx]) d = Ls.
Proof. rewrite <- app_assoc. apply nth_middle. Qed.

Lemma includes_found (p s : jstring) (i : nat) :
  indexOf p s = Some i -> includes p s = true.
Proof. unfold includes. now intros ->. Qed.

(** The lines of a job, and what the first loop of [findTaggedEntries]
    makes of them at line [i], when it has not met the job before. *)
Lemma job_block (h : Host) (J : CronJob) (ls : list jstring) :
  normal_form J = true ->
  buildTaggedEntryLines h J = Ok ls ->
  exists front Ls Lx x,
    ls = front ++ [Ls; Lx]
    /\ startsWith (lit "CRON_TZ=") (trim Ls) = false
    /\ forall i pre errs,
         map_get (id J) pre = None ->
         scan_lines i ls (pre, errs)
         = ((pre ++ [(id J, mkEntry (id J) (stored_meta J) (Some Lx)
                               (Some (negb (enabled J))) (Some x) None
                               (Some (i + S (length front))))] : entry_map),
            errs).
Proof.
  intros Hn Hb.
  destruct (resolveCrontabSchedule h (schedule J)) as [E | err] eqn:HE.
  2:{ unfold buildTaggedEntryLines in Hb. rewrite HE in Hb. discriminate Hb. }
  rewrite (entry_lines_resolved h J E HE) in Hb.
  assert (Els : ls = map buildTaggedLine (stored_dicts J)
                     ++ [(if enabled J then [] else lit "# ")
                         ++ execution_line J E]) by congruence.
  rewrite Els. clear Els Hb.
  pose proof (normal_dicts J Hn) as Hd.
  assert (Hx : exec_ok E = true).
  { apply (resolve_exec_ok h (schedule J)); [|exact HE].
    unfold normal_form in Hn. split_andb. assumption. }
  assert (HID : forallb id_char (id J) = true /\ id J <> []).
  { unfold normal_form in Hn. split_andb. split; [assumption|].
    destruct (id J); [discriminate | discriminate]. }
  destruct HID as [HID HIDne].
  rewrite (execution_line_cut (id J) E HID HIDne Hx J eq_refl).
  set (mid := payload_fields J :: delivery_dicts J).
  assert (Hls : map buildTaggedLine (stored_dicts J)
                = (buildTaggedLine (base_fields J) :: map buildTaggedLine mid)
                  ++ [buildTaggedLine (schedule_fields J)]).
  { unfold stored_dicts, mid. cbn [app map]. now rewrite map_app. }
  rewrite Hls. clear Hls.
  set (pre := if enabled J then [] else lit "# ").
  set (Lx := pre ++ (E ++ lit " " ++ CRON_COMMAND ++ lit " " ++ id J ++ lit " ")
                  ++ (TAG_PREFIX ++ lit " id=" ++ encodeValue (id J))).
  (* the execution line *)
  assert (Hpre : pre = [] \/ pre = lit "# ")
    by (unfold pre; destruct (enabled J); auto).
  assert (Hfound : indexOf TAG_PREFIX Lx = Some (length (pre ++
            (E ++ lit " " ++ CRON_COMMAND ++ lit " " ++ id J ++ lit " ")))).
  { unfold Lx, pre. destruct (enabled J).
    - apply (back_found (id J) E HID HIDne Hx).
    - apply (back_found_disabled (id J) E HID HIDne Hx). }
  assert (Hline : line_of (id J) (Lx, [(lit "id", id J)])).
  { split; [|split]; cbn [fst snd].
    - unfold Lx. rewrite (line_tight (id J) E HID HIDne Hx pre Hpre).
      apply (includes_found _ _ _ Hfound).
    - unfold Lx in *. rewrite app_assoc in *.
      apply (back_parses (id J) E HID HIDne Hx). exact Hfound.
    - cbn [dict_get]. now rewrite str_eqb_refl. }
  assert (Hsched : exists x, parseScheduleLine Lx = Some (x, negb (enabled J))).
  { unfold Lx, pre. destruct (enabled J).
    - apply (line_schedule (id J) E HID HIDne Hx).
    - apply (line_schedule_disabled (id J) E HID HIDne Hx). }
  destruct Hsched as [x Hsched].
  (* the metadata lines *)
  unfold stored_dicts in Hd.
  change ([base_fields J; payload_fields J] ++ delivery_dicts J
          ++ [schedule_fields J])
    with (base_fields J :: mid ++ [schedule_fields J]) in Hd.
  inversion Hd as [|? ? (Hf0 & Hu0 & Hi0) Hrest]; subst.
  set (lms := map (fun d => (buildTaggedLine d, parsed d))
                  (mid ++ [schedule_fields J])).
  assert (Hlms : Forall (line_of (id J)) lms).
  { unfold lms. apply Forall_map. revert Hrest. apply Forall_impl.
    intros d (Hf & Hu & Hi). now apply metadata_line. }
  assert (Hfst : map fst lms = map buildTaggedLine mid
                               ++ [buildTaggedLine (schedule_fields J)]).
  { unfold lms. rewrite map_map. cbn [fst]. now rewrite map_app. }
  assert (Hsnd : map snd lms = map parsed (mid ++ [schedule_fields J])).
  { unfold lms. now rewrite map_map. }
  assert (Hlen : length lms = S (length (map buildTaggedLine mid))).
  { unfold lms. rewrite !length_map, length_app. cbn. lia. }
  exists (buildTaggedLine (base_fields J) :: map buildTaggedLine mid),
         (buildTaggedLine (schedule_fields J)), Lx, x.
  split; [|split].
  - rewrite <- app_assoc. reflexivity.
  - change (payload_fields J :: delivery_dicts J ++ [schedule_fields J])
      with (mid ++ [schedule_fields J]) in Hrest.
    apply Forall_app in Hrest as [_ Hs].
    inversion Hs as [|? ? (Hfs & _ & His) _]; subst.
    apply (metadata_line_head _ _ Hfs His).
  - intros i pre0 errs Hpre0.
    pose proof (scan_job_lines (id J) (buildTaggedLine (base_fields J)) Lx x
                  (parsed (base_fields J)) [(lit "id", id J)]
                  (negb (enabled J)) lms i pre0 errs HIDne Hpre0
                  (metadata_line _ _ Hf0 Hu0 Hi0) Hlms Hline Hsched) as Hscan.
    rewrite Hfst, Hsnd, Hlen in Hscan.
    cbn [app length]. rewrite <- app_assoc. cbn [app].
    rewrite <- app_assoc in Hscan. cbn [app] in Hscan.
    exact Hscan.
Qed.

Lemma stored_entries (h : Host) (J : CronJob) (ls : list jstring) :
  normal_form J = true ->
  buildTaggedEntryLines h J = Ok ls ->
  exists e,
    findTaggedEntries ls = ([(id J, e)], [])
    /\ meta e = stored_meta J
    /\ scheduleDisabled e = Some (negb (enabled J))
    /\ scheduleTz e = None.
Proof.
  intros Hn Hb.
  destruct (job_block h J ls Hn Hb) as (front & Ls & Lx & x & -> & Htz & Hscan).
  specialize (Hscan 0 [] [] eq_refl). cbn [app Nat.add] in Hscan.
  eexists. split; [|split; [|split]].
  - unfold findTaggedEntries.
    match goal with
    | |- context [scan_lines 0 ?l ?a] =>
      let r := type of Hscan in
      match r with
      | _ = ?rhs => replace (scan_lines 0 l a) with rhs by (symmetry; exact Hscan)
      end
    end.
    cbn [map fst snd]. unfold detect_tz. cbn [scheduleIndex].
    rewrite nth_middle, Htz. reflexivity.
  - reflexivity.
  - reflexivity.
  - reflexivity.
Qed.

(** **** Reading the job back *)

Lemma stored_lookup (J : CronJob) (k : jstring) :
  normal_form J = true ->
  dict_get k (stored_meta J)
  = if str_eqb k (lit "id") then Some (id J)
    else find_last k (stored_dicts J) None.
Proof.
  intros Hn. unfold stored_meta. rewrite dict_get_spread by reflexivity.
  cbn [dict_get]. destruct (str_eqb k (lit "id")); [reflexivity|].
  rewrite dict_get_fold_spread; [reflexivity|].
  pose proof (normal_dicts J Hn) as Hd. revert Hd. apply Forall_impl.
  tauto.
Qed.

Lemma job_ext (a b : CronJob) :
  id a = id b -> agentId a = agentId b -> sessionKey a = sessionKey b ->
  name a = name b -> description a = description b -> enabled a = enabled b ->
  deleteAfterRun a = deleteAfterRun b -> createdAtMs a = createdAtMs b ->
  updatedAtMs a = updatedAtMs b -> schedule a = schedule b ->
  sessionTarget a = sessionTarget b -> wakeMode a = wakeMode b ->
  payload a = payload b -> delivery a = delivery b -> state a = state b ->
  a = b.
Proof.
  destruct a, b. cbn. intros. subst. reflexivity.
Qed.

Lemma trim_nil : trim [] = [].
Proof. reflexivity. Qed.

(** What feasibility says of a schedule. *)
Lemma feasible_schedule (h : Host) (J : CronJob) :
  feasible h J = true ->
  match schedule J with
  | ScheduleCron expr _ _ => truthy expr = true
  | ScheduleEvery ms an => (exists z, ms = Int z /\ (z <=? 0)%Z = false) /\ an = None
  | ScheduleAt at_ => truthy at_ = true
  end.
Proof.
  unfold feasible. destruct (schedule J) as [expr tz st | [|ms] an | at_];
    cbn [resolveCrontabSchedule].
  - destruct expr; [discriminate | reflexivity].
  - discriminate.
  - destruct (ms <=? 0)%Z eqn:E; [discriminate|].
    destruct an; [discriminate|]. intros _. split; [|reflexivity].
    now exists ms.
  - destruct at_; [discriminate | reflexivity].
Qed.

Lemma delivery_dicts_cases (J : CronJob) :
  delivery_normal (delivery J) = true ->
  (delivery J = None /\ delivery_dicts J = [])
  \/ exists dl,
       delivery J = Some dl
       /\ str_eqb (mode dl) (lit "none") = false
       /\ truthy (mode dl) = true
       /\ optional_string (delivery_channel dl) = true
       /\ optional_string (delivery_to dl) = true
       /\ optional_flag (bestEffort dl) = true
       /\ delivery_dicts J
          = [ set_bool (lit "delivery_best_effort") (bestEffort dl)
                (set_truthy (lit "delivery_to") (delivery_to dl)
                   (set_truthy (lit "delivery_channel") (delivery_channel dl)
                      [ (lit "id", id J); (lit "delivery_mode", mode dl) ])) ].
Proof.
  unfold delivery_dicts, delivery_normal.
  destruct (delivery J) as [dl|]; [|now left].
  intros H. right. exists dl. unfold required_string in H. split_andb.
  match goal with H : negb _ = true |- _ =>
    rewrite H; apply negb_true_iff in H end.
  repeat split; assumption.
Qed.

Lemma optional_string_cases (o : option jstring) :
  optional_string o = true ->
  or_undefined o = o
  /\ match o with Some s => truthy s = true | None => True end.
Proof.
  destruct o as [s|]; [|now split]. unfold optional_string, required_string.
  intros H. apply andb_prop in H as [H _]. cbn. rewrite H. now split.
Qed.


Ltac not_among H :=
  unfold among in H; cbn [existsb base_keys payload_keys delivery_keys schedule_keys] in H;
  repeat match type of H with
         | (_ || _) = false => apply orb_false_elim in H as [? H]
         end.

Ltac absent_tac :=
  repeat first
    [ rewrite dict_get_set_bool | rewrite dict_get_set_truthy
    | rewrite dict_get_set_num | rewrite dict_get_set ];
  cbn [dict_get];
  repeat match goal with
         | H : str_eqb _ _ = false |- _ => rewrite H
         end;
  reflexivity.

Lemma base_absent (J : CronJob) (k : jstring) :
  among k base_keys = false -> present k (base_fields J) = None.
Proof.
  intros H. not_among H. unfold present, base_fields.
  replace (dict_get k _) with (@None jstring); [reflexivity|].
  symmetry. absent_tac.
Qed.

Lemma payload_absent (J : CronJob) (k : jstring) :
  among k payload_keys = false -> present k (payload_fields J) = None.
Proof.
  intros H. not_among H. unfold present, payload_fields.
  replace (dict_get k _) with (@None jstring); [reflexivity|].
  symmetry. destruct (payload J); absent_tac.
Qed.

Lemma delivery_absent (J : CronJob) (k : jstring) (a : option jstring) :
  among k delivery_keys = false -> find_last k (delivery_dicts J) a = a.
Proof.
  intros H. not_among H. unfold delivery_dicts.
  destruct (delivery J) as [dl|]; [|reflexivity].
  destruct (negb _); [|reflexivity]. cbn [find_last]. unfold present.
  replace (dict_get k _) with (@None jstring); [reflexivity|].
  symmetry. absent_tac.
Qed.

Lemma schedule_absent (J : CronJob) (k : jstring) :
  among k schedule_keys = false -> present k (schedule_fields J) = None.
Proof.
  intros H. not_among H. unfold present, schedule_fields.
  replace (dict_get k _) with (@None jstring); [reflexivity|].
  symmetry. destruct (schedule J); absent_tac.
Qed.

Lemma find_last_app (k : jstring) (a b : list dict) :
  forall x, find_last k (a ++ b) x = find_last k b (find_last k a x).
Proof.
  induction a as [|d a IH]; intros x; [reflexivity|].
  cbn [app find_last]. apply IH.
Qed.

Lemma stored_get (J : CronJob) (k : jstring) :
  find_last k (stored_dicts J) None
  = match present k (schedule_fields J) with
    | Some v => Some v
    | None =>
      find_last k (delivery_dicts J)
        (match present k (payload_fields J) with
         | Some v => Some v
         | None => present k (base_fields J)
         end)
    end.
Proof.
  unfold stored_dicts. rewrite !find_last_app. cbn [find_last].
  destruct (present k (base_fields J)); reflexivity.
Qed.

Lemma stored_get_base (J : CronJob) (k : jstring) :
  among k payload_keys = false -> among k delivery_keys = false ->
  among k schedule_keys = false ->
  find_last k (stored_dicts J) None = present k (base_fields J).
Proof.
  intros Hp Hd Hs.
  now rewrite stored_get, schedule_absent, delivery_absent, payload_absent.
Qed.

Lemma stored_get_payload (J : CronJob) (k : jstring) :
  among k base_keys = false -> among k delivery_keys = false ->
  among k schedule_keys = false ->
  find_last k (stored_dicts J) None = present k (payload_fields J).
Proof.
  intros Hb Hd Hs.
  rewrite stored_get, schedule_absent, delivery_absent, base_absent by assumption.
  now destruct (present k (payload_fields J)).
Qed.

Lemma stored_get_delivery (J : CronJob) (k : jstring) :
  among k base_keys = false -> among k payload_keys = false ->
  among k schedule_keys = false ->
  find_last k (stored_dicts J) None = find_last k (delivery_dicts J) None.
Proof.
  intros Hb Hp Hs.
  now rewrite stored_get, schedule_absent, payload_absent, base_absent.
Qed.

Lemma stored_get_schedule (J : CronJob) (k : jstring) :
  among k base_keys = false -> among k payload_keys = false ->
  among k delivery_keys = false ->
  find_last k (stored_dicts J) None = present k (schedule_fields J).
Proof.
  intros Hb Hp Hd.
  rewrite stored_get, delivery_absent, payload_absent, base_absent by assumption.
  now destruct (present k (schedule_fields J)).
Qed.

Ltac route :=
  rewrite ?stored_get_base, ?stored_get_payload, ?stored_get_delivery,
          ?stored_get_schedule by reflexivity.

Lemma or_undefined_some (s : jstring) :
  truthy s = true -> or_undefined (Some s) = Some s.
Proof. intros H. cbn. now rewrite H. Qed.

Ltac some_tac :=
  rewrite ?or_undefined_some
    by first [assumption | reflexivity | apply num_to_string_truthy].

Lemma decode_schedule (h : Host) (J : CronJob) (e : ParsedTaggedEntry) :
  normal_form J = true -> feasible h J = true ->
  scheduleTz e = None ->
  resolveSchedule (stored_meta J) e = Some (schedule J).
Proof.
  intros Hn Hf Htz.
  pose proof (feasible_schedule h J Hf) as Hs.
  unfold resolveSchedule, get_or, parsed_if_present.
  rewrite !(stored_lookup J _ Hn).
  eval_keys. cbv iota.
  route.
  unfold normal_form in Hn. split_andb.
  unfold present, schedule_fields.
  destruct (schedule J) as [expr tz st | ms an | at_];
    key_eval; cbn [schedule_kind]; some_tac; eval_keys; cbv iota.
  - unfold schedule_normal in *. split_andb. destruct tz; [discriminate|].
    rewrite Hs, Htz. cbn [negb or_undefined nullish_or].
    destruct st as [n|]; [|reflexivity]. some_tac.
    rewrite num_to_string_truthy, parseInt_num_to_string. reflexivity.
  - destruct Hs as [(z & -> & Hz) ->]. cbn [num_to_string].
    rewrite parseInt_Z_to_string, Hz. reflexivity.
  - rewrite Hs. reflexivity.
Qed.

Lemma set_state_if (s s' : CronJobState) (b : bool) (j : CronJob) :
  set_state s (if b then set_state s' j else j) = set_state s j.
Proof. now destruct b. Qed.

Ltac lookup J Hn :=
  unfold get_or, true_or_undefined, parsed_if_present;
  rewrite ?(stored_lookup J _ Hn); eval_keys; cbv iota; route.

Ltac opt_string_tac :=
  match goal with
  | H : optional_string ?o = true |- _ = ?o =>
    let s := fresh "s" in
    let Hs := fresh "Hs" in
    destruct o as [s|]; [|reflexivity];
    unfold optional_string, required_string in H;
    apply andb_prop in H as [Hs _];
    rewrite !or_undefined_some by exact Hs; cbv iota;
    rewrite ?or_undefined_some by exact Hs; reflexivity
  end.

Ltac opt_flag_tac :=
  match goal with
  | H : optional_flag ?o = true |- _ = ?o =>
    destruct o as [[|]|]; [reflexivity | discriminate H | reflexivity]
  end.

Ltac opt_num_tac :=
  match goal with
  | |- _ = ?o =>
    destruct o as [n|]; [|reflexivity];
    rewrite or_undefined_some by apply num_to_string_truthy;
    rewrite num_to_string_truthy, parseInt_num_to_string; reflexivity
  end.

Ltac timestamp_tac :=
  match goal with
  | H : timestamp ?n = true |- _ = ?n =>
    rewrite parseInt_num_to_string; destruct n as [|z]; [discriminate H|];
    cbn [num_or timestamp] in *; destruct (z =? 0)%Z;
    [discriminate H | reflexivity]
  end.

Lemma decode_stored (h : Host) (J : CronJob) (e : ParsedTaggedEntry) :
  normal_form J = true -> feasible h J = true ->
  meta e = stored_meta J ->
  scheduleDisabled e = Some (negb (enabled J)) ->
  scheduleTz e = None ->
  exists J', buildJobFromEntry h e = Some J' /\ set_state (state J) J' = J.
Proof.
  intros Hn Hf Hmeta Hdis Htz.
  unfold buildJobFromEntry. rewrite Hmeta, Hdis. cbv zeta.
  rewrite (decode_schedule h J e Hn Hf Htz).
  rewrite (stored_lookup J (lit "id") Hn). eval_keys. cbv iota.
  cbn [option_map].
  assert (HID : forallb id_char (id J) = true /\ id J <> []).
  { unfold normal_form in Hn. split_andb. split; [assumption|].
    destruct (id J); [discriminate | discriminate]. }
  destruct HID as [HID HIDne].
  rewrite (trim_tight (id J)) by (apply tight_plain, id_plain, HID).
  destruct (id J) as [|c r] eqn:Eid; [contradiction|]. rewrite <- Eid.
  eexists. split; [reflexivity|]. rewrite set_state_if.
  pose proof Hn as Hn'.
  unfold normal_form in Hn. split_andb. unfold required_string in *. split_andb.
  apply job_ext;
    cbn [set_state id agentId sessionKey name description enabled deleteAfterRun
         createdAtMs updatedAtMs schedule sessionTarget wakeMode payload
         delivery state];
    try reflexivity; lookup J Hn'.
  - unfold present, base_fields. key_eval. opt_string_tac.
  - unfold present, base_fields. key_eval. opt_string_tac.
  - unfold present, base_fields. key_eval. some_tac. reflexivity.
  - unfold present, base_fields. key_eval. opt_string_tac.
  - unfold present, base_fields. key_eval. destruct (enabled J); reflexivity.
  - unfold present, base_fields. key_eval. opt_flag_tac.
  - unfold present, base_fields. key_eval. some_tac. timestamp_tac.
  - unfold present, base_fields. key_eval. some_tac. timestamp_tac.
  - unfold present, base_fields. key_eval. some_tac. reflexivity.
  - unfold present, base_fields. key_eval. some_tac. reflexivity.
  - (* payload *)
    unfold present, payload_fields, payload_normal in *.
    destruct (payload J) as [text | t]; key_eval; some_tac; eval_keys; cbv iota.
    + destruct text; reflexivity.
    + destruct t as [msg mo th ts au de ch to_ be].
      cbn [message model thinking timeoutSeconds allowUnsafeExternalContent
           deliver channel to bestEffortDeliver] in *.
      split_andb. f_equal. f_equal.
      * destruct msg; reflexivity.
      * opt_string_tac.
      * opt_string_tac.
      * opt_num_tac.
      * opt_flag_tac.
      * opt_flag_tac.
      * opt_string_tac.
      * opt_string_tac.
      * opt_flag_tac.
  - (* delivery *)
    destruct (delivery_dicts_cases J ltac:(assumption))
      as [[Hd Hdd] | (dl & Hd & Hm & Hmt & Hc & Ht & Hb & Hdd)];
      rewrite Hdd, Hd; cbn [find_last]; unfold present; key_eval.
    + reflexivity.
    + some_tac. rewrite Hm. f_equal.
      destruct dl as [mo ch to_ be].
      cbn [mode delivery_channel delivery_to bestEffort] in *.
      f_equal.
      * opt_string_tac.
      * opt_string_tac.
      * opt_flag_tac.
Qed.

(** **** A whole crontab *)

Lemma drop_lead_suffix (m : list bool) :
  forall s, exists a, s = a ++ drop_lead m s.
Proof.
  induction m as [|b m IH]; intros s; [now exists []|].
  destruct b; [|now exists []]. destruct s as [|c s]; [now exists []|].
  cbn [drop_lead]. destruct (IH s) as [a Ha]. exists (c :: a).
  cbn [app]. now rewrite <- Ha.
Qed.

Lemma trim_sub (s : jstring) : exists a b, s = a ++ trim s ++ b.
Proof.
  unfold trim, trimEnd, trimStart.
  destruct (drop_lead_suffix (ws_mask 0 s) s) as [a Ha].
  set (t := drop_lead (ws_mask 0 s) s) in *.
  destruct (drop_lead_suffix (rev (ws_mask 0 t)) (rev t)) as [b Hb].
  exists a, (rev b). rewrite <- rev_app_distr, <- Hb, rev_involutive.
  exact Ha.
Qed.

Lemma includes_trim (p s : jstring) :
  includes p (trim s) = true -> includes p s = true.
Proof.
  intros H. destruct (includes_split _ _ H) as (x & y & Hx).
  destruct (trim_sub s) as (a & b & Hs). rewrite Hs, Hx.
  replace (a ++ (x ++ p ++ y) ++ b) with ((a ++ x) ++ p ++ (y ++ b))
    by now rewrite <- !app_assoc.
  apply includes_app.
Qed.

Lemma scan_line_untagged (i : nat) (l : jstring)
    (acc : entry_map * list jstring) :
  includes TAG l = false -> scan_line i l acc = acc.
Proof.
  intros H. unfold scan_line. destruct acc as [entries errs].
  destruct (includes TAG_PREFIX (trim l)) eqn:E; [|reflexivity].
  apply (includes_suffix_pattern (lit "# ") TAG) in E.
  apply includes_trim in E. congruence.
Qed.

Lemma scan_untagged (U : list jstring) :
  Forall (fun l => includes TAG l = false) U ->
  forall i acc, scan_lines i U acc = acc.
Proof.
  induction 1 as [|l U Hl _ IH]; intros i acc; [reflexivity|].
  cbn [scan_lines]. rewrite scan_line_untagged by exact Hl. apply IH.
Qed.

Lemma map_get_app_other (k k' : jstring) (e : ParsedTaggedEntry)
    (pre : entry_map) :
  k <> k' -> map_get k pre = None -> map_get k (pre ++ [(k', e)]) = None.
Proof.
  intros Hk. induction pre as [|[k1 e1] pre IH]; cbn [map_get app].
  - now rewrite str_eqb_neq.
  - destruct (str_eqb k k1); [discriminate | exact IH].
Qed.

Lemma scan_jobs (h : Host) (js : list CronJob) :
  Forall (fun J => normal_form J = true) js ->
  NoDup (map id js) ->
  forall entries P R i pre errs,
    entry_lines h js = Ok entries ->
    length P = i ->
    Forall (fun J => map_get (id J) pre = None) js ->
    exists es,
      scan_lines i entries (pre, errs) = ((pre ++ es : entry_map), errs)
      /\ Forall2 (entry_of (P ++ entries ++ R)) js es.
Proof.
  induction 1 as [|J js HJ _ IH]; intros Hnd entries P R i pre errs He Hi Hpre.
  - cbn in He. injection He as <-. exists []. rewrite app_nil_r.
    split; [reflexivity | constructor].
  - cbn [entry_lines fold_right] in He. fold (entry_lines h js) in He.
    destruct (buildTaggedEntryLines h J) as [ls|] eqn:Hb; [|discriminate He].
    destruct (entry_lines h js) as [rest|] eqn:Hrest; [|discriminate He].
    cbn [bind] in He. injection He as <-.
    cbn [map] in Hnd. inversion Hnd as [|? ? Hnotin Hnd']; subst.
    inversion Hpre as [|? ? HpJ Hpre']; subst.
    destruct (job_block h J ls HJ Hb) as (front & Ls & Lx & x & Hls & Htz & Hscan).
    specialize (Hscan (length P) pre errs HpJ).
    set (e := mkEntry (id J) (stored_meta J) (Some Lx)
                      (Some (negb (enabled J))) (Some x) None
                      (Some (length P + S (length front)))) in *.
    destruct (IH Hnd' rest (P ++ ls) R (length P + length ls)
                 (pre ++ [(id J, e)]) errs eq_refl)
      as (es & Hes & Hall).
    { rewrite length_app. reflexivity. }
    { rewrite Forall_forall in Hpre' |- *. intros J' HJ'.
      apply map_get_app_other; [|apply Hpre', HJ'].
      intros Heq. apply Hnotin. rewrite <- Heq. now apply in_map. }
    exists ((id J, e) :: es). split.
    + rewrite scan_lines_app.
      match goal with
      | |- context [scan_lines (length P) ls ?a] =>
        replace (scan_lines (length P) ls a)
          with ((pre ++ [(id J, e)] : entry_map), errs)
          by (symmetry; exact Hscan)
      end.
      rewrite Hes, <- app_assoc. reflexivity.
    + constructor.
      * unfold entry_of. cbn [fst snd]. repeat split.
        unfold detect_tz, e. cbn [scheduleIndex].
        rewrite Nat.add_succ_r. rewrite Hls.
        replace (P ++ ((front ++ [Ls; Lx]) ++ rest) ++ R)
          with ((P ++ front) ++ Ls :: (Lx :: rest ++ R))
          by (rewrite <- !app_assoc; reflexivity).
        rewrite <- length_app, nth_middle, Htz. reflexivity.
      * replace (P ++ (ls ++ rest) ++ R) with ((P ++ ls) ++ rest ++ R)
          by (rewrite <- !app_assoc; reflexivity).
        exact Hall.
Qed.

Lemma entry_lines_feasible (h : Host) (js : list CronJob) :
  forall entries,
    entry_lines h js = Ok entries ->
    Forall (fun J => feasible h J = true) js.
Proof.
  induction js as [|J js IH]; intros entries He; [constructor|].
  cbn [entry_lines fold_right] in He. fold (entry_lines h js) in He.
  destruct (buildTaggedEntryLines h J) as [ls|] eqn:Hb; [|discriminate He].
  destruct (entry_lines h js) as [rest|] eqn:Hrest; [|discriminate He].
  constructor; [|now apply (IH rest)].
  unfold feasible. unfold buildTaggedEntryLines in Hb.
  destruct (resolveCrontabSchedule h (schedule J)); [reflexivity | discriminate Hb].
Qed.

Lemma decode_entries (h : Host) (whole : list jstring) (js : list CronJob) :
  forall es,
    Forall (fun J => normal_form J = true) js ->
    Forall (fun J => feasible h J = true) js ->
    Forall2 (entry_of whole) js es ->
    Forall2 same_job js
      (flat_map (fun kv => match buildJobFromEntry h (snd kv) with
                           | Some job => [job]
                           | None => []
                           end)
                (map (fun kv => (fst kv, detect_tz whole (snd kv))) es)).
Proof.
  induction js as [|J js IH]; intros es Hn Hf H2;
    inversion H2 as [|? kv ? es' (_ & Hm & Hd & Htz & Hdt) Hrest]; subst;
    [constructor|].
  inversion Hn; inversion Hf; subst.
  cbn [map flat_map fst snd]. rewrite Hdt.
  destruct (decode_stored h J (snd kv)) as (J' & HJ' & Hs); auto.
  rewrite HJ'. cbn [app]. constructor; [exact Hs | now apply IH].
Qed.

(** **** Lines and newlines *)

Lemma split_nl_app (a b : jstring) :
  split_nl (a ++ NL ++ b) = split_nl a ++ split_nl b.
Proof.
  unfold split_nl. rewrite map_app.
  change (map is_nl (NL ++ b)) with (true :: map is_nl b).
  change (NL ++ b) with (ascii_of_N 10 :: b).
  apply split_on_app, length_map.
Qed.

Lemma split_nl_cons (c : ascii) (s : jstring) :
  split_nl (c :: s)
  = if is_nl c then [] :: split_nl s
    else (c :: hd [] (split_nl s)) :: tl (split_nl s).
Proof.
  unfold split_nl. cbn [map split_on]. destruct (is_nl c); [reflexivity|].
  pose proof (split_on_not_nil (map is_nl s) s) as H.
  destruct (split_on (map is_nl s) s); [contradiction | reflexivity].
Qed.

Lemma split_nl_hd_tl (s : jstring) :
  split_nl s = hd [] (split_nl s) :: tl (split_nl s).
Proof.
  pose proof (split_on_not_nil (map is_nl s) s) as H. unfold split_nl.
  destruct (split_on (map is_nl s) s); [contradiction | reflexivity].
Qed.

Lemma split_nl_head (s : jstring) : exists b, s = hd [] (split_nl s) ++ b.
Proof.
  induction s as [|c s [b IH]]; [now exists []|].
  rewrite split_nl_cons. destruct (is_nl c); cbn [hd].
  - now exists (c :: s).
  - exists b. cbn [app]. now rewrite <- IH.
Qed.

Lemma split_nl_sub (s l : jstring) :
  In l (split_nl s) -> exists a b, s = a ++ l ++ b.
Proof.
  revert l. induction s as [|c s IH]; intros l H.
  - destruct H as [<-|[]]. now exists [], [].
  - rewrite split_nl_cons in H. destruct (is_nl c).
    + destruct H as [<-|H]; [now exists [], (c :: s)|].
      destruct (IH l H) as (a & b & E). exists (c :: a), b.
      cbn [app]. now rewrite <- E.
    + destruct H as [<-|H].
      * destruct (split_nl_head s) as [b E]. exists [], b.
        cbn [app]. now rewrite <- E.
      * destruct (IH l) as (a & b & E).
        { rewrite split_nl_hd_tl. now right. }
        exists (c :: a), b. cbn [app]. now rewrite <- E.
Qed.

Lemma untagged_pieces (s : jstring) :
  includes TAG s = false ->
  Forall (fun l => includes TAG l = false) (split_nl s).
Proof.
  intros H. rewrite Forall_forall. intros l Hl.
  destruct (split_nl_sub s l Hl) as (a & b & E).
  destruct (includes TAG l) eqn:Ht; [|reflexivity].
  destruct (includes_split _ _ Ht) as (x & y & Hx).
  rewrite E, Hx in H.
  replace (a ++ (x ++ TAG ++ y) ++ b) with ((a ++ x) ++ TAG ++ (y ++ b)) in H
    by now rewrite <- !app_assoc.
  now rewrite includes_app in H.
Qed.

Lemma untagged_join (F : list jstring) :
  Forall (fun l => includes TAG l = false) F ->
  Forall (fun l => includes TAG l = false) (split_nl (join NL F)).
Proof.
  induction 1 as [|f F Hf HF IH]; [repeat constructor|].
  destruct F as [|g F].
  - rewrite join_single. now apply untagged_pieces.
  - rewrite join_cons, split_nl_app. apply Forall_app. split; [|exact IH].
    now apply untagged_pieces.
Qed.

Lemma collapse_head (s : jstring) :
  hd [] (split_nl (collapse_newlines 0 s)) = hd [] (split_nl s).
Proof.
  induction s as [|c s IH]; [reflexivity|].
  cbn [collapse_newlines]. destruct (is_nl c) eqn:E.
  - cbn [Nat.ltb Nat.leb]. rewrite !split_nl_cons, E. reflexivity.
  - rewrite !split_nl_cons, E. cbn [hd]. now rewrite IH.
Qed.

Lemma collapse_pieces (s : jstring) :
  forall n,
    incl (tl (split_nl (collapse_newlines n s))) (tl (split_nl s))
    /\ In (hd [] (split_nl (collapse_newlines n s))) (split_nl s).
Proof.
  induction s as [|c s IH]; intros n.
  - split; [apply incl_refl | now left].
  - cbn [collapse_newlines]. destruct (is_nl c) eqn:E.
    + destruct (IH n) as [Ht Hh]. destruct (IH (S n)) as [Ht' Hh'].
      rewrite (split_nl_cons c s), E. cbn [tl].
      destruct (n <? 2)%nat.
      * rewrite split_nl_cons, E. cbn [hd tl]. split; [|now left].
        rewrite (split_nl_hd_tl (collapse_newlines (S n) s)).
        intros l [<-|Hl]; [exact Hh'|].
        rewrite (split_nl_hd_tl s). right. now apply Ht'.
      * split; [|now right].
        intros l Hl. rewrite (split_nl_hd_tl s). right. now apply Ht.
    + destruct (IH 0) as [Ht Hh].
      rewrite !split_nl_cons, E. cbn [hd tl]. split; [exact Ht|].
      left. now rewrite collapse_head.
Qed.

Lemma collapse_untagged (s : jstring) :
  Forall (fun l => includes TAG l = false) (split_nl s) ->
  Forall (fun l => includes TAG l = false) (split_nl (collapse_newlines 0 s)).
Proof.
  rewrite !Forall_forall. intros H l Hl.
  destruct (collapse_pieces s 0) as [Ht Hh].
  rewrite split_nl_hd_tl in Hl. destruct Hl as [<-|Hl]; [now apply H|].
  apply H. rewrite split_nl_hd_tl. right. now apply Ht.
Qed.

Lemma collapse_app_char (c : ascii) (x y : jstring) :
  is_nl c = false ->
  forall n,
    collapse_newlines n (x ++ c :: y)
    = collapse_newlines n x ++ c :: collapse_newlines 0 y.
Proof.
  intros Hc. induction x as [|a x IH]; intros n; cbn [app collapse_newlines].
  - now rewrite Hc.
  - destruct (is_nl a); [destruct (n <? 2)%nat|]; cbn [app]; now rewrite IH.
Qed.

Lemma collapse_ends_nl (x : jstring) :
  forall n,
    (exists y, collapse_newlines n (x ++ NL) = y ++ NL)
    \/ (collapse_newlines n (x ++ NL) = [] /\ 2 <= n).
Proof.
  induction x as [|a x IH]; intros n.
  - destruct n as [|[|n]].
    + left. now exists [].
    + left. now exists [].
    + right. split; [reflexivity | lia].
  - cbn [app collapse_newlines]. destruct (is_nl a) eqn:Ea.
    + destruct (n <? 2)%nat eqn:E.
      * left. destruct (IH (S n)) as [[y Hy]|[Hy _]]; rewrite Hy.
        -- now exists (a :: y).
        -- exists []. cbn [app]. unfold NL. f_equal.
           unfold is_nl in Ea. apply N.eqb_eq in Ea.
           rewrite <- (ascii_N_embedding a). unfold code in Ea. now rewrite Ea.
      * destruct (IH n) as [[y Hy]|[Hy Hn]]; [left; now exists y | right; auto].
    + left. destruct (IH 0) as [[y Hy]|[_ Hn]]; [|lia].
      rewrite Hy. now exists (a :: y).
Qed.

(** **** The lines of the jobs *)

Lemma plain_not_nl (c : ascii) : plain c = true -> negb (is_nl c) = true.
Proof. each_ascii c; intros H; try reflexivity; discriminate H. Qed.

Lemma expr_char_not_nl (c : ascii) : expr_char c = true -> negb (is_nl c) = true.
Proof. unfold expr_char. intros H. apply andb_prop in H. tauto. Qed.

Lemma plain_single (s : jstring) : forallb plain s = true -> single_line s = true.
Proof. apply forallb_impl, plain_not_nl. Qed.

Lemma single_app (a b : jstring) :
  single_line a = true -> single_line b = true -> single_line (a ++ b) = true.
Proof. unfold single_line. intros Ha Hb. now rewrite forallb_app, Ha, Hb. Qed.

Lemma single_join (ps : list jstring) :
  Forall (fun p => forallb plain p = true /\ p <> []) ps ->
  single_line (join (lit " ") ps) = true.
Proof.
  induction 1 as [|p ps [Hp _] _ IH]; [reflexivity|].
  destruct ps as [|q ps].
  - rewrite join_single. now apply plain_single.
  - rewrite join_cons. apply single_app; [now apply plain_single|].
    now apply single_app.
Qed.

Lemma metadata_line_single (ID : jstring) (d : dict) :
  fields_ok d = true -> present (lit "id") d = Some ID ->
  single_line (buildTaggedLine d) = true /\ buildTaggedLine d <> [].
Proof.
  intros Hf Hid.
  pose proof (present_has_value _ _ _ Hid) as Hne.
  rewrite (buildTaggedLine_shape d (fields_ok_keys d Hf) Hne).
  split; [|discriminate].
  apply single_app; [reflexivity|]. apply single_app; [reflexivity|].
  apply single_join, words_tokens, keys_ok_filter, fields_ok_keys, Hf.
Qed.

Lemma job_lines_single (h : Host) (J : CronJob) (ls : list jstring) :
  normal_form J = true ->
  buildTaggedEntryLines h J = Ok ls ->
  Forall (fun l => single_line l = true /\ l <> []) ls.
Proof.
  intros Hn Hb.
  destruct (resolveCrontabSchedule h (schedule J)) as [E | err] eqn:HE.
  2:{ unfold buildTaggedEntryLines in Hb. rewrite HE in Hb. discriminate Hb. }
  rewrite (entry_lines_resolved h J E HE) in Hb.
  assert (Els : ls = map buildTaggedLine (stored_dicts J)
                     ++ [(if enabled J then [] else lit "# ")
                         ++ execution_line J E]) by congruence.
  rewrite Els. clear Els Hb.
  assert (Hx : exec_ok E = true).
  { apply (resolve_exec_ok h (schedule J)); [|exact HE].
    unfold normal_form in Hn. split_andb. assumption. }
  assert (HID : forallb id_char (id J) = true).
  { unfold normal_form in Hn. split_andb. assumption. }
  apply Forall_app. split.
  - apply Forall_map. generalize (normal_dicts J Hn). apply Forall_impl.
    intros d (Hf & _ & Hi). now apply (metadata_line_single (id J)).
  - constructor; [|constructor]. split.
    + apply single_app; [now destruct (enabled J)|].
      unfold execution_line.
      repeat (apply single_app; try reflexivity).
      * apply (forallb_impl expr_char _ _ expr_char_not_nl), exec_chars, Hx.
      * apply plain_single, id_plain, HID.
      * apply plain_single.
        apply (forallb_impl enc_char plain _ enc_char_plain), encode_chars.
    + unfold execution_line. destruct E as [|c E]; [discriminate Hx|].
      destruct (enabled J); discriminate.
Qed.

Lemma entry_lines_single (h : Host) (js : list CronJob) :
  Forall (fun J => normal_form J = true) js ->
  forall entries,
    entry_lines h js = Ok entries ->
    Forall (fun l => single_line l = true /\ l <> []) entries.
Proof.
  induction 1 as [|J js HJ _ IH]; intros entries He.
  - cbn in He. injection He as <-. constructor.
  - cbn [entry_lines fold_right] in He. fold (entry_lines h js) in He.
    destruct (buildTaggedEntryLines h J) as [ls|] eqn:Hb; [|discriminate He].
    destruct (entry_lines h js) as [rest|] eqn:Hrest; [|discriminate He].
    cbn [bind] in He. injection He as <-.
    apply Forall_app. split; [now apply (job_lines_single h J) | now apply IH].
Qed.

Lemma no_blank_run (L : list jstring) :
  Forall (fun l => single_line l = true /\ l <> []) L -> blank_run L = false.
Proof.
  induction 1 as [|l L [_ Hl] _ IH]; [reflexivity|].
  cbn [blank_run]. destruct L as [|b L]; [reflexivity|].
  rewrite IH. destruct l; [contradiction | reflexivity].
Qed.

Lemma Forall_fst {A} (P Q : A -> Prop) (l : list A) :
  Forall (fun x => P x /\ Q x) l -> Forall P l.
Proof. apply Forall_impl. tauto. Qed.

(** The text of the lines of the jobs, with the newline that ends them, is
    left alone by the collapse of newlines and splits back to them. *)
Lemma collapse_entries (L : list jstring) :
  Forall (fun l => single_line l = true /\ l <> []) L -> L <> [] ->
  collapse_newlines 0 (join NL L ++ NL) = join NL L ++ NL.
Proof.
  intros HL Hne.
  destruct (collapse_lines L (Forall_fst _ _ _ HL) (no_blank_run L HL) Hne 0 []
              (or_introl Nat.le_0_1)) as [n' E].
  rewrite app_nil_r in E. cbn [collapse_newlines] in E.
  now rewrite app_nil_r in E.
Qed.

Lemma join_head (L : list jstring) :
  Forall (fun l => single_line l = true /\ l <> []) L -> L <> [] ->
  exists c r, is_nl c = false /\ join NL L = c :: r.
Proof.
  intros HL Hne. destruct L as [|l L]; [contradiction|].
  inversion HL as [|? ? [Hs Hl] _]; subst.
  destruct l as [|c l]; [contradiction|].
  cbn [single_line forallb] in Hs. apply andb_prop in Hs as [Hc _].
  apply negb_true_iff in Hc.
  exists c. destruct L as [|l2 L].
  - exists l. split; [exact Hc|]. now rewrite join_single.
  - eexists. split; [exact Hc|]. rewrite join_cons. reflexivity.
Qed.

Lemma trimEnd_prefix (s : jstring) : exists b, s = trimEnd s ++ b.
Proof.
  unfold trimEnd.
  destruct (drop_lead_suffix (rev (ws_mask 0 s)) (rev s)) as [a Ha].
  exists (rev a). rewrite <- rev_app_distr, <- Ha. symmetry. apply rev_involutive.
Qed.

Lemma trimEnd_nl (s : jstring) (c : ascii) :
  plain c = true -> trimEnd (s ++ c :: NL) = s ++ [c].
Proof.
  intros Hc. unfold trimEnd.
  rewrite ws_mask_app
    by (first [apply plain_ascii7; exact Hc | apply Nat.le_0_l]).
  rewrite ws_mask_plain_cons by exact Hc.
  change (ws_mask 0 NL) with [true].
  replace (s ++ c :: NL) with ((s ++ [c]) ++ NL)
    by (rewrite <- app_assoc; reflexivity).
  replace (ws_mask 0 s ++ [false; true])
    with ((ws_mask 0 s ++ [false]) ++ [true])
    by (rewrite <- app_assoc; reflexivity).
  rewrite (rev_app_distr (s ++ [c])), (rev_app_distr (ws_mask 0 s ++ [false])).
  rewrite (rev_app_distr (ws_mask 0 s)).
  cbn [rev app NL drop_lead]. apply rev_involutive.
Qed.

Lemma join_snoc (L : list jstring) (l : jstring) :
  L <> [] -> join NL (L ++ [l]) = join NL L ++ NL ++ l.
Proof.
  intros HL. rewrite join_app_ne by (auto; discriminate).
  now rewrite join_single.
Qed.

Lemma split_nl_join (L : list jstring) :
  Forall (fun l => single_line l = true) L -> L <> [] ->
  split_nl (join NL L) = L.
Proof.
  intros HL Hne.
  destruct (@exists_last _ L Hne) as (P & l & ->).
  apply Forall_app in HL as [HP Hl]. inversion Hl as [|? ? Hl' _]; subst.
  destruct P as [|p P].
  - cbn [app]. rewrite join_single. now apply split_on_free.
  - rewrite join_snoc by discriminate.
    rewrite split_nl_lines by (auto; discriminate).
    f_equal. now apply split_on_free.
Qed.

(** The text of lines the last of which ends with a plain character,
    with the newline that ends them: [trimEnd] takes the newline off. *)
Lemma trimEnd_lines (P : jstring) (L : list jstring) (s : jstring) (c : ascii) :
  plain c = true ->
  trimEnd (P ++ join NL (L ++ [s ++ [c]]) ++ NL) = P ++ join NL (L ++ [s ++ [c]]).
Proof.
  intros Hc.
  assert (E : exists Z, join NL (L ++ [s ++ [c]]) = Z ++ [c]).
  { destruct L as [|p L].
    - exists s. cbn [app]. now rewrite join_single.
    - exists (join NL (p :: L) ++ NL ++ s). rewrite join_snoc by discriminate.
      now rewrite <- !app_assoc. }
  destruct E as [Z E]. rewrite E.
  replace (P ++ (Z ++ [c]) ++ NL) with ((P ++ Z) ++ c :: NL)
    by (rewrite <- !app_assoc; reflexivity).
  rewrite trimEnd_nl by exact Hc. now rewrite <- app_assoc.
Qed.

Lemma untagged_prefix (a b : jstring) :
  includes TAG (a ++ b) = false -> includes TAG a = false.
Proof.
  intros H. destruct (includes TAG a) eqn:E; [|reflexivity].
  destruct (includes_split _ _ E) as (x & y & ->).
  rewrite <- !app_assoc in H. now rewrite includes_app in H.
Qed.

Lemma untagged_tail (c : ascii) (a : jstring) :
  includes TAG (c :: a) = false -> includes TAG a = false.
Proof.
  intros H. destruct (includes TAG a) eqn:E; [|reflexivity].
  destruct (includes_split _ _ E) as (x & y & ->).
  change (c :: x ++ TAG ++ y) with ((c :: x) ++ TAG ++ y) in H.
  now rewrite includes_app in H.
Qed.

Lemma split_nl_hd_app (t b : jstring) :
  exists x, hd [] (split_nl (t ++ b)) = hd [] (split_nl t) ++ x.
Proof.
  induction t as [|c t [x IH]].
  - now exists (hd [] (split_nl b)).
  - cbn [app]. rewrite !split_nl_cons. destruct (is_nl c); cbn [hd].
    + now exists [].
    + exists x. now rewrite IH.
Qed.

Lemma untagged_text_prefix (t : jstring) :
  forall b,
    Forall (fun l => includes TAG l = false) (split_nl (t ++ b)) ->
    Forall (fun l => includes TAG l = false) (split_nl t).
Proof.
  induction t as [|c t IH]; intros b H; [repeat constructor|].
  cbn [app] in H. rewrite split_nl_cons in *. destruct (is_nl c).
  - inversion H as [|? ? _ Ht]; subst. constructor; [reflexivity|].
    now apply (IH b).
  - inversion H as [|? ? Hh Ht]; subst.
    assert (Hall : Forall (fun l => includes TAG l = false) (split_nl t)).
    { apply (IH b). rewrite split_nl_hd_tl. constructor; [|exact Ht].
      now apply (untagged_tail c). }
    rewrite split_nl_hd_tl in Hall. inversion Hall as [|? ? _ Htl]; subst.
    constructor; [|exact Htl].
    destruct (split_nl_hd_app t b) as [x Hx]. rewrite Hx in Hh.
    now apply (untagged_prefix _ x).
Qed.

Lemma job_lines_last (h : Host) (J : CronJob) (ls : list jstring) :
  normal_form J = true ->
  buildTaggedEntryLines h J = Ok ls ->
  exists P s c, ls = P ++ [s ++ [c]] /\ plain c = true.
Proof.
  intros Hn Hb.
  destruct (resolveCrontabSchedule h (schedule J)) as [E | err] eqn:HE.
  2:{ unfold buildTaggedEntryLines in Hb. rewrite HE in Hb. discriminate Hb. }
  rewrite (entry_lines_resolved h J E HE) in Hb.
  assert (Els : ls = map buildTaggedLine (stored_dicts J)
                     ++ [(if enabled J then [] else lit "# ")
                         ++ execution_line J E]) by congruence.
  assert (HID : forallb id_char (id J) = true /\ id J <> []).
  { unfold normal_form in Hn. split_andb. split; [assumption|].
    destruct (id J); [discriminate | discriminate]. }
  destruct HID as [HID HIDne].
  assert (Hne : encodeValue (id J) <> []) by now apply encode_not_nil.
  destruct (@exists_last _ (encodeValue (id J)) Hne) as (s & c & Es).
  assert (Hc : plain c = true).
  { pose proof (encode_chars (id J)) as Hp.
    apply (forallb_impl enc_char plain _ enc_char_plain) in Hp.
    fold (encodeValue (id J)) in Hp. rewrite Es, forallb_app in Hp.
    apply andb_prop in Hp as [_ Hp]. cbn in Hp. now rewrite andb_true_r in Hp. }
  exists (map buildTaggedLine (stored_dicts J)),
         ((if enabled J then [] else lit "# ")
          ++ E ++ lit " " ++ CRON_COMMAND ++ lit " " ++ id J ++ lit " "
          ++ TAG_PREFIX ++ lit " id=" ++ s), c.
  split; [|exact Hc]. rewrite Els. unfold execution_line. rewrite Es.
  rewrite <- !app_assoc. reflexivity.
Qed.

Lemma entry_lines_last (h : Host) (js : list CronJob) :
  Forall (fun J => normal_form J = true) js ->
  forall entries,
    entry_lines h js = Ok entries -> entries <> [] ->
    exists P s c, entries = P ++ [s ++ [c]] /\ plain c = true.
Proof.
  induction 1 as [|J js HJ _ IH]; intros entries He Hne.
  - cbn in He. injection He as <-. contradiction.
  - cbn [entry_lines fold_right] in He. fold (entry_lines h js) in He.
    destruct (buildTaggedEntryLines h J) as [ls|] eqn:Hb; [|discriminate He].
    destruct (entry_lines h js) as [rest|] eqn:Hrest; [|discriminate He].
    cbn [bind] in He. injection He as <-.
    destruct rest as [|r0 rest].
    + rewrite app_nil_r. apply (job_lines_last h J ls HJ Hb).
    + destruct (IH (r0 :: rest) eq_refl) as (P & s & c & E & Hc); [discriminate|].
      exists (ls ++ P), s, c. split; [|exact Hc].
      rewrite E, <- app_assoc. reflexivity.
Qed.

(** The content of [writeCrontabJobs]: text without the tag, then the
    lines of the jobs, each ended by a newline. *)
Lemma content_shape (h : Host) (js : list CronJob)
    (existing : list jstring) (content : jstring) :
  Forall (fun J => normal_form J = true) js ->
  crontab_content h js existing = Ok content ->
  exists entries,
    entry_lines h js = Ok entries
    /\ ((entries = []
         /\ Forall (fun l => includes TAG l = false) (split_nl content))
        \/ (entries <> []
            /\ exists P U,
                 content = P ++ join NL entries ++ NL
                 /\ Forall (fun l => includes TAG l = false) U
                 /\ forall X, split_nl (P ++ X) = U ++ split_nl X)).
Proof.
  intros Hn Hc. unfold crontab_content in Hc. fold (entry_lines h js) in Hc.
  destruct (entry_lines h js) as [entries|] eqn:He; [|discriminate Hc].
  cbn [bind] in Hc. injection Hc as <-.
  pose proof (entry_lines_single h js Hn entries He) as Hs.
  set (F := filter (fun line => negb (includes TAG_PREFIX line)
                                && negb (includes TAG line)) existing).
  assert (HF : Forall (fun l => includes TAG l = false) F).
  { rewrite Forall_forall. intros l Hl. apply filter_In in Hl as [_ Hl].
    apply andb_prop in Hl as [_ Hl]. now apply negb_true_iff in Hl. }
  clearbody F. exists entries. split; [reflexivity|].
  destruct entries as [|e0 es].
  - left. split; [reflexivity|].
    destruct F as [|f F]; [repeat constructor|].
    change (Forall (fun l => includes TAG l = false)
              (split_nl (collapse_newlines 0
                           (join NL ((f :: F) ++ [[]; []]))))).
    apply collapse_untagged.
    rewrite join_app_ne by discriminate.
    rewrite split_nl_app. apply Forall_app. split; [now apply untagged_join|].
    repeat constructor.
  - right. split; [discriminate|].
    set (L := e0 :: es) in *.
    assert (HL : L <> []) by discriminate.
    destruct (join_head L Hs HL) as (c & r & Hcn & Hj).
    destruct F as [|f F].
    + exists [], []. cbn [length Nat.eqb app].
      rewrite join_app_ne by (auto; discriminate).
      rewrite join_single, app_nil_r, (collapse_entries L Hs HL).
      split; [reflexivity|]. split; [constructor | reflexivity].
    + cbn [length Nat.eqb].
      set (F' := f :: F) in *.
      replace (join NL (F' ++ [[]] ++ L ++ [[]]))
        with ((join NL F' ++ NL ++ NL) ++ join NL L ++ NL).
      2:{ rewrite join_app_ne by (subst F'; discriminate).
          rewrite (join_app_ne NL [[]]) by (try discriminate; now destruct L).
          rewrite join_single.
          rewrite (join_app_ne NL L) by (auto; discriminate).
          rewrite join_single. cbn [app]. rewrite <- !app_assoc, app_nil_r.
          reflexivity. }
      pose proof (collapse_entries L Hs HL) as Hce.
      rewrite Hj in Hce at 1. cbn [app collapse_newlines] in Hce.
      rewrite Hcn in Hce.
      rewrite Hj. cbn [app]. rewrite collapse_app_char by exact Hcn.
      rewrite Hce.
      destruct (collapse_ends_nl (join NL F' ++ NL) 0) as [[y Hy]|[_ Hx]]; [|lia].
      rewrite <- app_assoc in Hy. rewrite Hy.
      assert (Hu : Forall (fun l => includes TAG l = false) (split_nl y)).
      { assert (Hall : Forall (fun l => includes TAG l = false)
                              (split_nl (y ++ NL ++ []))).
        { rewrite app_nil_r, <- Hy. apply collapse_untagged.
          rewrite split_nl_app. apply Forall_app. split; [now apply untagged_join|].
          rewrite <- (app_nil_l NL), <- (app_nil_r ([] ++ NL)), <- app_assoc.
          rewrite split_nl_app. repeat constructor. }
        rewrite split_nl_app in Hall. now apply Forall_app in Hall as [Hall _]. }
      exists (y ++ NL), (split_nl y).
      split; [rewrite Hj; reflexivity|]. split; [exact Hu|].
      intros X. rewrite <- app_assoc. apply split_nl_app.
Qed.

(** What [readCrontabSnapshot] splits the content of [writeCrontabJobs]
    into, as written or with its end trimmed: the lines of the jobs,
    between lines without the tag. *)
Lemma reported_lines (h : Host) (js : list CronJob)
    (existing : list jstring) (content out : jstring) :
  Forall (fun J => normal_form J = true) js ->
  crontab_content h js existing = Ok content ->
  out = content \/ out = trimEnd content ->
  exists entries U V,
    entry_lines h js = Ok entries
    /\ Forall (fun l => includes TAG l = false) U
    /\ Forall (fun l => includes TAG l = false) V
    /\ (if truthy out then split_nl out else []) = U ++ entries ++ V.
Proof.
  intros Hn Hc Hout.
  destruct (content_shape h js existing content Hn Hc)
    as (entries & He & [[-> Hu] | (Hne & P & U & -> & HU & HP)]).
  - exists [], (if truthy out then split_nl out else []), [].
    rewrite app_nil_r. repeat split; [exact He | | constructor].
    destruct (truthy out); [|constructor].
    destruct Hout as [-> | ->]; [exact Hu|].
    destruct (trimEnd_prefix content) as [b Hb]. rewrite Hb in Hu.
    now apply (untagged_text_prefix _ b).
  - pose proof (entry_lines_single h js Hn entries He) as Hs.
    destruct (join_head entries Hs Hne) as (c & r & Hcn & Hj).
    exists entries, U.
    destruct Hout as [-> | ->].
    + exists [[]]. repeat split; [exact He | exact HU | repeat constructor|].
      replace (truthy (P ++ join NL entries ++ NL)) with true
        by (rewrite Hj; now destruct P).
      rewrite HP. rewrite <- (app_nil_r (join NL entries ++ NL)), <- app_assoc.
      rewrite split_nl_lines by (auto; apply (Forall_fst _ _ _ Hs)).
      reflexivity.
    + exists []. repeat split; [exact He | exact HU | constructor|].
      destruct (entry_lines_last h js Hn entries He Hne) as (Q & s & e & Eq & Hp).
      assert (Ht : trimEnd (P ++ join NL entries ++ NL) = P ++ join NL entries)
        by (rewrite Eq; apply trimEnd_lines; exact Hp).
      rewrite Ht.
      replace (truthy (P ++ join NL entries)) with true
        by (rewrite Hj; now destruct P).
      rewrite HP, app_nil_r. f_equal.
      apply split_nl_join; [apply (Forall_fst _ _ _ Hs) | exact Hne].
Qed.

Lemma read_between (h : Host) (js : list CronJob)
    (U V entries : list jstring) :
  Forall (fun J => normal_form J = true) js ->
  NoDup (map id js) ->
  Forall (fun l => includes TAG l = false) U ->
  Forall (fun l => includes TAG l = false) V ->
  entry_lines h js = Ok entries ->
  exists es,
    findTaggedEntries (U ++ entries ++ V) = (es, [])
    /\ Forall2 same_job js
         (flat_map (fun kv => match buildJobFromEntry h (snd kv) with
                              | Some job => [job]
                              | None => []
                              end) es).
Proof.
  intros Hn Hnd HU HV He.
  destruct (scan_jobs h js Hn Hnd entries U V (length U) [] [] He eq_refl)
    as (es & Hscan & Hall).
  { rewrite Forall_forall. reflexivity. }
  unfold findTaggedEntries.
  rewrite !scan_lines_app, (scan_untagged U HU).
  match goal with
  | |- context [scan_lines (0 + length U) entries ?a] =>
    replace (scan_lines (0 + length U) entries a)
      with ((es : entry_map), @nil jstring)
      by (symmetry; exact Hscan)
  end.
  rewrite (scan_untagged V HV).
  eexists. split; [reflexivity|].
  apply decode_entries; auto.
  apply (entry_lines_feasible h js entries He).
Qed.

(** **** The managed block *)

Lemma drop_lead_stop (m1 m2 : list bool) :
  forall s1 s2 : jstring,
    length m1 = length s1 ->
    drop_lead (m1 ++ false :: m2) (s1 ++ s2) = drop_lead m1 s1 ++ s2.
Proof.
  induction m1 as [|b m1 IH]; intros [|c s1] s2 Hl; try discriminate Hl.
  - cbn. now destruct s2.
  - cbn [app drop_lead]. destruct b; [|reflexivity].
    apply IH. cbn in Hl. lia.
Qed.

Lemma ws_mask_ascii7_app (P R : jstring) :
  forallb ascii7 P = true ->
  ws_mask 0 (P ++ R) = map ascii_ws P ++ ws_mask 0 R.
Proof.
  induction P as [|c P IH]; [reflexivity|]. cbn [forallb]. intros H.
  apply andb_prop in H as [Hc HP]. cbn [app map].
  rewrite ws_mask_ascii7 by exact Hc. now rewrite IH.
Qed.

(** [trim] keeps a prefix of seven-bit characters that ends with a plain
    one, when the string starts with a plain one. *)
Lemma trim_prefix (c e : ascii) (Pi R : jstring) :
  plain c = true -> plain e = true ->
  forallb ascii7 (c :: Pi) = true ->
  exists R', trim (c :: Pi ++ e :: R) = c :: Pi ++ e :: R'.
Proof.
  intros Hc He HP. unfold trim. rewrite trimStart_plain by exact Hc.
  unfold trimEnd.
  exists (rev (drop_lead (rev (ws_mask 0 R)) (rev R))).
  change (c :: Pi ++ e :: R) with ((c :: Pi) ++ e :: R).
  change (c :: Pi ++ e :: rev (drop_lead (rev (ws_mask 0 R)) (rev R)))
    with ((c :: Pi) ++ e :: rev (drop_lead (rev (ws_mask 0 R)) (rev R))).
  remember (c :: Pi) as P eqn:EP. clear EP Hc.
  rewrite ws_mask_ascii7_app by exact HP.
  rewrite ws_mask_plain_cons by exact He.
  rewrite !rev_app_distr. cbn [rev]. rewrite <- !app_assoc. cbn [app].
  rewrite drop_lead_stop by (now rewrite !length_rev, ws_mask_length).
  rewrite rev_app_distr. cbn [rev]. rewrite rev_involutive.
  rewrite <- !app_assoc. reflexivity.
Qed.

(** [trim] keeps a suffix that starts and ends with a plain character. *)
Lemma trim_suffix (c e : ascii) (Si R : jstring) :
  plain c = true -> plain e = true ->
  exists R', trim (R ++ c :: Si ++ [e]) = R' ++ c :: Si ++ [e].
Proof.
  intros Hc He. unfold trim, trimStart.
  rewrite ws_mask_app by (first [apply plain_ascii7; exact Hc | apply Nat.le_0_l]).
  rewrite ws_mask_plain_cons by exact Hc.
  rewrite drop_lead_stop by apply ws_mask_length.
  exists (drop_lead (ws_mask 0 R) R).
  replace (drop_lead (ws_mask 0 R) R ++ c :: Si ++ [e])
    with ((drop_lead (ws_mask 0 R) R ++ c :: Si) ++ [e])
    by (rewrite <- app_assoc; reflexivity).
  apply trimEnd_plain, He.
Qed.

Lemma tag_line_not_end (X : jstring) :
  str_eqb (trim (trim (OPENCLAW_ENTRY_TAG ++ lit " job " ++ X)))
          OPENCLAW_BLOCK_END = false.
Proof.
  destruct (trim_prefix "#" "b" (lit " openclaw:cron jo") (lit " " ++ X)
              eq_refl eq_refl eq_refl) as [R1 H1].
  change ("#"%char :: lit " openclaw:cron jo" ++ "b"%char :: lit " " ++ X)
    with (OPENCLAW_ENTRY_TAG ++ lit " job " ++ X) in H1.
  rewrite H1.
  destruct (trim_prefix "#" "b" (lit " openclaw:cron jo") R1
              eq_refl eq_refl eq_refl) as [R2 H2].
  rewrite H2. reflexivity.
Qed.

Lemma ends_with_tag_not_end (R : jstring) :
  str_eqb (R ++ OPENCLAW_ENTRY_TAG) OPENCLAW_BLOCK_END = false.
Proof.
  apply str_eqb_neq. intros H.
  apply (f_equal (fun s => last s " "%char)) in H.
  change OPENCLAW_ENTRY_TAG with (lit "# openclaw:cro" ++ ["n"%char]) in H.
  rewrite app_assoc, last_last in H. discriminate H.
Qed.

Lemma entry_line_not_end (pre X : jstring) :
  str_eqb (trim (pre ++ trim (X ++ OPENCLAW_ENTRY_TAG)))
          OPENCLAW_BLOCK_END = false.
Proof.
  destruct (trim_suffix "#" "n" (lit " openclaw:cro") X eq_refl eq_refl)
    as [R1 H1].
  change ("#"%char :: lit " openclaw:cro" ++ ["n"%char])
    with OPENCLAW_ENTRY_TAG in H1.
  rewrite H1, app_assoc.
  destruct (trim_suffix "#" "n" (lit " openclaw:cro") (pre ++ R1) eq_refl eq_refl)
    as [R2 H2].
  change ("#"%char :: lit " openclaw:cro" ++ ["n"%char])
    with OPENCLAW_ENTRY_TAG in H2.
  rewrite H2. apply ends_with_tag_not_end.
Qed.

Lemma tag_not_end (ID dn : jstring) :
  not_end (trim (OPENCLAW_ENTRY_TAG ++ lit " job " ++ ID ++ lit " " ++ dn)) = true.
Proof. unfold not_end. now rewrite tag_line_not_end. Qed.

Lemma entry_not_end (pre E ID : jstring) :
  not_end (pre ++ trim (E ++ lit " " ++ formatCrontabCommand ID ++ lit " "
                        ++ OPENCLAW_ENTRY_TAG)) = true.
Proof.
  assert (Heq : E ++ lit " " ++ formatCrontabCommand ID ++ lit " "
                ++ OPENCLAW_ENTRY_TAG
                = (E ++ lit " " ++ formatCrontabCommand ID ++ lit " ")
                  ++ OPENCLAW_ENTRY_TAG).
  { unfold formatCrontabCommand. rewrite <- !app_assoc. reflexivity. }
  unfold not_end. rewrite Heq. now rewrite entry_line_not_end.
Qed.

Lemma block_job_not_end (h : Host) (J : CronJob) (ls : list jstring) :
  block_job_lines h J = Ok ls -> Forall (fun l => not_end l = true) ls.
Proof.
  unfold block_job_lines.
  destruct (resolveCrontabSchedule h (schedule J)) as [E|]; [|discriminate].
  intros [= <-]. constructor; [|constructor; [|constructor]].
  - exact (tag_not_end (id J) _).
  - destruct (enabled J).
    + exact (entry_not_end [] E (id J)).
    + exact (entry_not_end (lit "# ") E (id J)).
Qed.

Lemma block_body_not_end (h : Host) (js : list CronJob) :
  forall body, block_body h js = Ok body -> Forall (fun l => not_end l = true) body.
Proof.
  induction js as [|J js IH]; intros body Hb.
  - cbn in Hb. injection Hb as <-. constructor.
  - cbn [block_body fold_right] in Hb. fold (block_body h js) in Hb.
    destruct (block_job_lines h J) as [ls|] eqn:HJ; [|discriminate Hb].
    destruct (block_body h js) as [rest|]; [|discriminate Hb].
    cbn [bind] in Hb. injection Hb as <-.
    apply Forall_app. split; [now apply (block_job_not_end h J) | now apply IH].
Qed.

Lemma managed_block_shape (h : Host) (js : list CronJob) (block : list jstring) :
  buildManagedBlock h js = Ok block ->
  exists inner,
    block = OPENCLAW_BLOCK_START :: inner ++ [OPENCLAW_BLOCK_END]
    /\ Forall (fun l => not_end l = true) inner
    /\ (js <> [] -> block_body h js = Ok inner).
Proof.
  destruct js as [|J js].
  - intros [= <-]. exists [lit "# (no cron jobs)"].
    split; [reflexivity|]. split; [repeat constructor | contradiction].
  - unfold buildManagedBlock. fold (block_body h (J :: js)).
    destruct (block_body h (J :: js)) as [body|] eqn:Hb; [|discriminate].
    intros [= <-]. exists body. split; [reflexivity|].
    split; [now apply (block_body_not_end h (J :: js)) | reflexivity].
Qed.

Lemma findIndex_first {A} (p : A -> bool) (U : list A) (x : A) (R : list A) :
  Forall (fun y => p y = false) U -> p x = true ->
  findIndex p (U ++ x :: R) = Some (length U).
Proof.
  intros HU Hx. induction HU as [|y U Hy _ IH]; cbn [app findIndex length].
  - now rewrite Hx.
  - now rewrite Hy, IH.
Qed.

Lemma findIndex_none {A} (p : A -> bool) (U : list A) :
  Forall (fun y => p y = false) U -> findIndex p U = None.
Proof.
  induction 1 as [|y U Hy _ IH]; [reflexivity|]. cbn. now rewrite Hy, IH.
Qed.

Lemma skipn_past {A} (U : list A) (x : A) (R : list A) :
  skipn (S (length U)) (U ++ x :: R) = R.
Proof.
  replace (U ++ x :: R) with ((U ++ [x]) ++ R) by now rewrite <- app_assoc.
  replace (S (length U)) with (length (U ++ [x]))
    by (rewrite length_app; cbn; lia).
  rewrite skipn_app, skipn_all, Nat.sub_diag. reflexivity.
Qed.

Lemma firstn_before {A} (U R : list A) : firstn (length U) (U ++ R) = U.
Proof.
  rewrite firstn_app, firstn_all, Nat.sub_diag. cbn. apply app_nil_r.
Qed.

Lemma strip_block (U inner V : list jstring) :
  Forall (fun l => not_start l = true) U ->
  Forall (fun l => not_end l = true) inner ->
  stripManagedBlock
    (U ++ (OPENCLAW_BLOCK_START :: inner ++ [OPENCLAW_BLOCK_END]) ++ V)
  = U ++ V.
Proof.
  intros HU Hin. unfold stripManagedBlock.
  cbn [app]. rewrite findIndex_first.
  2:{ revert HU. apply Forall_impl. intros l Hl. unfold not_start in Hl.
      now apply negb_true_iff in Hl. }
  2:{ reflexivity. }
  rewrite skipn_past, <- app_assoc. cbn [app].
  rewrite findIndex_first.
  2:{ revert Hin. apply Forall_impl. intros l Hl. unfold not_end in Hl.
      now apply negb_true_iff in Hl. }
  2:{ reflexivity. }
  rewrite firstn_before. f_equal.
  replace (S (length U) + length inner + 1)
    with (S (length (U ++ OPENCLAW_BLOCK_START :: inner))).
  2:{ rewrite length_app. cbn [length]. lia. }
  replace (U ++ OPENCLAW_BLOCK_START :: inner ++ OPENCLAW_BLOCK_END :: V)
    with ((U ++ OPENCLAW_BLOCK_START :: inner) ++ OPENCLAW_BLOCK_END :: V)
    by (rewrite <- app_assoc; reflexivity).
  apply skipn_past.
Qed.

(** **** Syncing twice *)

Lemma single_trim (s : jstring) : single_line s = true -> single_line (trim s) = true.
Proof.
  intros H. destruct (trim_sub s) as (a & b & E). rewrite E in H.
  unfold single_line in *. rewrite !forallb_app in H.
  apply andb_prop in H as [_ H]. apply andb_prop in H as [H _]. exact H.
Qed.

Lemma single_sanitized (t : jstring) : single_line (sanitizeInline t) = true.
Proof.
  unfold sanitizeInline. apply single_trim. unfold single_line.
  induction (squeeze_ws false (ws_mask 0 t) t) as [|c r IH]; [reflexivity|].
  cbn [map forallb]. rewrite IH, andb_true_r.
  unfold hash_or_break. destruct (is_nl c) eqn:E.
  - rewrite !orb_true_r. reflexivity.
  - rewrite orb_false_r.
    destruct (Ascii.eqb c "#" || (code c =? 13)%N); [reflexivity|].
    now rewrite E.
Qed.

Lemma expr_single (E : jstring) : forallb expr_char E = true -> single_line E = true.
Proof. apply forallb_impl, expr_char_not_nl. Qed.

Lemma resolve_single (h : Host) (J : CronJob) (E : jstring) :
  one_line_job J = true ->
  resolveCrontabSchedule h (schedule J) = ResolveOk E ->
  single_line E = true.
Proof.
  unfold one_line_job. intros H. apply andb_prop in H as [_ H].
  destruct (schedule J) as [expr tz st | [|ms] an | at_];
    cbn [resolveCrontabSchedule].
  - repeat match goal with
           | |- context [if ?b then _ else _] =>
             let Eb := fresh "Eb" in destruct b eqn:Eb; try discriminate
           end.
    intros [= <-]. now apply single_trim.
  - discriminate.
  - repeat match goal with
           | |- context [if ?b then _ else _] =>
             let Eb := fresh "Eb" in destruct b eqn:Eb; try discriminate
           end; intros [= <-]; apply expr_single;
      cbn [lit list_ascii_of_string app andb forallb];
      rewrite ?forallb_app, ?Z_to_string_expr; reflexivity.
  - destruct (if truthy (trim at_) then Date_parse h (trim at_) else None)
      as [when|]; [|discriminate].
    intros [= <-]. apply expr_single. unfold format_at.
    rewrite !forallb_app, !Z_to_string_expr. reflexivity.
Qed.

Lemma block_job_single (h : Host) (J : CronJob) (ls : list jstring) :
  one_line_job J = true ->
  block_job_lines h J = Ok ls ->
  Forall (fun l => single_line l = true /\ l <> []) ls.
Proof.
  intros HJ. unfold block_job_lines.
  destruct (resolveCrontabSchedule h (schedule J)) as [E|] eqn:HE; [|discriminate].
  intros Hls.
  assert (Hid : single_line (id J) = true).
  { unfold one_line_job in HJ. apply andb_prop in HJ. tauto. }
  pose proof (resolve_single h J E HJ HE) as HEs.
  set (dn := sanitizeInline (if truthy (name J) then name J else id J)) in *.
  set (entry := trim (E ++ lit " " ++ formatCrontabCommand (id J) ++ lit " "
                      ++ OPENCLAW_ENTRY_TAG)) in *.
  assert (Hentry : single_line entry = true /\ entry <> []).
  { split.
    - apply single_trim. unfold formatCrontabCommand.
      repeat (apply single_app; try reflexivity); assumption.
    - unfold entry.
      replace (E ++ lit " " ++ formatCrontabCommand (id J) ++ lit " "
               ++ OPENCLAW_ENTRY_TAG)
        with ((E ++ lit " " ++ formatCrontabCommand (id J) ++ lit " ")
              ++ "#"%char :: lit " openclaw:cro" ++ ["n"%char])
        by (unfold formatCrontabCommand; rewrite <- !app_assoc; reflexivity).
      destruct (trim_suffix "#" "n" (lit " openclaw:cro")
                  (E ++ lit " " ++ formatCrontabCommand (id J) ++ lit " ")
                  eq_refl eq_refl) as [R' ->].
      destruct R'; discriminate. }
  assert (Els : ls = [trim (OPENCLAW_ENTRY_TAG ++ lit " job " ++ id J ++ lit " " ++ dn);
                      if enabled J then entry else lit "# " ++ entry])
    by congruence.
  rewrite Els. constructor; [|constructor; [|constructor]].
  - split.
    + apply single_trim. repeat (apply single_app; try reflexivity); try assumption.
      apply single_sanitized.
    + destruct (trim_prefix "#" "b" (lit " openclaw:cron jo")
                  (lit " " ++ id J ++ lit " " ++ dn) eq_refl eq_refl eq_refl)
        as [R' HR].
      change ("#"%char :: lit " openclaw:cron jo" ++ "b"%char
              :: lit " " ++ id J ++ lit " " ++ dn)
        with (OPENCLAW_ENTRY_TAG ++ lit " job " ++ id J ++ lit " " ++ dn) in HR.
      rewrite HR. discriminate.
  - destruct Hentry as [H1 H2]. destruct (enabled J).
    + split; assumption.
    + split; [now apply single_app | discriminate].
Qed.

Lemma block_body_single (h : Host) (js : list CronJob) :
  Forall (fun J => one_line_job J = true) js ->
  forall body,
    block_body h js = Ok body ->
    Forall (fun l => single_line l = true /\ l <> []) body.
Proof.
  induction 1 as [|J js HJ _ IH]; intros body Hb.
  - cbn in Hb. injection Hb as <-. constructor.
  - cbn [block_body fold_right] in Hb. fold (block_body h js) in Hb.
    destruct (block_job_lines h J) as [ls|] eqn:El; [|discriminate Hb].
    destruct (block_body h js) as [rest|]; [|discriminate Hb].
    cbn [bind] in Hb. injection Hb as <-.
    apply Forall_app. split; [now apply (block_job_single h J) | now apply IH].
Qed.

Lemma managed_block_single (h : Host) (js : list CronJob) (block : list jstring) :
  Forall (fun J => one_line_job J = true) js ->
  buildManagedBlock h js = Ok block ->
  Forall (fun l => single_line l = true /\ l <> []) block /\ block <> [].
Proof.
  intros Hjs Hb. destruct js as [|J js].
  - injection Hb as <-. split; [|discriminate].
    repeat constructor; discriminate.
  - unfold buildManagedBlock in Hb. fold (block_body h (J :: js)) in Hb.
    destruct (block_body h (J :: js)) as [body|] eqn:E; [|discriminate Hb].
    injection Hb as <-. split; [|discriminate].
    constructor; [split; [reflexivity | discriminate]|].
    apply Forall_app. split; [now apply (block_body_single h (J :: js))|].
    repeat constructor. discriminate.
Qed.

Lemma strip_incl (ls : list jstring) : incl (stripManagedBlock ls) ls.
Proof.
  unfold stripManagedBlock.
  destruct (findIndex _ ls) as [s|]; [|apply incl_refl].
  destruct (findIndex _ (skipn (S s) ls)) as [k|].
  - intros l Hl. apply in_app_or in Hl as [Hl|Hl].
    + rewrite <- (firstn_skipn s ls). apply in_or_app. now left.
    + rewrite <- (firstn_skipn (S s + k + 1) ls). apply in_or_app. now right.
  - intros l Hl. rewrite <- (firstn_skipn s ls). apply in_or_app. now left.
Qed.

Lemma blank_run_cons_ne (a : jstring) (r : list jstring) :
  a <> [] -> blank_run (a :: r) = blank_run r.
Proof.
  intros Ha. destruct a as [|c a]; [contradiction|].
  destruct r as [|x r]; reflexivity.
Qed.

Lemma blank_run_sep (A B : list jstring) :
  Forall (fun l => l <> []) A ->
  Forall (fun l => single_line l = true /\ l <> []) B -> B <> [] ->
  blank_run (A ++ [] :: B) = false.
Proof.
  intros HA HB Hne. induction HA as [|a A Ha _ IH].
  - destruct B as [|b B]; [contradiction|]. cbn [app].
    pose proof (no_blank_run (b :: B) HB) as Hn.
    inversion HB as [|? ? [_ Hb] _]; subst.
    change (blank_run ([] :: b :: B))
      with ((negb (truthy []) && negb (truthy b)) || blank_run (b :: B)).
    rewrite Hn. destruct b; [contradiction|reflexivity].
  - cbn [app]. now rewrite blank_run_cons_ne.
Qed.

Lemma filter_all {A} (p : A -> bool) (l : list A) :
  Forall (fun x => p x = true) l -> filter p l = l.
Proof.
  induction 1 as [|x l Hx _ IH]; [reflexivity|]. cbn. now rewrite Hx, IH.
Qed.

(** **** The claims on the codec *)

(** The lines of a job, enabled or not: the base line, the lines that do
    not depend on [enabled], and the execution line. *)
Lemma toggled_lines (h : Host) (J : CronJob) (E : jstring) (b : bool) :
  resolveCrontabSchedule h (schedule J) = ResolveOk E ->
  buildTaggedEntryLines h (set_enabled b J)
  = Ok (buildTaggedLine (base_fields (set_enabled b J))
        :: map buildTaggedLine
             (payload_fields J :: delivery_dicts J ++ [schedule_fields J])
        ++ [(if b then [] else lit "# ") ++ execution_line J E]).
Proof.
  intros HE. rewrite (entry_lines_resolved h (set_enabled b J) E HE).
  reflexivity.
Qed.

Lemma nth_inner {A} (x y : A) (R : list A) (d : A) (i : nat) :
  0 < i -> S i < length (x :: R ++ [y]) -> nth i (x :: R ++ [y]) d = nth (pred i) R d.
Proof.
  intros Hi Hl. destruct i as [|i]; [lia|]. cbn [nth pred].
  cbn [length] in Hl. rewrite length_app in Hl. cbn [length] in Hl.
  apply app_nth1. lia.
Qed.



(* ================================================================== *)
(** ** Properties *)

(** *** Schedule resolver *)

(** C4 (amended).  On [{kind:"every"}] the resolver accepts
    [everyMs = 60000] with the expression ["*/1 * * * *"], [300000] with
    ["*/5 * * * *"] and [3600000] with ["0 */1 * * *"]; it rejects [90000]
    and [59000], both for not being a whole number of minutes. *)
Theorem every_schedule_feasibility (h : Host) :
  resolveCrontabSchedule h (ScheduleEvery (Int 60000) None)
    = ResolveOk (lit "*/1 * * * *")
  /\ resolveCrontabSchedule h (ScheduleEvery (Int 300000) None)
    = ResolveOk (lit "*/5 * * * *")
  /\ resolveCrontabSchedule h (ScheduleEvery (Int 3600000) None)
    = ResolveOk (lit "0 */1 * * *")
  /\ resolveCrontabSchedule h (ScheduleEvery (Int 90000) None)
    = ResolveError (lit "crontab scheduler supports 1-minute granularity")
  /\ resolveCrontabSchedule h (ScheduleEvery (Int 59000) None)
    = ResolveError (lit "crontab scheduler supports 1-minute granularity").
Proof. repeat split; reflexivity. Qed.

(** *** Crontab I/O *)

(** C3 (amended).  [readCrontabSnapshot] runs [crontab -l] and never
    raises.  On success the line list is stdout split on newlines (no line
    at all for an empty stdout).  On failure the line list is empty and no
    job is returned; the snapshot carries no error when stderr contains
    "no crontab" in any letter case, and otherwise the single error
    ["crontab: <stderr>"] (["crontab: failed to read"] for an empty
    stderr). *)
Theorem read_contract (h : Host) :
  exists snap,
    readCrontabSnapshot h = (Ok snap, [CrontabList])
    /\ lines snap =
       (if ok (crontab_list h)
        then if truthy (stdout (crontab_list h))
             then split_nl (stdout (crontab_list h)) else []
        else [])
    /\ (if ok (crontab_list h) then True
        else jobs snap = []
             /\ errors snap =
                if includes (lit "no crontab") (toLowerCase (stderr (crontab_list h)))
                then []
                else [lit "crontab: "
                      ++ (if truthy (stderr (crontab_list h))
                          then stderr (crontab_list h) else lit "failed to read")]).
Proof.
  unfold readCrontabSnapshot, snapshot_of.
  destruct (ok (crontab_list h)).
  - destruct (findTaggedEntries _) as [entries parseErrors] eqn:E.
    eexists; split; [reflexivity|]. cbn. auto.
  - destruct (includes _ _); cbn; eexists; (split; [reflexivity|]); cbn; auto.
Qed.

(** *** Dispatcher *)

(** C7.  Under [mode = "force"], a job targeting the main session whose
    payload is not a system event fails with
    ["main session jobs require systemEvent payload"], and a job targeting
    an isolated session whose payload is not an agent turn fails with
    ["isolated jobs require agentTurn payload"]; in both cases nothing is
    dispatched: no event is enqueued, no isolated turn is run, no webhook
    is posted. *)
Theorem pairing_violation_fails (h : Host) (job : CronJob) :
  (sessionTarget job = lit "main" ->
   payload_kind (payload job) <> lit "systemEvent" ->
   runCrontabJob h job Force
   = (Failed (lit "main session jobs require systemEvent payload"), []))
  /\ (sessionTarget job = lit "isolated" ->
      payload_kind (payload job) <> lit "agentTurn" ->
      runCrontabJob h job Force
      = (Failed (lit "isolated jobs require agentTurn payload"), [])).
Proof.
  unfold runCrontabJob; cbn [shouldRunJob negb].
  split; intros Ht Hk; rewrite Ht; cbn; destruct (payload job); cbn in *;
    solve [reflexivity | exfalso; apply Hk; reflexivity].
Qed.

(** C8.  When a job runs and the webhook delivery yields an error [e]:
    unless [delivery.bestEffort] is [true] the outcome becomes
    [status = "error"], [error = e], [errorKind = "delivery-target"] (its
    other fields are kept); with [bestEffort = true] the outcome is the one
    the dispatch assembled.  Either way the result is [{ok:true, ran:true}]. *)
Theorem webhook_failure_folding (h : Host) (job : CronJob) (mode : RunMode) (e : jstring) :
  shouldRunJob h job mode = true ->
  well_paired job = true ->
  snd (fst (deliverWebhook h job (dispatch_outcome h job))) = Some e ->
  e <> [] ->
  exists next fx,
    runCrontabJob h job mode
    = (Ran (if best_effort job then dispatch_outcome h job
            else mkOutcome (lit "error") (Some e) (Some (lit "delivery-target"))
                           (summary (dispatch_outcome h job))
                           (sessionId (dispatch_outcome h job))
                           (outcome_sessionKey (dispatch_outcome h job)))
           next, fx).
Proof.
  intros Hrun Hpair Hw He.
  unfold runCrontabJob, well_paired, dispatch_outcome in *.
  rewrite Hrun; cbn [negb].
  assert (Ht : truthy e = true) by (destruct e; [contradiction | reflexivity]).
  destruct (str_eqb (sessionTarget job) (lit "main")); destruct (payload job);
    try discriminate Hpair;
    match goal with
    | H : snd (fst (deliverWebhook h _ ?o)) = _ |- _ =>
      destruct (deliverWebhook h job o) as [[d w] posted]; cbn in H; subst w
    end;
    unfold fold_webhook_error, best_effort; cbn [opt_truthy]; rewrite Ht;
    cbn [andb];
    (destruct (delivery job) as [dl|]; [destruct (bestEffort dl) as [[|]|] |]);
    cbn; eauto.
Qed.

(** *** RPC facade *)






(** C5, what the code does.  In crontab mode, a [cron.add] request that
    passes schema and timestamp validation but whose schedule the resolver
    rejects with reason [e] is answered with code [INTERNAL_ERROR] and
    message ["Error: " ++ e]; the crontab is neither read nor written. *)
Theorem add_infeasible_schedule (h : Host) (params : RawParams h) (e : jstring) :
  let normalized :=
    match normalizeCronJobCreate h params with Some n => n | None => params end in
  validateCronAddParams h normalized = true ->
  validateScheduleTimestamp h (c_schedule (asCronJobCreate h normalized)) = None ->
  useCrontabSourceOfTruth h = true ->
  resolveCrontabSchedule h (c_schedule (asCronJobCreate h normalized)) = ResolveError e ->
  cron_add h params = (internal_error (String_of_error e), []).
Proof.
  intros normalized Hv Ht Hc He. unfold cron_add. fold normalized.
  rewrite Hv, Ht, Hc. cbn [negb].
  unfold validateCrontabScheduleOrThrow. rewrite He. reflexivity.
Qed.

(** *** At-schedules *)

Lemma subminute_arith (L : Z) :
  (0 <? (L / 1000) mod 60)%Z || (0 <? L mod 1000)%Z = negb (L mod 60000 =? 0)%Z.
Proof.
  destruct (Z.eqb_spec (L mod 60000) 0);
    destruct (Z.ltb_spec 0 ((L / 1000) mod 60));
    destruct (Z.ltb_spec 0 (L mod 1000)); cbn; try reflexivity;
    exfalso; Z.div_mod_to_equations; lia.
Qed.

Lemma setMinutes_arith (L : Z) :
  (L / 86400000 * 86400000
   + ((L / 3600000) mod 24 * 3600000
      + ((L / 60000) mod 60 + 1) * 60000 + 0 * 1000 + 0)
   = L - L mod 60000 + 60000)%Z.
Proof. Z.div_mod_to_equations. lia. Qed.

Lemma rounding_arith (L : Z) :
  (whole_minute_up L = L <-> ((L / 1000) mod 60 = 0 /\ L mod 1000 = 0)%Z)
  /\ (L <= whole_minute_up L < L + 60000)%Z
  /\ (whole_minute_up L mod 60000 = 0)%Z.
Proof.
  unfold whole_minute_up.
  destruct (Z.eqb_spec (L mod 60000) 0) as [E|E].
  - repeat split; try (Z.div_mod_to_equations; lia).
  - repeat split; try (Z.div_mod_to_equations; lia);
      intros; exfalso; Z.div_mod_to_equations; lia.
Qed.

Lemma subminute_test (h : Host) (t : Z) :
  (0 <? Date_getSeconds h t)%Z || (0 <? Date_getMilliseconds h t)%Z
  = negb (LocalTime h t mod 60000 =? 0)%Z.
Proof. apply subminute_arith. Qed.

Lemma setMinutes_next (h : Host) (t : Z) :
  Date_setMinutes h t (Date_getMinutes h t + 1) 0 0
  = UTC h (LocalTime h t - LocalTime h t mod 60000 + 60000)%Z.
Proof.
  unfold Date_setMinutes, Date_getMinutes, Date_getHours.
  now rewrite setMinutes_arith.
Qed.

(** C6.  For a schedule [{kind:"at", at}] whose trimmed timestamp parses to
    the instant [t], let [L] be the wall-clock time of [t] on the host and
    [W] be [L] rounded up to a whole minute: [W] is [L] exactly when [t]
    has no seconds and no milliseconds, and otherwise the start of the next
    minute.  The resolver answers ok with the decimal minute, hour, day of
    month and month, separated by single spaces and followed by [" *"], of
    the wall-clock time [A] of the instant that the host gives for [W];
    [A] is [W] itself whenever the offset of the time zone is the same on
    both sides of that conversion.  On a host whose local time is UTC,
    [at = "2030-06-15T12:34:56.500Z"] yields ["35 12 15 6 *"]. *)
Theorem at_schedule_rounding (h : Host) (at_ : jstring) (t : Z) :
  trim at_ <> [] ->
  Date_parse h (trim at_) = Some t ->
  let L := LocalTime h t in
  let W := whole_minute_up L in
  let r := if (L mod 60000 =? 0)%Z then t else UTC h W in
  let A := LocalTime h r in
  resolveCrontabSchedule h (ScheduleAt at_)
  = ResolveOk (Z_to_string ((A / 60000) mod 60) ++ lit " "
               ++ Z_to_string ((A / 3600000) mod 24) ++ lit " "
               ++ Z_to_string (snd (days_to_civil (A / 86400000))) ++ lit " "
               ++ Z_to_string (snd (fst (days_to_civil (A / 86400000))))
               ++ lit " *")
  /\ (W = L <-> Date_getSeconds h t = 0%Z /\ Date_getMilliseconds h t = 0%Z)
  /\ (L <= W < L + 60000)%Z
  /\ (W mod 60000 = 0)%Z
  /\ (LocalTZA h r true = LocalTZA h W false -> A = W)
  /\ ((forall x b, LocalTZA h x b = 0%Z) ->
      at_ = lit "2030-06-15T12:34:56.500Z" ->
      t = 1907757296500%Z ->
      resolveCrontabSchedule h (ScheduleAt at_) = ResolveOk (lit "35 12 15 6 *")).
Proof.
  intros Hne Hp L W r A.
  assert (Hres : resolveCrontabSchedule h (ScheduleAt at_)
                 = ResolveOk
                     (Z_to_string ((A / 60000) mod 60) ++ lit " "
                      ++ Z_to_string ((A / 3600000) mod 24) ++ lit " "
                      ++ Z_to_string (snd (days_to_civil (A / 86400000))) ++ lit " "
                      ++ Z_to_string (snd (fst (days_to_civil (A / 86400000))))
                      ++ lit " *")).
  { unfold resolveCrontabSchedule.
    destruct (trim at_) as [|c raw] eqn:Hraw; [contradiction|].
    cbn [truthy]. rewrite Hp, subminute_test, setMinutes_next.
    fold L. subst A r W. unfold whole_minute_up.
    destruct (L mod 60000 =? 0)%Z; cbn [negb];
      unfold format_at, Date_getMinutes, Date_getHours, Date_getDate,
        Date_getMonth;
      rewrite Z.sub_add; reflexivity. }
  split; [exact Hres|].
  destruct (rounding_arith L) as (H1 & H2 & H3).
  split; [exact H1 | split; [exact H2 | split; [exact H3 | split]]].
  - intros Hoff. subst A r W. unfold whole_minute_up in *.
    destruct (L mod 60000 =? 0)%Z; [reflexivity|].
    unfold LocalTime at 1. unfold UTC at 1. rewrite Hoff. lia.
  - intros Hz Hat Ht. rewrite Hres. subst A r W L.
    unfold whole_minute_up, LocalTime, UTC. rewrite !Hz, Ht. reflexivity.
Qed.


(** *** Crontab codec *)



(** C9.  For a job whose schedule the resolver accepts, the encodings with
    [enabled = true] and with [enabled = false] have as many lines; the
    last line is the execution line, with the leading ["# "] when
    disabled; the first line differs in its token [enabled=true] or
    [enabled=false] and in nothing else; every line between the two is the
    same. *)
Theorem toggle_changes_two_lines (h : Host) (J : CronJob) (E : jstring) :
  resolveCrontabSchedule h (schedule J) = ResolveOk E ->
  exists on off,
    buildTaggedEntryLines h (set_enabled true J) = Ok on
    /\ buildTaggedEntryLines h (set_enabled false J) = Ok off
    /\ length on = length off
    /\ last on [] = execution_line J E
    /\ last off [] = lit "# " ++ execution_line J E
    /\ (exists P Q,
          hd [] on = P ++ lit "enabled=true" ++ Q
          /\ hd [] off = P ++ lit "enabled=false" ++ Q)
    /\ (forall i, 0 < i -> S i < length on -> nth i on [] = nth i off []).
Proof.
  intros HE.
  set (R := map buildTaggedLine
              (payload_fields J :: delivery_dicts J ++ [schedule_fields J])).
  exists (buildTaggedLine (base_fields (set_enabled true J))
          :: R ++ [execution_line J E]),
         (buildTaggedLine (base_fields (set_enabled false J))
          :: R ++ [lit "# " ++ execution_line J E]).
  split; [apply (toggled_lines h J E true HE)|].
  split; [apply (toggled_lines h J E false HE)|].
  split; [cbn [length]; now rewrite !length_app|].
  split; [rewrite app_comm_cons; apply last_last|].
  split; [rewrite app_comm_cons; apply last_last|].
  split.
  - cbn [hd]. rewrite !base_line_split. eexists. eexists. split; reflexivity.
  - intros i Hi Hl. rewrite !nth_inner; auto.
    cbn [length] in *. rewrite length_app in *. exact Hl.
Qed.


(** X4.  For a job whose schedule the resolver accepts, the
    encodings with [enabled = true] and with [enabled = false] have the
    same lines but two: the base metadata line, which reads
    [enabled=true] in one and [enabled=false] in the other, and the
    execution line, which carries the leading ["# "] when disabled.  Every
    other line (payload, delivery, schedule metadata, [CRON_TZ] lines) is
    identical. *)
Theorem disable_toggle_frame (h : Host) (job : CronJob) (cronExpr : jstring) :
  resolveCrontabSchedule h (schedule job) = ResolveOk cronExpr ->
  exists P Q mid tail,
    buildTaggedEntryLines h (set_enabled true job)
    = Ok ((P ++ lit "enabled=true" ++ Q) :: mid
          ++ execution_line job cronExpr :: tail)
    /\ buildTaggedEntryLines h (set_enabled false job)
       = Ok ((P ++ lit "enabled=false" ++ Q) :: mid
             ++ (lit "# " ++ execution_line job cronExpr) :: tail).
Proof.
  intros Hres. unfold buildTaggedEntryLines.
  rewrite !payload_fields_enabled, !delivery_lines_enabled,
    !schedule_fields_enabled, !base_line_split.
  cbn [schedule id enabled set_enabled]. rewrite Hres.
  fold (execution_line job cronExpr).
  change (lit "enabled=" ++ bool_string true) with (lit "enabled=true").
  change (lit "enabled=" ++ bool_string false) with (lit "enabled=false").
  exists (TAG_PREFIX ++ lit " "
          ++ flat_map (fun y => y ++ lit " ")
               (map token_of
                  (filter has_value
                     [ (lit "id", id job); (lit "name", name job) ]))).
  exists (flat_map (fun y => lit " " ++ y)
            (map token_of (filter has_value (base_rest job)))).
  exists ([buildTaggedLine (payload_fields job)] ++ delivery_lines job
          ++ [buildTaggedLine (schedule_fields job)]
          ++ match cron_tz (schedule job) with
             | Some tz => [lit "CRON_TZ=" ++ tz]
             | None => []
             end).
  exists (match cron_tz (schedule job) with
          | Some _ => [lit "CRON_TZ="]
          | None => []
          end).
  generalize (buildTaggedLine (payload_fields job))
             (buildTaggedLine (schedule_fields job))
             (execution_line job cronExpr) (delivery_lines job).
  intros lp ls le ld.
  match goal with
  | |- context [(?p ++ lit "enabled=true" ++ ?q)] =>
    generalize (p ++ lit "enabled=true" ++ q) (p ++ lit "enabled=false" ++ q)
  end.
  intros b1 b2.
  destruct (cron_tz (schedule job)); split; f_equal;
    repeat (rewrite <- ?app_assoc; cbn [app]); rewrite ?app_nil_r; reflexivity.
Qed.

(** X5.  Let [L] be existing crontab lines none of which
    contains the tag, without two empty lines in a row.  For every job set
    that [writeCrontabJobs] accepts, the content piped to [crontab -]
    contains every line of [L], unchanged and in order, among its
    lines without the tag. *)
Theorem unmanaged_lines_preserved (h : Host) (js : list CronJob)
    (L : list jstring) (content : jstring) :
  Forall (fun l => single_line l = true) L ->
  Forall (fun l => includes TAG l = false) L ->
  blank_run L = false ->
  crontab_content h js L = Ok content ->
  subseq L (untagged (split_nl content)).
Proof.
  intros Hs Ht Hb Hc. unfold crontab_content in Hc.
  assert (Hf : filter (fun line => negb (includes TAG_PREFIX line)
                                   && negb (includes TAG line)) L = L).
  { clear -Ht. induction Ht as [|l L Hl _ IH]; [reflexivity|]. cbn [filter].
    rewrite (not_tag_not_prefix l Hl), Hl. cbn [negb andb]. now rewrite IH. }
  rewrite Hf in Hc.
  destruct (fold_right _ _ js) as [entries | e]; [|discriminate Hc].
  cbn [bind] in Hc. injection Hc as <-.
  destruct L as [|l0 L0]; [constructor|].
  cbn [length Nat.eqb]. set (L := l0 :: L0) in *.
  rewrite join_app_ne by (subst L; discriminate).
  destruct (collapse_lines L Hs Hb ltac:(subst L; discriminate) 0
              (join NL ([[]] ++ entries ++ [[]])) (or_introl (Nat.le_0_1)))
    as [n' E].
  rewrite E. rewrite split_nl_lines by (auto; subst L; discriminate).
  unfold untagged. rewrite filter_app.
  assert (Hk : filter (fun l => negb (includes TAG l)) L = L).
  { clear -Ht. induction Ht as [|l L Hl _ IH]; [reflexivity|]. cbn [filter].
    rewrite Hl. cbn [negb]. now rewrite IH. }
  rewrite Hk. apply subseq_app_r.
Qed.

(* ================================================================== *)
(** ** Further properties of the store *)

(** X1.  [decodeValue] undoes [encodeValue] on every well-formed string. *)
Theorem value_roundtrip (s : jstring) :
  utf8_valid s = true -> decodeValue (encodeValue s) = s.
Proof. apply decode_encode. Qed.

Lemma encode_byte_token_safe (c : ascii) :
  forallb token_safe (encode_byte c) = true.
Proof. each_ascii c; reflexivity. Qed.

Lemma encode_token_safe (s : jstring) :
  forallb token_safe (encodeURIComponent s) = true.
Proof.
  unfold encodeURIComponent.
  induction s as [|c s IH]; [reflexivity|].
  cbn [flat_map]. rewrite forallb_app, encode_byte_token_safe, IH. reflexivity.
Qed.

(** X2.  The encoding of a well-formed value is made of seven-bit
    characters that are not white space, and contains neither ['='] nor
    ['#']: whatever the value, it stays one token of its line and cannot
    open a comment or a key. *)
Theorem encoded_value_token_safe (s : jstring) :
  utf8_valid s = true -> forallb token_safe (encodeValue s) = true.
Proof. intros _. apply encode_token_safe. Qed.

(** X3.  A tagged line built from a record with distinct well-formed keys
    and well-formed values parses back to that record without its empty
    fields: every key reads as its value when that is a non-empty string,
    and as absent otherwise.  The key ["__proto__"] is left aside: an
    object does not store it as a field. *)
Theorem tagged_line_parses_back (d : dict) :
  dict_ok d = true ->
  dict_get (lit "__proto__") d = None ->
  exists m,
    parseTaggedLine (buildTaggedLine d) = Some m
    /\ forall k, dict_get k m = present k d.
Proof.
  unfold dict_ok. intros H _. apply andb_prop in H as [Hu Hf].
  exists (parsed d). split.
  - apply tagged_line_roundtrip, Hf.
  - intros k. apply dict_get_parsed, Hu.
Qed.

(** X6.  The resolver never accepts what crontab cannot express: a cron
    schedule with a non-empty time zone or a positive stagger, or an
    interval with an anchor, is rejected whatever its other fields. *)
Theorem unsupported_features_rejected (h : Host) :
  (forall expr tz st,
     opt_truthy tz = true ->
     exists err, resolveCrontabSchedule h (ScheduleCron expr tz st)
                 = ResolveError err)
  /\ (forall expr tz z,
        (0 < z)%Z ->
        exists err, resolveCrontabSchedule h (ScheduleCron expr tz (Some (Int z)))
                    = ResolveError err)
  /\ (forall ms anchor,
        exists err, resolveCrontabSchedule h (ScheduleEvery ms (Some anchor))
                    = ResolveError err).
Proof.
  repeat split.
  - intros expr tz st Htz. cbn [resolveCrontabSchedule].
    repeat match goal with
           | |- context [if ?b then _ else _] =>
             destruct b eqn:?; try (eexists; reflexivity)
           end.
    discriminate.
  - intros expr tz z Hz. cbn [resolveCrontabSchedule].
    apply Z.ltb_lt in Hz. rewrite Hz.
    repeat match goal with
           | |- context [if ?b then _ else _] =>
             destruct b eqn:?; try (eexists; reflexivity)
           end.
  - intros [|ms] anchor; cbn [resolveCrontabSchedule];
      [eexists; reflexivity|].
    destruct (ms <=? 0)%Z; eexists; reflexivity.
Qed.

(** X7.  What [buildTaggedEntryLines] returns.  For a schedule the
    resolver rejects with reason [e] it throws ["job <id>: <e>"].
    Otherwise it returns, in this order, the base line, the payload line,
    the delivery line if there is one, the schedule line and the execution
    line (behind ["# "] for a disabled job), and nothing else: no
    [CRON_TZ] line is ever written. *)
Theorem entry_lines_shape (h : Host) (job : CronJob) :
  match resolveCrontabSchedule h (schedule job) with
  | ResolveError e =>
    buildTaggedEntryLines h job = Throw (lit "job " ++ id job ++ lit ": " ++ e)
  | ResolveOk cronExpr =>
    buildTaggedEntryLines h job
    = Ok ([ buildTaggedLine (base_fields job);
            buildTaggedLine (payload_fields job) ]
          ++ delivery_lines job
          ++ [ buildTaggedLine (schedule_fields job);
               (if enabled job then execution_line job cronExpr
                else lit "# " ++ execution_line job cronExpr) ])
  end.
Proof.
  unfold buildTaggedEntryLines.
  destruct (resolveCrontabSchedule h (schedule job)) as [cronExpr | e] eqn:E;
    [|reflexivity].
  rewrite (resolve_ok_no_tz h _ _ E). fold (execution_line job cronExpr).
  f_equal. cbn [app]. now rewrite <- !app_assoc.
Qed.

Lemma five_fields_minutes (z : Z) :
  length (split_ws (lit "*/" ++ Z_to_string z ++ lit " * * * *")) = 5.
Proof.
  change (lit "*/" ++ Z_to_string z ++ lit " * * * *")
    with (join (lit " ")
            [ lit "*/" ++ Z_to_string z; lit "*"; lit "*"; lit "*"; lit "*" ]).
  rewrite split_ws_words; [reflexivity | word_tac].
Qed.

Lemma five_fields_hours (z : Z) :
  length (split_ws (lit "0 */" ++ Z_to_string z ++ lit " * * *")) = 5.
Proof.
  change (lit "0 */" ++ Z_to_string z ++ lit " * * *")
    with (join (lit " ")
            [ lit "0"; lit "*/" ++ Z_to_string z; lit "*"; lit "*"; lit "*" ]).
  rewrite split_ws_words; [reflexivity | word_tac].
Qed.

Lemma five_fields_days (z : Z) :
  length (split_ws (lit "0 0 */" ++ Z_to_string z ++ lit " * *")) = 5.
Proof.
  change (lit "0 0 */" ++ Z_to_string z ++ lit " * *")
    with (join (lit " ")
            [ lit "0"; lit "0"; lit "*/" ++ Z_to_string z; lit "*"; lit "*" ]).
  rewrite split_ws_words; [reflexivity | word_tac].
Qed.

Lemma five_fields_at (a b c d : Z) :
  length (split_ws (format_at a b c d)) = 5.
Proof.
  unfold format_at.
  replace (Z_to_string a ++ lit " " ++ Z_to_string b ++ lit " "
           ++ Z_to_string c ++ lit " " ++ Z_to_string d ++ lit " *")
    with (join (lit " ")
            [ Z_to_string a; Z_to_string b; Z_to_string c; Z_to_string d;
              lit "*" ]).
  - rewrite split_ws_words; [reflexivity | word_tac].
  - cbn [join flat_map]. rewrite app_nil_r. reflexivity.
Qed.

(** X8.  Every expression the resolver accepts has five fields, whatever
    the kind of the schedule. *)
Theorem resolved_expression_five_fields (h : Host) (s : CronSchedule) (e : jstring) :
  resolveCrontabSchedule h s = ResolveOk e -> length (split_ws e) = 5.
Proof.
  destruct s as [expr tz st | [|ms] an | at_]; cbn [resolveCrontabSchedule].
  - repeat match goal with
           | |- context [if ?b then _ else _] =>
             let E := fresh "E" in destruct b eqn:E; try discriminate
           end.
    intros [= <-].
    match goal with
    | H : negb (_ =? 5)%nat = false |- _ =>
      apply negb_false_iff, Nat.eqb_eq in H; exact H
    end.
  - discriminate.
  - repeat match goal with
           | |- context [if ?b then _ else _] =>
             let E := fresh "E" in destruct b eqn:E; try discriminate
           end; intros [= <-];
      first [apply five_fields_minutes | apply five_fields_hours
            | apply five_fields_days].
  - destruct (if truthy (trim at_) then Date_parse h (trim at_) else None)
      as [when|]; [|discriminate].
    intros [= <-]. apply five_fields_at.
Qed.

(** X9.  The intervals the resolver accepts, and what they become.
    Without an anchor, [everyMs] is accepted exactly when it is [m]
    minutes with [m] below 60 dividing 60 (["*/m * * * *"]), or [H] hours
    with [H] dividing 24 (["0 */H * * *"], one day included), or [D] days
    with [D] from 2 to 31 (["0 0 */D * *"]). *)
Theorem every_interval_forms (h : Host) (ms : Z) (e : jstring) :
  resolveCrontabSchedule h (ScheduleEvery (Int ms) None) = ResolveOk e
  <-> (exists m, ms = m * 60000 /\ 1 <= m < 60 /\ Z.rem 60 m = 0
                 /\ e = lit "*/" ++ Z_to_string m ++ lit " * * * *")%Z
      \/ (exists H, ms = H * 3600000 /\ 1 <= H <= 24 /\ Z.rem 24 H = 0
                    /\ e = lit "0 */" ++ Z_to_string H ++ lit " * * *")%Z
      \/ (exists D, ms = D * 86400000 /\ 2 <= D <= 31
                    /\ e = lit "0 0 */" ++ Z_to_string D ++ lit " * *")%Z.
Proof.
  cbn [resolveCrontabSchedule].
  unfold ONE_DAY_MS, ONE_HOUR_MS, ONE_MINUTE_MS.
  change (24 * (60 * (60 * 1000)))%Z with 86400000%Z.
  change (60 * (60 * 1000))%Z with 3600000%Z.
  change (60 * 1000)%Z with 60000%Z.
  split.
  - destruct (Z.leb_spec ms 0) as [Hle | Hpos]; [discriminate|].
    destruct (Z.eqb_spec (Z.rem ms 60000) 0) as [Hm | Hm];
      cbn [negb]; [|discriminate].
    destruct (Z.leb_spec (ms / 60000) 0); [discriminate|].
    rewrite Z.rem_mod_nonneg in Hm by lia.
    assert (Hms : (ms = ms / 60000 * 60000)%Z)
      by (Z.div_mod_to_equations; lia).
    destruct (Z.ltb_spec (ms / 60000) 60) as [Hlt | Hge];
      [destruct (Z.eqb_spec (Z.rem 60 (ms / 60000)) 0) as [Hd | Hd]|];
      cbn [andb].
    + intros [= <-]. left. exists (ms / 60000)%Z. repeat split; auto; lia.
    + destruct (Z.eqb_spec (Z.rem ms 3600000) 0);
        [exfalso; rewrite Z.rem_mod_nonneg in * by lia;
         Z.div_mod_to_equations; lia|].
      destruct (Z.eqb_spec (Z.rem ms 86400000) 0);
        [exfalso; rewrite Z.rem_mod_nonneg in * by lia;
         Z.div_mod_to_equations; lia|].
      discriminate.
    + destruct (Z.eqb_spec (Z.rem ms 3600000) 0) as [Hh | Hh]; cbn [andb].
      * rewrite Z.rem_mod_nonneg in Hh by lia.
        assert (Hms' : (ms = ms / 3600000 * 3600000)%Z)
          by (Z.div_mod_to_equations; lia).
        destruct (Z.ltb_spec 0 (ms / 3600000)); cbn [andb].
        -- destruct (Z.eqb_spec (Z.rem 24 (ms / 3600000)) 0) as [Hd | Hd].
           ++ intros [= <-]. right; left. exists (ms / 3600000)%Z.
              repeat split; auto; try lia.
              destruct (Z.le_gt_cases (ms / 3600000) 24) as [Hs | Hs]; auto.
              rewrite Z.rem_small in Hd by lia. discriminate.
           ++ destruct (Z.eqb_spec (Z.rem ms 86400000) 0) as [Hy | Hy];
                cbn [andb]; [|discriminate].
              rewrite Z.rem_mod_nonneg in Hy by lia.
              assert (Hms'' : (ms = ms / 86400000 * 86400000)%Z)
                by (Z.div_mod_to_equations; lia).
              destruct (Z.ltb_spec 0 (ms / 86400000)); cbn [andb];
                [|discriminate].
              destruct (Z.leb_spec (ms / 86400000) 31); [|discriminate].
              intros [= <-]. right; right. exists (ms / 86400000)%Z.
              repeat split; auto; try lia.
              destruct (Z.eq_dec (ms / 86400000) 1) as [E1 | E1]; [|lia].
              exfalso. apply Hd. rewrite E1 in Hms''.
              replace (ms / 3600000)%Z with 24%Z
                by (rewrite Hms''; reflexivity).
              reflexivity.
        -- exfalso. Z.div_mod_to_equations; lia.
      * destruct (Z.eqb_spec (Z.rem ms 86400000) 0) as [Hy | Hy];
          [|discriminate].
        exfalso. rewrite Z.rem_mod_nonneg in * by lia.
        Z.div_mod_to_equations; lia.
  - assert (R : forall a b, (0 <= a -> 0 < b -> a mod b = 0 ->
                              (Z.rem a b =? 0) = true)%Z).
    { intros a b Ha Hb E. rewrite Z.rem_mod_nonneg by lia.
      rewrite E. reflexivity. }
    intros [(m & Hms & Hm & Hd & ->) | [(H & Hms & HH & Hd & ->)
                                      | (D & Hms & HD & ->)]].
    + replace (ms <=? 0)%Z with false by (symmetry; apply Z.leb_gt; lia).
      rewrite R by (try lia; Z.div_mod_to_equations; lia).
      replace (ms / 60000)%Z with m by (Z.div_mod_to_equations; lia).
      cbn [negb].
      replace (m <=? 0)%Z with false by (symmetry; apply Z.leb_gt; lia).
      replace (m <? 60)%Z with true by (symmetry; apply Z.ltb_lt; lia).
      rewrite Hd. reflexivity.
    + replace (ms <=? 0)%Z with false by (symmetry; apply Z.leb_gt; lia).
      rewrite (R ms 60000%Z), (R ms 3600000%Z)
        by (try lia; Z.div_mod_to_equations; lia).
      replace (ms / 60000)%Z with (H * 60)%Z by (Z.div_mod_to_equations; lia).
      replace (ms / 3600000)%Z with H by (Z.div_mod_to_equations; lia).
      cbn [negb].
      replace (H * 60 <=? 0)%Z with false by (symmetry; apply Z.leb_gt; lia).
      replace (H * 60 <? 60)%Z with false by (symmetry; apply Z.ltb_ge; lia).
      replace (0 <? H)%Z with true by (symmetry; apply Z.ltb_lt; lia).
      rewrite Hd. reflexivity.
    + replace (ms <=? 0)%Z with false by (symmetry; apply Z.leb_gt; lia).
      rewrite (R ms 60000%Z), (R ms 3600000%Z), (R ms 86400000%Z)
        by (try lia; Z.div_mod_to_equations; lia).
      replace (ms / 60000)%Z with (D * 1440)%Z
        by (Z.div_mod_to_equations; lia).
      replace (ms / 3600000)%Z with (D * 24)%Z
        by (Z.div_mod_to_equations; lia).
      replace (ms / 86400000)%Z with D by (Z.div_mod_to_equations; lia).
      cbn [negb].
      replace (D * 1440 <=? 0)%Z with false by (symmetry; apply Z.leb_gt; lia).
      replace (D * 1440 <? 60)%Z with false by (symmetry; apply Z.ltb_ge; lia).
      replace (0 <? D * 24)%Z with true by (symmetry; apply Z.ltb_lt; lia).
      replace (Z.rem 24 (D * 24) =? 0)%Z with false
        by (symmetry; apply Z.eqb_neq; rewrite Z.rem_small by lia; lia).
      replace (0 <? D)%Z with true by (symmetry; apply Z.ltb_lt; lia).
      replace (D <=? 31)%Z with true by (symmetry; apply Z.leb_le; lia).
      reflexivity.
Qed.

(** *** The job list *)

Lemma find_without (js : list CronJob) (i k : jstring) :
  find (fun e => str_eqb (id e) k)
       (filter (fun e => negb (str_eqb (id e) i)) js)
  = if str_eqb i k then None else find (fun e => str_eqb (id e) k) js.
Proof.
  induction js as [|a js IH]; [now destruct (str_eqb i k)|].
  cbn [filter find].
  destruct (str_eqb_spec (id a) i) as [E | E]; cbn [negb].
  - rewrite IH. destruct (str_eqb_spec i k) as [E' | E']; [reflexivity|].
    rewrite str_eqb_neq by congruence. reflexivity.
  - cbn [find]. destruct (str_eqb_spec (id a) k) as [E' | E'].
    + rewrite str_eqb_neq by congruence. reflexivity.
    + exact IH.
Qed.

Lemma find_snoc (p : CronJob -> bool) (js : list CronJob) (job : CronJob) :
  find p (js ++ [job])
  = match find p js with
    | Some j => Some j
    | None => if p job then Some job else None
    end.
Proof.
  induction js as [|a js IH]; [reflexivity|].
  cbn [app find]. destruct (p a); [reflexivity | exact IH].
Qed.

(** X10.  Looking a job up after [replaceJobInList]: the id of the new job
    resolves to the new job, whatever the list held under that id, and
    every other id resolves as before. *)
Theorem replace_then_lookup (js : list CronJob) (job : CronJob) (k : jstring) :
  resolveCrontabJobOrThrow (replaceJobInList js job) k
  = if str_eqb (id job) k then Ok job else resolveCrontabJobOrThrow js k.
Proof.
  unfold resolveCrontabJobOrThrow, replaceJobInList.
  rewrite find_snoc, find_without.
  destruct (str_eqb (id job) k); [reflexivity|].
  destruct (find _ js); reflexivity.
Qed.

(** X11.  Looking a job up after [removeJobFromList]: the removed id is
    not found any more, also when the list held it several times, and
    every other id resolves as before. *)
Theorem remove_then_lookup (js : list CronJob) (i k : jstring) :
  resolveCrontabJobOrThrow (removeJobFromList js i) k
  = if str_eqb i k then Throw (lit "cron job not found: " ++ k)
    else resolveCrontabJobOrThrow js k.
Proof.
  unfold resolveCrontabJobOrThrow, removeJobFromList.
  rewrite find_without. destruct (str_eqb i k); reflexivity.
Qed.

(** X12.  After [replaceJobInList] exactly one job of the list carries the
    id of the new job, and it is the last one. *)
Theorem replace_leaves_one (js : list CronJob) (job : CronJob) :
  filter (fun e => str_eqb (id e) (id job)) (replaceJobInList js job) = [job]
  /\ last (replaceJobInList js job) job = job.
Proof.
  unfold replaceJobInList. split.
  - rewrite filter_app. cbn [filter]. rewrite str_eqb_refl.
    replace (filter _ (filter _ js)) with (@nil CronJob); [reflexivity|].
    induction js as [|a js IH]; [reflexivity|].
    cbn [filter]. destruct (str_eqb (id a) (id job)) eqn:E; cbn [negb];
      [exact IH|]. cbn [filter]. rewrite E. exact IH.
  - apply last_last.
Qed.

(** *** Writing *)

Lemma build_feasible (h : Host) (job : CronJob) :
  feasible h job = true -> exists ls, buildTaggedEntryLines h job = Ok ls.
Proof.
  unfold feasible, buildTaggedEntryLines.
  destruct (resolveCrontabSchedule h (schedule job)); [|discriminate].
  intros _. eauto.
Qed.

(** X13.  One job whose schedule crontab cannot express stops the whole
    write: [writeCrontabJobs] throws the error of the first such job,
    prefixed with its id, and [crontab -] is not run. *)
Theorem infeasible_job_blocks_write (h : Host) (pre post : list CronJob)
    (job : CronJob) (L : list jstring) (e : jstring) :
  forallb (feasible h) pre = true ->
  resolveCrontabSchedule h (schedule job) = ResolveError e ->
  writeCrontabJobs h (pre ++ job :: post) L
  = (Throw (lit "job " ++ id job ++ lit ": " ++ e), []).
Proof.
  intros Hpre He. unfold writeCrontabJobs, crontab_content.
  match goal with
  | |- context [fold_right ?f ?a ?l] =>
    assert (E : fold_right f a l = Throw (lit "job " ++ id job ++ lit ": " ++ e))
  end.
  { induction pre as [|p pre IH]; cbn [app fold_right].
    - unfold buildTaggedEntryLines. rewrite He. reflexivity.
    - cbn [forallb] in Hpre. apply andb_prop in Hpre as [Hp Hpre].
      destruct (build_feasible h p Hp) as [ls ->]. cbn [bind].
      rewrite (IH Hpre). reflexivity. }
  rewrite E. reflexivity.
Qed.

Lemma runs_ok_collapse (s : jstring) :
  forall n, n <= 2 -> runs_ok n (collapse_newlines n s) = true.
Proof.
  induction s as [|c s IH]; intros n Hn; [reflexivity|].
  cbn [collapse_newlines]. destruct (is_nl c) eqn:E.
  - destruct (Nat.ltb_spec n 2) as [Hlt | Hge].
    + cbn [runs_ok]. rewrite E.
      replace (n <? 2) with true by (symmetry; apply Nat.ltb_lt; lia).
      apply IH. lia.
    + apply IH. lia.
  - cbn [runs_ok]. rewrite E. apply IH. lia.
Qed.

Lemma runs_ok_no_triple (s : jstring) :
  forall k, runs_ok k s = true -> indexOf (NL ++ NL ++ NL) s = None.
Proof.
  induction s as [|c s IH]; intros k H; [reflexivity|].
  rewrite indexOf_cons.
  assert (Hs : startsWith (NL ++ NL ++ NL) (c :: s) = false).
  { cbn [runs_ok] in H. change (NL ++ NL ++ NL) with [ascii_of_N 10; ascii_of_N 10; ascii_of_N 10].
    cbn [startsWith].
    assert (Q : forall x, Ascii.eqb (ascii_of_N 10) x = is_nl x).
    { intros x. each_ascii x; reflexivity. }
    rewrite Q. destruct (is_nl c); [|reflexivity]. cbn [andb].
    apply andb_prop in H as [Hk H].
    destruct s as [|c2 s]; [reflexivity|]. rewrite Q. cbn [runs_ok] in H.
    destruct (is_nl c2); [|reflexivity]. cbn [andb].
    apply andb_prop in H as [Hk2 H].
    destruct s as [|c3 s]; [reflexivity|]. rewrite Q. cbn [runs_ok] in H.
    destruct (is_nl c3); [|reflexivity].
    apply andb_prop in H as [Hk3 _].
    apply Nat.ltb_lt in Hk3. lia. }
  rewrite Hs. cbn [runs_ok] in H.
  destruct (is_nl c).
  - apply andb_prop in H as [_ H]. now rewrite (IH _ H).
  - now rewrite (IH _ H).
Qed.

(** X14.  The text piped to [crontab -] never holds three newlines in a
    row, whatever the jobs and the lines already in the crontab. *)
Theorem content_no_triple_newline (h : Host) (js : list CronJob)
    (L : list jstring) (content : jstring) :
  crontab_content h js L = Ok content ->
  includes (NL ++ NL ++ NL) content = false.
Proof.
  unfold crontab_content.
  destruct (fold_right _ _ js) as [entries|]; cbn [bind]; [|discriminate].
  intros [= <-]. unfold includes.
  rewrite (runs_ok_no_triple _ 0); [reflexivity|].
  apply runs_ok_collapse. lia.
Qed.

(** *** Dispatch *)

Lemma deliverWebhook_off (h : Host) (job : CronJob) (o : CronRunOutcome) :
  webhook_delivery job = false -> deliverWebhook h job o = ((false, None), []).
Proof.
  unfold webhook_delivery, deliverWebhook.
  destruct (delivery job) as [dl|]; [|reflexivity].
  intros ->. reflexivity.
Qed.

(** X15.  A job without webhook delivery is never posted anywhere, and when
    it runs its outcome is the one the dispatch assembled: [bestEffort]
    and the webhook token play no part. *)
Theorem no_webhook_no_post (h : Host) (job : CronJob) (mode : RunMode) :
  webhook_delivery job = false ->
  existsb is_post (snd (runCrontabJob h job mode)) = false
  /\ forall o next, fst (runCrontabJob h job mode) = Ran o next ->
                    o = dispatch_outcome h job.
Proof.
  intros Hw. unfold runCrontabJob, dispatch_outcome.
  destruct (shouldRunJob h job mode); cbn [negb];
    [|split; [reflexivity | discriminate]].
  destruct (str_eqb (sessionTarget job) (lit "main"));
    destruct (payload job) as [text | p];
    try (split; [reflexivity | discriminate]);
    rewrite deliverWebhook_off by exact Hw;
    unfold fold_webhook_error; cbn [opt_truthy andb fst snd app existsb is_post].
  - split; [now destruct (str_eqb _ _ || str_eqb _ _)
           | now intros o next [= <- _]].
  - split; [reflexivity | now intros o next [= <- _]].
Qed.

Lemma deliverWebhook_effects (h : Host) (job : CronJob) (o : CronRunOutcome) :
  existsb is_write (snd (deliverWebhook h job o)) = false.
Proof.
  unfold deliverWebhook.
  destruct (delivery job) as [dl|]; [|reflexivity].
  destruct (negb _); [reflexivity|].
  destruct (normalizeHttpWebhookUrl h _); [|reflexivity].
  destruct (fetchWithSsrFGuard h _ _ _); reflexivity.
Qed.

Lemma runCrontabJob_no_write (h : Host) (job : CronJob) (mode : RunMode) :
  existsb is_write (snd (runCrontabJob h job mode)) = false.
Proof.
  unfold runCrontabJob.
  destruct (shouldRunJob h job mode); cbn [negb]; [|reflexivity].
  destruct (str_eqb (sessionTarget job) (lit "main"));
    destruct (payload job) as [text | p]; try reflexivity;
    match goal with
    | |- context [deliverWebhook h job ?o] =>
      pose proof (deliverWebhook_effects h job o) as Hw;
      destruct (deliverWebhook h job o) as [[d w] posted]
    end; cbn [fst snd app] in *.
  - cbn [existsb is_write orb]. rewrite existsb_app, Hw.
    now destruct (str_eqb _ _ || str_eqb _ _).
  - cbn [existsb is_write orb]. exact Hw.
Qed.

(** X16.  A dispatch that is skipped or that fails has had no effect at
    all, and a dispatch that ran has had one: the effects of
    [runCrontabJob] are empty exactly when the result is not a run.  No
    dispatch ever writes the crontab. *)
Theorem effects_iff_ran (h : Host) (job : CronJob) (mode : RunMode) :
  (snd (runCrontabJob h job mode) = [] <-> ran (fst (runCrontabJob h job mode)) = false)
  /\ existsb is_write (snd (runCrontabJob h job mode)) = false.
Proof.
  split; [|apply runCrontabJob_no_write].
  unfold runCrontabJob.
  destruct (shouldRunJob h job mode); cbn [negb]; [|split; reflexivity].
  destruct (str_eqb (sessionTarget job) (lit "main"));
    destruct (payload job) as [text | p];
    try (split; reflexivity);
    match goal with
    | |- context [deliverWebhook h job ?o] =>
      destruct (deliverWebhook h job o) as [[d w] posted]
    end; cbn [fst snd ran app]; split; discriminate.
Qed.

(** *** The [cron.run] handler *)

Lemma find_absent (js : list CronJob) (k : jstring) :
  Forall (fun j => id j <> k) js ->
  find (fun e => str_eqb (id e) k) js = None.
Proof.
  induction 1 as [|a js Ha _ IH]; [reflexivity|].
  cbn [find]. now rewrite str_eqb_neq.
Qed.

(** X17.  [cron.run] in crontab mode for an id that no job of the crontab
    carries: the answer is the internal error
    ["Error: cron job not found: <id>"], and apart from reading the
    crontab nothing has happened. *)
Theorem run_unknown_job (h : Host) (p : CronRunParams) (jobId : jstring) :
  validateCronRunParams h p = true ->
  or_undefined (nullish_or (p_id p) (p_jobId p)) = Some jobId ->
  useCrontabSourceOfTruth h = true ->
  Forall (fun j => id j <> jobId) (jobs (snapshot_of h (crontab_list h))) ->
  cron_run h p
  = (internal_error (lit "Error: cron job not found: " ++ jobId), [CrontabList]).
Proof.
  intros Hv Hid Hc Habs. unfold cron_run.
  rewrite Hv, Hid, Hc. cbn [negb].
  unfold readCrontabSnapshot, resolveCrontabJobOrThrow.
  cbn [bindM perform ret]. rewrite (find_absent _ _ Habs). reflexivity.
Qed.

Lemma bindM_effects {A B} (m : M A) (f : A -> M B) (q : Effect -> bool) :
  existsb q (snd (bindM m f)) = true ->
  existsb q (snd m) = true
  \/ exists a, fst m = Ok a /\ existsb q (snd (f a)) = true.
Proof.
  destruct m as [[a | e] t]; cbn [bindM].
  - destruct (f a) as [r t'] eqn:E. cbn [snd fst]. rewrite existsb_app.
    intros H. apply orb_prop in H as [H | H]; [now left|].
    right. exists a. rewrite E. now split.
  - now left.
Qed.

(** X18.  [cron.run] writes the crontab only for a one-shot job that it
    has dispatched: if the handler ran [crontab -], then the id resolved
    to a job with an ["at"] schedule and [deleteAfterRun = true], and the
    dispatch of that job ran. *)
Theorem run_writes_only_one_shot (h : Host) (p : CronRunParams) :
  existsb is_write (snd (cron_run h p)) = true ->
  exists jobId job,
    or_undefined (nullish_or (p_id p) (p_jobId p)) = Some jobId
    /\ resolveCrontabJobOrThrow (jobs (snapshot_of h (crontab_list h))) jobId
       = Ok job
    /\ one_shot job = true
    /\ ran (fst (runCrontabJob h job
                   (match p_mode p with Some m => m | None => Force end)))
       = true.
Proof.
  unfold cron_run.
  destruct (validateCronRunParams h p); cbn [negb]; [|discriminate].
  destruct (or_undefined _) as [jobId|]; [|discriminate].
  destruct (useCrontabSourceOfTruth h); [|discriminate].
  set (m := match p_mode p with Some m => m | None => Force end).
  intros H. exists jobId.
  match type of H with
  | existsb _ (snd (let (_, _) := ?a in _)) = true =>
    assert (H' : existsb is_write (snd a) = true)
      by (destruct a as [[r | e] fx]; exact H)
  end.
  clear H.
  apply bindM_effects in H' as [H' | (s & Hs & H')]; [discriminate H'|].
  injection Hs as <-.
  apply bindM_effects in H' as [H' | (job & Hj & H')]; [discriminate H'|].
  cbn [fst] in Hj. exists job. split; [reflexivity|]. split; [exact Hj|].
  destruct (shouldRunJob h job m); cbn [negb] in H'; [|discriminate H'].
  apply bindM_effects in H' as [H' | (r & Hr & H')].
  - exfalso. pose proof (runCrontabJob_no_write h job m) as Hw.
    destruct (runCrontabJob h job m) as [r fx]. cbn [snd] in *. congruence.
  - assert (Er : r = fst (runCrontabJob h job m)).
    { destruct (runCrontabJob h job m) as [r' fx]. cbn [fst] in *. congruence. }
    rewrite <- Er. clear Hr Er.
    destruct r as [reason | o next | e]; [| |discriminate H'].
    + apply bindM_effects in H' as [H' | (u' & _ & H')]; [|discriminate H'].
      now destruct (schedule job), (deleteAfterRun job) as [[|]|].
    + apply bindM_effects in H' as [H' | (u' & _ & H')]; [|discriminate H'].
      split; [|reflexivity]. unfold one_shot.
      now destruct (schedule job), (deleteAfterRun job) as [[|]|].
Qed.

(** *** The [cron.remove] and [cron.add] handlers *)

Lemma remove_absent (js : list CronJob) (k : jstring) :
  Forall (fun j => id j <> k) js -> removeJobFromList js k = js.
Proof.
  unfold removeJobFromList. induction 1 as [|a js Ha _ IH]; [reflexivity|].
  cbn [filter]. rewrite str_eqb_neq by exact Ha. cbn [negb]. now rewrite IH.
Qed.

(** X19.  [cron.remove] does not tell a job that is there from one that is
    not: for an id that no job of the crontab carries it still rewrites the
    crontab, with the jobs it has read, and answers
    [{ok:true, removed:true}]. *)
Theorem remove_unknown_job (h : Host) (jobId content : jstring) :
  Forall (fun j => id j <> jobId) (jobs (snapshot_of h (crontab_list h))) ->
  crontab_content h (jobs (snapshot_of h (crontab_list h)))
                  (lines (snapshot_of h (crontab_list h))) = Ok content ->
  ok (crontab_write h content) = true ->
  cron_remove h jobId
  = (respond true (Some RemovedPayload) None, [CrontabList; CrontabWrite content]).
Proof.
  intros Habs Hc Hw. unfold cron_remove, readCrontabSnapshot.
  cbn [bindM perform ret]. rewrite (remove_absent _ _ Habs).
  unfold writeCrontabJobs. rewrite Hc. cbn [bindM perform]. rewrite Hw.
  reflexivity.
Qed.

Lemma snapshot_failed (h : Host) (r : CommandResult) :
  ok r = false ->
  lines (snapshot_of h r) = [] /\ jobs (snapshot_of h r) = [].
Proof.
  intros Hr. unfold snapshot_of. rewrite Hr.
  destruct (includes _ _); split; reflexivity.
Qed.

(** X20.  When [crontab -l] fails, for whatever reason, [cron.remove]
    goes on with an empty snapshot and installs the empty crontab: the
    lines that could not be read are not carried over. *)
Theorem remove_after_failed_read (h : Host) (jobId : jstring) :
  ok (crontab_list h) = false ->
  snd (cron_remove h jobId) = [CrontabList; CrontabWrite []].
Proof.
  intros Hr. unfold cron_remove, readCrontabSnapshot.
  cbn [bindM perform ret].
  destruct (snapshot_failed h _ Hr) as [-> ->].
  unfold writeCrontabJobs. cbn.
  destruct (ok (crontab_write h [])); reflexivity.
Qed.

(** X21.  When [crontab -l] fails, for whatever reason, [cron.add] of a
    feasible job goes on with an empty snapshot: what it pipes to
    [crontab -] is the new job alone, and the error of the read is not
    reported. *)
Theorem add_after_failed_read (h : Host) (params : RawParams h) :
  let normalized :=
    match normalizeCronJobCreate h params with Some n => n | None => params end in
  let job := createCronJobFromInput h (asCronJobCreate h normalized) in
  validateCronAddParams h normalized = true ->
  validateScheduleTimestamp h (schedule job) = None ->
  useCrontabSourceOfTruth h = true ->
  feasible h job = true ->
  ok (crontab_list h) = false ->
  exists content,
    crontab_content h [job] [] = Ok content
    /\ snd (cron_add h params) = [CrontabList; CrontabWrite content]
    /\ (ok (crontab_write h content) = true ->
        fst (cron_add h params) = respond true (Some (JobPayload job)) None).
Proof.
  intros normalized job Hv Ht Hc Hf Hr.
  destruct (crontab_content h [job] []) as [content | e] eqn:E.
  2:{ exfalso. unfold crontab_content in E. cbn [fold_right] in E.
      destruct (build_feasible h job Hf) as [ls Hls]. rewrite Hls in E.
      discriminate E. }
  exists content. split; [reflexivity|].
  unfold cron_add. fold normalized. rewrite Hv. cbn [negb].
  change (c_schedule (asCronJobCreate h normalized)) with (schedule job).
  rewrite Ht, Hc. unfold validateCrontabScheduleOrThrow.
  unfold feasible in Hf.
  destruct (resolveCrontabSchedule h (schedule job)); [|discriminate Hf].
  unfold readCrontabSnapshot. cbn [bindM perform ret].
  destruct (snapshot_failed h _ Hr) as [-> ->]. cbn [app].
  fold job. unfold writeCrontabJobs. rewrite E. cbn [bindM perform].
  destruct (ok (crontab_write h content)); cbn; split; try reflexivity;
    discriminate.
Qed.

(** *** The run history *)

Lemma collect_firstn (h : Host) (jobId : jstring) (limit : Z) (ls : list jstring) :
  forall entries,
    length entries < Z.to_nat (Z.max 1 limit) ->
    collect h jobId limit ls entries
    = entries ++ firstn (Z.to_nat (Z.max 1 limit) - length entries)
                        (runs_of h jobId ls).
Proof.
  induction ls as [|l ls IH]; intros entries Hlen; cbn [collect runs_of flat_map].
  - now rewrite firstn_nil, app_nil_r.
  - fold (runs_of h jobId ls).
    destruct (parseRunEntry h l jobId) as [e|]; cbn [app]; [|now apply IH].
    assert (El : length (entries ++ [e]) = S (length entries))
      by (rewrite length_app; cbn; lia).
    destruct (Z.leb_spec limit (Z.of_nat (length (entries ++ [e])))) as [Hle | Hgt].
    + replace (Z.to_nat (Z.max 1 limit) - length entries) with 1 by lia.
      cbn [firstn]. reflexivity.
    + rewrite IH by lia. rewrite El, <- app_assoc. cbn [app].
      replace (Z.to_nat (Z.max 1 limit) - length entries)
        with (S (Z.to_nat (Z.max 1 limit) - S (length entries))) by lia.
      reflexivity.
Qed.

(** X22.  The history of a job is the newest [limit] runs that the log
    records for it, newest first; a [limit] of zero or less still gives
    one run. *)
Theorem history_newest_first (h : Host) (hh : HistoryHost) (jobId : jstring)
    (limit : Z) :
  fst (readCrontabRunHistory h hh jobId limit)
  = firstn (Z.to_nat (Z.max 1 limit)) (runs_of h jobId (rev (history_lines hh))).
Proof.
  unfold readCrontabRunHistory, history_lines.
  destruct (readJournalLines hh) as [journal fx]. cbn [fst].
  destruct (length journal =? 0)%nat.
  - destruct (readSyslogLines hh) as [ls fx']. cbn [fst].
    rewrite collect_firstn by (cbn; lia). cbn [app length].
    now rewrite Nat.sub_0_r.
  - cbn [fst]. rewrite collect_firstn by (cbn; lia). cbn [app length].
    now rewrite Nat.sub_0_r.
Qed.

(** X23.  The history attributes a log line to a job by looking for the
    id anywhere in the line: a run recorded for the job [other] also
    counts, with the same time and status, for every job whose id occurs
    inside the id of [other]. *)
Theorem history_matches_by_substring (h : Host) (line jobId other : jstring)
    (e : CronRunLogEntry) :
  includes jobId other = true ->
  parseRunEntry h line other = Some e ->
  parseRunEntry h line jobId
  = Some (mkLogEntry (entry_ts e) jobId (entry_status e)).
Proof.
  intros Hsub. unfold parseRunEntry.
  destruct (includes COMMAND_MARKER line); cbn [negb]; [|discriminate].
  destruct (includes other line) eqn:Ho; cbn [negb]; [|discriminate].
  intros [= <-]. rewrite (includes_trans _ _ _ Hsub Ho). reflexivity.
Qed.

(** *** The scheduler status *)

(** X24.  [readSchedulerStatus] reports one error for each command that
    failed, in the order crontab, timers, services, each made of the name
    of its command and the [stderr] of that command (["failed to read"]
    when it is empty); a failed read of a crontab that does not exist is
    no error.  [errors] is absent exactly when there is nothing to report,
    and is never an empty list.  The [crontab] field is always a string,
    empty when the read failed; [systemdTimers] and [systemdServices] are
    absent exactly when their command failed, and are its [stdout]
    otherwise. *)
Theorem scheduler_status_errors (c t s : CommandResult) :
  let said := fun r : CommandResult =>
    if truthy (stderr r) then stderr r else lit "failed to read" in
  let errs :=
    (if read_error c then [lit "crontab: " ++ said c] else [])
    ++ (if ok t then [] else [lit "systemd timers: " ++ said t])
    ++ (if ok s then [] else [lit "systemd services: " ++ said s]) in
  status_errors (readSchedulerStatus c t s)
  = match errs with [] => None | _ :: _ => Some errs end
  /\ status_errors (readSchedulerStatus c t s) <> Some []
  /\ status_crontab (readSchedulerStatus c t s) = (if ok c then stdout c else [])
  /\ systemdTimers (readSchedulerStatus c t s)
     = (if ok t then Some (stdout t) else None)
  /\ systemdServices (readSchedulerStatus c t s)
     = (if ok s then Some (stdout s) else None).
Proof.
  unfold readSchedulerStatus, read_error.
  destruct (ok c); [|destruct (includes _ _)];
    destruct (ok t), (ok s); cbn;
    repeat split; try discriminate.
Qed.

(** *** The codec on whole jobs *)

(** X25.  Writing a job and reading it back.  For a job in normal form
    with a feasible schedule, the lines that [buildTaggedEntryLines]
    writes are read back by [findTaggedEntries] and [buildJobFromEntry]
    as exactly one job, equal to the job written in every field except
    [state], which is computed anew.  In particular a disabled job comes
    back disabled, through the ["# "] on its execution line. *)
Theorem job_roundtrip (h : Host) (J : CronJob) (ls : list jstring) :
  normal_form J = true ->
  buildTaggedEntryLines h J = Ok ls ->
  exists J', decode_lines h ls = [J'] /\ set_state (state J) J' = J.
Proof.
  intros Hn Hb.
  destruct (resolveCrontabSchedule h (schedule J)) as [E | err] eqn:HE.
  2:{ unfold buildTaggedEntryLines in Hb. rewrite HE in Hb. discriminate Hb. }
  assert (Hf : feasible h J = true) by (unfold feasible; now rewrite HE).
  destruct (stored_entries h J ls Hn Hb) as (e & Hfind & Hm & Hd & Htz).
  destruct (decode_stored h J e Hn Hf Hm Hd Htz) as (J' & HJ & Hs).
  exists J'. split; [|exact Hs].
  unfold decode_lines. rewrite Hfind. cbn [fst snd flat_map].
  rewrite HJ. reflexivity.
Qed.

(** X26.  Reading a crontab that holds the lines of the store.  Let the
    jobs be in normal form with pairwise distinct ids, and let [entries] be
    their lines as [writeCrontabJobs] lays them out.  Whatever lines
    without the tag come before and after them, [findTaggedEntries] and
    [buildJobFromEntry] read the crontab back as the same jobs, in the same
    order, each with a [state] of its own, and [findTaggedEntries] reports
    no error; lines of the user neither add a job nor change one. *)
Theorem store_roundtrip (h : Host) (js : list CronJob)
    (U V entries : list jstring) :
  Forall (fun J => normal_form J = true) js ->
  NoDup (map id js) ->
  Forall (fun l => includes TAG l = false) U ->
  Forall (fun l => includes TAG l = false) V ->
  entry_lines h js = Ok entries ->
  Forall2 same_job js (decode_lines h (U ++ entries ++ V))
  /\ snd (findTaggedEntries (U ++ entries ++ V)) = [].
Proof.
  intros Hn Hnd HU HV He.
  destruct (read_between h js U V entries Hn Hnd HU HV He) as (es & Hf & Hall).
  unfold decode_lines. rewrite Hf. split; [exact Hall | reflexivity].
Qed.

(** X27.  Writing, then reading.  Let the jobs be in normal form with
    pairwise distinct ids, and let [content] be what [writeCrontabJobs]
    pipes to [crontab -] for them, whatever the existing lines are.  When
    [crontab -l] answers with [content], as it is or with the white space
    at its end trimmed as [runCommand] does, [readCrontabSnapshot] finds the
    same jobs, in the same order, each with a [state] of its own, and no
    error. *)
Theorem write_then_read (h : Host) (js : list CronJob)
    (existing : list jstring) (content out err : jstring) :
  Forall (fun J => normal_form J = true) js ->
  NoDup (map id js) ->
  crontab_content h js existing = Ok content ->
  out = content \/ out = trimEnd content ->
  Forall2 same_job js (jobs (snapshot_of h (mkResult true out err)))
  /\ errors (snapshot_of h (mkResult true out err)) = [].
Proof.
  intros Hn Hnd Hc Hout.
  destruct (reported_lines h js existing content out Hn Hc Hout)
    as (entries & U & V & He & HU & HV & Hl).
  destruct (read_between h js U V entries Hn Hnd HU HV He) as (es & Hf & Hall).
  unfold snapshot_of. cbn [ok stdout]. rewrite Hl, Hf. cbn [jobs errors app].
  split; [exact Hall | reflexivity].
Qed.

(* ================================================================== *)
(** ** The managed block *)

(** X28.  The block that a sync writes is the block that the next sync
    takes out.  Let the ids and cron expressions of the jobs have no
    newline inside, and let [block] be what [buildManagedBlock] returns for
    them.  Put [block] between lines [U] and [V] that have no newline
    inside, [U] without a begin marker, join the lines with newlines and
    split the text again: the lines come back as they were, and
    [stripManagedBlock] removes [block] and nothing else.  (A cron
    expression that holds a newline can end the block early.) *)
Theorem managed_block_stripped (h : Host) (js : list CronJob)
    (U V block : list jstring) :
  Forall (fun J => one_line_job J = true) js ->
  Forall (fun l => single_line l = true) U ->
  Forall (fun l => single_line l = true) V ->
  Forall (fun l => not_start l = true) U ->
  buildManagedBlock h js = Ok block ->
  split_nl (join NL (U ++ block ++ V)) = U ++ block ++ V
  /\ stripManagedBlock (split_nl (join NL (U ++ block ++ V))) = U ++ V.
Proof.
  intros Hjs HU HV Hst Hb.
  destruct (managed_block_single h js block Hjs Hb) as [Hbs Hbne].
  assert (Hsplit : split_nl (join NL (U ++ block ++ V)) = U ++ block ++ V).
  { apply split_nl_join.
    - apply Forall_app. split; [exact HU|]. apply Forall_app.
      split; [apply (Forall_fst _ _ _ Hbs) | exact HV].
    - intros E. apply app_eq_nil in E as [_ E].
      apply app_eq_nil in E as [E _]. contradiction. }
  split; [exact Hsplit|]. rewrite Hsplit.
  destruct (managed_block_shape h js block Hb) as (inner & -> & Hin & _).
  now apply strip_block.
Qed.

(** X29.  Syncing twice.  Let the lines read have no newline inside, let
    no begin marker be left once [stripManagedBlock] has taken the block
    out, and let the ids and cron expressions of the jobs have no newline
    inside.  If [syncCrontabForJobs] writes [content] for them, then a
    sync of the same jobs that reads [content] back, as it is or with the
    white space at its end trimmed as [runCommand] does, writes [content]
    again. *)
Theorem sync_twice (h : Host) (js : list CronJob) (ls : list jstring)
    (content out : jstring) :
  Forall (fun l => single_line l = true) ls ->
  Forall (fun l => not_start l = true) (stripManagedBlock ls) ->
  Forall (fun J => one_line_job J = true) js ->
  sync_content h js ls = Ok content ->
  out = content \/ out = trimEnd content ->
  sync_content h js (split_nl out) = Ok content.
Proof.
  intros Hs Hst Hjs Hc Hout. unfold sync_content in *. cbv zeta in *.
  destruct (buildManagedBlock h js) as [block|] eqn:Hb; [|discriminate Hc].
  cbn [bind] in *.
  set (keep := fun line => negb (str_eqb (trim line) [])) in *.
  set (U := filter keep (stripManagedBlock ls)) in *.
  destruct (managed_block_single h js block Hjs Hb) as [Hbs Hbne].
  destruct (managed_block_shape h js block Hb) as (inner & Eb & Hin & _).
  assert (HU : Forall (fun l => single_line l = true /\ l <> []) U).
  { rewrite Forall_forall in Hs |- *. intros l Hl. unfold U in Hl.
    apply filter_In in Hl as [Hl Hk]. split; [apply Hs, (strip_incl ls), Hl|].
    intros ->. discriminate Hk. }
  assert (HUs : Forall (fun l => not_start l = true) U).
  { rewrite Forall_forall in Hst |- *. intros l Hl. unfold U in Hl.
    apply filter_In in Hl as [Hl _]. now apply Hst. }
  assert (HUk : Forall (fun l => keep l = true) U).
  { rewrite Forall_forall. intros l Hl. unfold U in Hl.
    now apply filter_In in Hl as [_ Hl]. }
  set (L := U ++ [] :: block).
  assert (HL : Forall (fun l => single_line l = true) L).
  { unfold L. apply Forall_app. split; [apply (Forall_fst _ _ _ HU)|].
    constructor; [reflexivity | apply (Forall_fst _ _ _ Hbs)]. }
  assert (HLne : L <> []) by (unfold L; now destruct U).
  assert (Econtent : content = join NL L ++ NL).
  { assert (Hc' : Ok (collapse_newlines 0 (join NL (U ++ [[]] ++ block ++ [[]])))
                  = Ok content) by exact Hc.
    injection Hc' as Hc'. rewrite <- Hc'.
    replace (U ++ [] :: block ++ [[]]) with (L ++ [[]])
      by (unfold L; rewrite <- app_assoc; reflexivity).
    rewrite (join_app_ne NL L [[]] HLne) by discriminate. rewrite join_single.
    assert (Hbr : blank_run L = false).
    { unfold L. apply blank_run_sep; auto.
      revert HU. apply Forall_impl. tauto. }
    destruct (collapse_lines L HL Hbr HLne 0 [] (or_introl Nat.le_0_1))
      as [n' E].
    rewrite E. reflexivity. }
  (* the lines that the second sync reads *)
  assert (Hread : exists V, Forall (fun l => keep l = false) V
                            /\ split_nl out = (U ++ [[]]) ++ block ++ V).
  { destruct Hout as [-> | ->].
    - exists [[]]. split; [repeat constructor|].
      rewrite Econtent.
      rewrite <- (app_nil_r (join NL L ++ NL)), <- app_assoc.
      rewrite split_nl_lines by assumption.
      unfold L. rewrite <- !app_assoc. reflexivity.
    - exists []. split; [constructor|].
      assert (EL : L = (U ++ [] :: OPENCLAW_BLOCK_START :: inner)
                       ++ [lit "# openclaw:cron en" ++ ["d"%char]]).
      { unfold L. rewrite Eb, <- !app_assoc. reflexivity. }
      assert (Ht : trimEnd content = join NL L).
      { rewrite Econtent, EL.
        apply (trimEnd_lines [] _ (lit "# openclaw:cron en") "d"). reflexivity. }
      rewrite Ht, split_nl_join by assumption.
      unfold L. rewrite <- !app_assoc, app_nil_r. reflexivity. }
  destruct Hread as (V & HV & ->).
  rewrite Eb, strip_block; [| |exact Hin].
  2:{ apply Forall_app. split; [exact HUs | repeat constructor]. }
  rewrite <- Eb. rewrite !filter_app, (filter_all keep U HUk).
  cbn [filter app]. change (keep []) with false. cbv iota.
  replace (filter keep V) with (@nil jstring).
  2:{ clear -HV. induction HV as [|v V Hv _ IH]; [reflexivity|].
      cbn [filter]. now rewrite Hv. }
  rewrite !app_nil_r. exact Hc.
Qed.

(** X30.  A begin marker without an end marker after it.  When no line
    before [m] is the begin marker, [m] is one, and no line after [m] is
    the end marker, [stripManagedBlock] keeps the lines before [m] and
    drops [m] and every line after it. *)
Theorem unterminated_block_truncates (U R : list jstring) (m : jstring) :
  Forall (fun l => not_start l = true) U ->
  not_start m = false ->
  Forall (fun l => not_end l = true) R ->
  stripManagedBlock (U ++ m :: R) = U.
Proof.
  intros HU Hm HR. unfold stripManagedBlock.
  rewrite findIndex_first.
  2:{ revert HU. apply Forall_impl. intros l Hl. unfold not_start in Hl.
      now apply negb_true_iff in Hl. }
  2:{ unfold not_start in Hm. now apply negb_false_iff in Hm. }
  rewrite skipn_past, findIndex_none.
  - apply firstn_before.
  - revert HR. apply Forall_impl. intros l Hl. unfold not_end in Hl.
    now apply negb_true_iff in Hl.
Qed.

(* ================================================================== *)
(** ** Concrete runs *)

(** C4, as stated, fails: one minute resolves to ["*/1 * * * *"], not to
    ["* * * * *"]. *)
Lemma every_minute_expression_counterexample :
  ~ (resolveCrontabSchedule reference_host (ScheduleEvery (Int 60000) None)
       = ResolveOk (lit "* * * * *")
     /\ resolveCrontabSchedule reference_host (ScheduleEvery (Int 300000) None)
       = ResolveOk (lit "*/5 * * * *")
     /\ resolveCrontabSchedule reference_host (ScheduleEvery (Int 3600000) None)
       = ResolveOk (lit "0 * * * *")
     /\ (exists e, resolveCrontabSchedule reference_host
                     (ScheduleEvery (Int 90000) None) = ResolveError e)
     /\ (exists e, resolveCrontabSchedule reference_host
                     (ScheduleEvery (Int 59000) None) = ResolveError e)).
Proof. intros [H _]. vm_compute in H. discriminate H. Qed.

(** C3, as stated, fails: a failure of [crontab -l] that is not
    "no crontab" does not raise; the read returns a snapshot. *)
Lemma read_failure_counterexample :
  let denied := mkResult false [] (lit "permission denied") in
  ~ (exists msg fx,
       readCrontabSnapshot (with_crontab_list denied reference_host)
       = (Throw msg, fx))
  /\ readCrontabSnapshot (with_crontab_list denied reference_host)
     = (Ok (mkSnapshot [] [] [lit "crontab: permission denied"]),
        [CrontabList]).
Proof.
  split; [| reflexivity].
  intros (msg & fx & H). vm_compute in H. discriminate H.
Qed.

(** C6 on the reference host (local time is UTC): half a second before
    12:34:57 rounds up to 12:35. *)
Lemma at_schedule_rounding_witness :
  resolveCrontabSchedule reference_host
    (ScheduleAt (lit "2030-06-15T12:34:56.500Z"))
  = ResolveOk (lit "35 12 15 6 *").
Proof.
  refine (proj2 (proj2 (proj2 (proj2 (proj2
    (at_schedule_rounding reference_host
       (lit "2030-06-15T12:34:56.500Z") 1907757296500%Z _ _)))))
    (fun _ _ => eq_refl) eq_refl eq_refl).
  - vm_compute. discriminate.
  - vm_compute. reflexivity.
Defined.

(** C6, the example as the claim has it: two hours east of UTC the same
    instant is 14:34:56.5 on the wall clock, and the expression is
    ["35 14 15 6 *"]. *)
Lemma at_example_counterexample :
  Date_parse (with_offset 7200000 reference_host)
             (trim (lit "2030-06-15T12:34:56.500Z"))
  = Some 1907757296500%Z
  /\ resolveCrontabSchedule (with_offset 7200000 reference_host)
       (ScheduleAt (lit "2030-06-15T12:34:56.500Z"))
     = ResolveOk (lit "35 14 15 6 *")
  /\ resolveCrontabSchedule (with_offset 7200000 reference_host)
       (ScheduleAt (lit "2030-06-15T12:34:56.500Z"))
     <> ResolveOk (lit "35 12 15 6 *").
Proof.
  split; [vm_compute; reflexivity|].
  split; [vm_compute; reflexivity|].
  vm_compute. discriminate.
Qed.


(** C7 on two mismatched jobs. *)
Lemma pairing_violation_fails_witness :
  runCrontabJob reference_host
    (with_payload (AgentTurnPayload sample_turn) sample_job) Force
  = (Failed (lit "main session jobs require systemEvent payload"), [])
  /\ runCrontabJob reference_host
       (with_payload (SystemEvent (lit "tick")) sample_isolated_job) Force
     = (Failed (lit "isolated jobs require agentTurn payload"), []).
Proof.
  split.
  - apply (proj1 (pairing_violation_fails reference_host
                    (with_payload (AgentTurnPayload sample_turn) sample_job)));
      [reflexivity | vm_compute; discriminate].
  - apply (proj2 (pairing_violation_fails reference_host
                    (with_payload (SystemEvent (lit "tick")) sample_isolated_job)));
      [reflexivity | vm_compute; discriminate].
Defined.

(** C8 on a webhook that answers 500: without best-effort the outcome
    turns into a delivery error, the run still counts as run. *)
Lemma webhook_failure_folding_witness :
  exists next fx,
    runCrontabJob reference_host sample_isolated_job Force
    = (Ran (mkOutcome (lit "error") (Some (lit "webhook failed: 500"))
                      (Some (lit "delivery-target")) (Some (lit "3 new mails"))
                      (Some (lit "s-1")) (Some (lit "k-1")))
           next, fx).
Proof.
  apply (webhook_failure_folding reference_host sample_isolated_job Force
           (lit "webhook failed: 500"));
    [reflexivity | reflexivity | reflexivity | discriminate].
Defined.

(** The same webhook with [bestEffort = true]: the outcome is untouched. *)
Lemma webhook_best_effort_run :
  exists next fx,
    runCrontabJob reference_host
      (with_delivery
         (Some (mkDelivery (lit "webhook") None
                           (Some (lit "http://hooks.example/cron")) (Some true)))
         sample_isolated_job) Force
    = (Ran (mkOutcome (lit "ok") None None (Some (lit "3 new mails"))
                      (Some (lit "s-1")) (Some (lit "k-1")))
           next, fx).
Proof.
  apply (webhook_failure_folding reference_host
           (with_delivery
              (Some (mkDelivery (lit "webhook") None
                                (Some (lit "http://hooks.example/cron")) (Some true)))
              sample_isolated_job)
           Force (lit "webhook failed: 500"));
    [reflexivity | reflexivity | reflexivity | discriminate].
Qed.


(** The dispatch of that run: the event is enqueued and the heartbeat
    requested. *)
Lemma run_without_mode_dispatches :
  cron_run reference_host sample_run_params
  = (respond true
       (Some (RunPayload
                (Ran (mkOutcome (lit "ok") None None None None
                                (Some (lit "agent:main:main")))
                     None)))
       None,
     [ CrontabList;
       EnqueueSystemEvent (lit "wake up") (lit "agent:main:main");
       RequestHeartbeatNow (lit "main") (lit "agent:main:main") ]).
Proof. vm_compute. reflexivity. Qed.

(** C5 at [{kind:"every", everyMs:45000}]: the answer carries
    [INTERNAL_ERROR], where the claim (and the [cron.update] handler, for
    the same failure) has [INVALID_REQUEST]. *)
Lemma add_infeasible_schedule_witness :
  cron_add reference_host sample_create
  = (respond false None
       (Some (errorShape INTERNAL_ERROR
                (lit "Error: crontab scheduler supports 1-minute granularity"))),
     []).
Proof.
  apply (add_infeasible_schedule reference_host sample_create
           (lit "crontab scheduler supports 1-minute granularity"));
    reflexivity.
Defined.

(** X4 on [sample_job]. *)
Lemma disable_toggle_frame_witness :
  exists P Q mid tail,
    buildTaggedEntryLines reference_host (set_enabled true sample_job)
    = Ok ((P ++ lit "enabled=true" ++ Q) :: mid
          ++ execution_line sample_job (lit "*/5 * * * *") :: tail)
    /\ buildTaggedEntryLines reference_host (set_enabled false sample_job)
       = Ok ((P ++ lit "enabled=false" ++ Q) :: mid
             ++ (lit "# " ++ execution_line sample_job (lit "*/5 * * * *")) :: tail).
Proof.
  apply (disable_toggle_frame reference_host sample_job (lit "*/5 * * * *")).
  reflexivity.
Defined.

(** C9 as the claim has it: the schedule of [sample_job] is feasible, and
    its two encodings are not the same lines but for a ["# "] before one
    of them, since the first metadata line carries the [enabled] flag. *)
Lemma disable_toggle_counterexample :
  resolveCrontabSchedule reference_host (schedule sample_job)
  = ResolveOk (lit "*/5 * * * *")
  /\ ~ (exists mid S tail,
       buildTaggedEntryLines reference_host (set_enabled true sample_job)
       = Ok (mid ++ S :: tail)
       /\ buildTaggedEntryLines reference_host (set_enabled false sample_job)
          = Ok (mid ++ (lit "# " ++ S) :: tail)).
Proof.
  split; [reflexivity|].
  intros (mid & S & tail & H1 & H2).
  apply (f_equal (fun r => match r with Ok l => hd [] l | Throw _ => [] end)) in H1.
  apply (f_equal (fun r => match r with Ok l => hd [] l | Throw _ => [] end)) in H2.
  match type of H1 with ?x = _ => set (x1 := x) in H1; vm_compute in x1 end.
  match type of H2 with ?x = _ => set (x2 := x) in H2; vm_compute in x2 end.
  subst x1 x2. destruct mid as [|m mid]; cbn [app hd] in H1, H2.
  - subst S. discriminate H2.
  - subst m. discriminate H2.
Qed.

(** X5 on a user crontab and one job. *)
Lemma unmanaged_lines_preserved_witness :
  exists content,
    crontab_content reference_host [sample_job] user_lines = Ok content
    /\ subseq user_lines (untagged (split_nl content)).
Proof.
  destruct (crontab_content reference_host [sample_job] user_lines)
    as [content|] eqn:E; [| vm_compute in E; discriminate E].
  exists content. split; [reflexivity|].
  apply (unmanaged_lines_preserved reference_host [sample_job] user_lines content).
  - repeat constructor.
  - repeat constructor.
  - reflexivity.
  - exact E.
Defined.


(** X1 on a value with white space, ['#'], ['='], ['%'] and a two-byte
    character. *)
Lemma value_roundtrip_witness :
  decodeValue (encodeValue (lit "café #1 = 50%")) = lit "café #1 = 50%".
Proof. apply value_roundtrip. reflexivity. Defined.

(** X3 on [sample_record]. *)
Lemma tagged_line_parses_back_witness :
  exists m,
    parseTaggedLine (buildTaggedLine sample_record) = Some m
    /\ forall k, dict_get k m = present k sample_record.
Proof. apply tagged_line_parses_back; reflexivity. Defined.

(** X2 on the same value as X1. *)
Lemma encoded_value_token_safe_witness :
  forallb token_safe (encodeValue (lit "café #1 = 50%")) = true.
Proof. apply encoded_value_token_safe. reflexivity. Defined.

(** X8 on a cron expression with white space around it. *)
Lemma resolved_expression_five_fields_witness :
  length (split_ws (lit "*/5 * * * *")) = 5.
Proof.
  apply (resolved_expression_five_fields reference_host
           (ScheduleCron (lit "  */5 * * * * ") None None)).
  reflexivity.
Defined.

(** X9 on five minutes. *)
Lemma every_interval_forms_witness :
  resolveCrontabSchedule reference_host (ScheduleEvery (Int 300000) None)
  = ResolveOk (lit "*/5 * * * *").
Proof.
  apply (proj2 (every_interval_forms reference_host 300000 (lit "*/5 * * * *"))).
  left. exists 5%Z. repeat split; lia.
Defined.

(** X13 on [sample_job] followed by a job that asks for 45 seconds. *)
Lemma infeasible_job_blocks_write_witness :
  writeCrontabJobs reference_host
    ([sample_job] ++ createCronJobFromInput reference_host sample_create :: [])
    user_lines
  = (Throw (lit "job 5e1f0c9a-3b7d-4c2e-9a61-7d8e4f2b6c10: crontab scheduler supports 1-minute granularity"),
     []).
Proof.
  apply (infeasible_job_blocks_write reference_host [sample_job] []
           (createCronJobFromInput reference_host sample_create) user_lines
           (lit "crontab scheduler supports 1-minute granularity"));
    reflexivity.
Defined.

(** X14 on a crontab with two empty lines in a row. *)
Lemma content_no_triple_newline_witness :
  includes (NL ++ NL ++ NL)
    (join NL [ lit "MAILTO=ops@example.org"; lit "";
               lit "0 3 * * * /usr/bin/backup.sh"; lit ""; lit "" ])
  = false.
Proof.
  apply (content_no_triple_newline reference_host [] user_lines_with_gap).
  reflexivity.
Defined.

(** X15 on [sample_job], which has no delivery. *)
Lemma no_webhook_no_post_witness :
  existsb is_post (snd (runCrontabJob reference_host sample_job Force)) = false
  /\ forall o next,
       fst (runCrontabJob reference_host sample_job Force) = Ran o next ->
       o = dispatch_outcome reference_host sample_job.
Proof. apply no_webhook_no_post. reflexivity. Defined.

(** X17 on a crontab that cannot be read: the read failure surfaces as
    a job that is not found. *)
Lemma run_unknown_job_witness :
  cron_run (with_crontab_list denied_crontab reference_host) sample_run_params
  = (internal_error
       (lit "Error: cron job not found: 7f3c2a10-9d4e-4b1a-8c55-0e6f1a2b3c4d"),
     [CrontabList]).
Proof.
  apply (run_unknown_job (with_crontab_list denied_crontab reference_host)
           sample_run_params (lit "7f3c2a10-9d4e-4b1a-8c55-0e6f1a2b3c4d"));
    try reflexivity.
  vm_compute. constructor.
Defined.

(** X18 on a crontab that holds [one_shot_job]. *)
Lemma run_writes_only_one_shot_witness :
  exists jobId job,
    or_undefined (nullish_or (p_id one_shot_run_params) (p_jobId one_shot_run_params))
    = Some jobId
    /\ resolveCrontabJobOrThrow
         (jobs (snapshot_of (with_crontab_list one_shot_crontab reference_host)
                            (crontab_list (with_crontab_list one_shot_crontab
                                                             reference_host))))
         jobId
       = Ok job
    /\ one_shot job = true
    /\ ran (fst (runCrontabJob (with_crontab_list one_shot_crontab reference_host)
                   job
                   (match p_mode one_shot_run_params with
                    | Some m => m
                    | None => Force
                    end)))
       = true.
Proof.
  apply (run_writes_only_one_shot (with_crontab_list one_shot_crontab reference_host)
           one_shot_run_params).
  vm_compute. reflexivity.
Defined.

(** The run of the one-shot job leaves a crontab without it. *)
Lemma one_shot_run_effects :
  snd (cron_run (with_crontab_list one_shot_crontab reference_host)
                one_shot_run_params)
  = [ CrontabList;
      EnqueueSystemEvent (lit "stand up") (lit "agent:main:main");
      RequestHeartbeatNow (lit "main") (lit "agent:main:main");
      CrontabWrite [] ].
Proof. vm_compute. reflexivity. Qed.

(** X19 on the reference crontab and an id that is not there. *)
Lemma remove_unknown_job_witness :
  exists content,
    cron_remove reference_host (lit "no-such-job")
    = (respond true (Some RemovedPayload) None, [CrontabList; CrontabWrite content]).
Proof.
  destruct (crontab_content reference_host
              (jobs (snapshot_of reference_host (crontab_list reference_host)))
              (lines (snapshot_of reference_host (crontab_list reference_host))))
    as [content|] eqn:E; [| vm_compute in E; discriminate E].
  exists content.
  apply (remove_unknown_job reference_host (lit "no-such-job") content).
  - vm_compute. constructor; [discriminate | constructor].
  - exact E.
  - reflexivity.
Defined.

(** X20 on a crontab that cannot be read. *)
Lemma remove_after_failed_read_witness :
  snd (cron_remove (with_crontab_list denied_crontab reference_host)
                   (lit "7f3c2a10-9d4e-4b1a-8c55-0e6f1a2b3c4d"))
  = [CrontabList; CrontabWrite []].
Proof. apply remove_after_failed_read. reflexivity. Defined.

(** X21 on a crontab that cannot be read. *)
Lemma add_after_failed_read_witness :
  exists content,
    crontab_content (with_crontab_list denied_crontab reference_host)
      [createCronJobFromInput (with_crontab_list denied_crontab reference_host)
                              sample_create_ok] []
    = Ok content
    /\ snd (cron_add (with_crontab_list denied_crontab reference_host)
                     sample_create_ok)
       = [CrontabList; CrontabWrite content]
    /\ (ok (crontab_write (with_crontab_list denied_crontab reference_host) content)
        = true ->
        fst (cron_add (with_crontab_list denied_crontab reference_host)
                      sample_create_ok)
        = respond true
            (Some (JobPayload
                     (createCronJobFromInput
                        (with_crontab_list denied_crontab reference_host)
                        sample_create_ok)))
            None).
Proof.
  apply (add_after_failed_read (with_crontab_list denied_crontab reference_host)
           sample_create_ok); reflexivity.
Defined.

(** X23: a run of job [7f3c2a10-9d4e] shows in the history of job [9d4e]. *)
Lemma history_matches_by_substring_witness :
  parseRunEntry reference_host sample_log_line (lit "9d4e")
  = Some (mkLogEntry 1700000100000 (lit "9d4e") (lit "ok")).
Proof.
  apply (history_matches_by_substring reference_host sample_log_line
           (lit "9d4e") (lit "7f3c2a10-9d4e")
           (mkLogEntry 1700000100000 (lit "7f3c2a10-9d4e") (lit "ok")));
    reflexivity.
Defined.

(** X25 on [sample_isolated_job]: an agent turn every hour, delivered to
    a webhook. *)
Lemma job_roundtrip_witness :
  exists ls J',
    buildTaggedEntryLines reference_host sample_isolated_job = Ok ls
    /\ decode_lines reference_host ls = [J']
    /\ set_state (state sample_isolated_job) J' = sample_isolated_job.
Proof.
  destruct (buildTaggedEntryLines reference_host sample_isolated_job)
    as [ls|] eqn:E; [| vm_compute in E; discriminate E].
  destruct (job_roundtrip reference_host sample_isolated_job ls eq_refl E)
    as (J' & H1 & H2).
  exists ls, J'. repeat split; assumption.
Defined.

(** X26 on [sample_isolated_job] and [one_shot_job], between lines of the
    user. *)
Lemma store_roundtrip_witness :
  exists entries,
    entry_lines reference_host [sample_isolated_job; one_shot_job] = Ok entries
    /\ Forall2 same_job [sample_isolated_job; one_shot_job]
         (decode_lines reference_host
            (user_lines_before ++ entries ++ user_lines_after))
    /\ snd (findTaggedEntries
              (user_lines_before ++ entries ++ user_lines_after)) = [].
Proof.
  destruct (entry_lines reference_host [sample_isolated_job; one_shot_job])
    as [entries|] eqn:E; [| vm_compute in E; discriminate E].
  exists entries. split; [reflexivity|].
  apply (store_roundtrip reference_host [sample_isolated_job; one_shot_job]
           user_lines_before user_lines_after entries).
  - repeat constructor.
  - repeat constructor; cbn [In map]; intros H;
      repeat (destruct H as [H|H]; [vm_compute in H; discriminate H|]);
      exact H.
  - repeat constructor.
  - repeat constructor.
  - exact E.
Defined.

(** X27 on the same two jobs, written over a crontab of the user that
    holds an older line of the store, and read back as [runCommand]
    reports it. *)
Lemma write_then_read_witness :
  exists content,
    crontab_content reference_host [sample_isolated_job; one_shot_job]
      (user_lines_before ++ [TAG_PREFIX ++ lit " id=old"] ++ user_lines_after)
    = Ok content
    /\ Forall2 same_job [sample_isolated_job; one_shot_job]
         (jobs (snapshot_of reference_host
                  (mkResult true (trimEnd content) [])))
    /\ errors (snapshot_of reference_host
                 (mkResult true (trimEnd content) [])) = [].
Proof.
  destruct (crontab_content reference_host [sample_isolated_job; one_shot_job]
              (user_lines_before ++ [TAG_PREFIX ++ lit " id=old"]
               ++ user_lines_after))
    as [content|] eqn:E; [| vm_compute in E; discriminate E].
  exists content. split; [reflexivity|].
  apply (write_then_read reference_host [sample_isolated_job; one_shot_job]
           (user_lines_before ++ [TAG_PREFIX ++ lit " id=old"]
            ++ user_lines_after) content (trimEnd content) []).
  - repeat constructor.
  - repeat constructor; cbn [In map]; intros H;
      repeat (destruct H as [H|H]; [vm_compute in H; discriminate H|]);
      exact H.
  - exact E.
  - right. reflexivity.
Defined.

(** X28 on [sample_isolated_job] and [one_shot_job], between lines of the
    user. *)
Lemma managed_block_stripped_witness :
  exists block,
    buildManagedBlock reference_host [sample_isolated_job; one_shot_job]
    = Ok block
    /\ split_nl (join NL (user_lines_before ++ block ++ user_lines_after))
       = user_lines_before ++ block ++ user_lines_after
    /\ stripManagedBlock
         (split_nl (join NL (user_lines_before ++ block ++ user_lines_after)))
       = user_lines_before ++ user_lines_after.
Proof.
  destruct (buildManagedBlock reference_host [sample_isolated_job; one_shot_job])
    as [block|] eqn:E; [| vm_compute in E; discriminate E].
  exists block. split; [reflexivity|].
  apply (managed_block_stripped reference_host
           [sample_isolated_job; one_shot_job]).
  - repeat constructor.
  - repeat constructor.
  - repeat constructor.
  - repeat constructor.
  - exact E.
Defined.

(** Why X28 asks for expressions without a newline: [resolveCrontabSchedule]
    accepts the expression of [three_line_job], whose second line ends the
    block early once the block has gone through the text of the crontab;
    the line after it is not taken out by the next sync. *)
Lemma three_line_expression_leaks :
  exists block,
    buildManagedBlock reference_host [three_line_job] = Ok block
    /\ stripManagedBlock (split_nl (join NL block))
       = [ lit "@daily openclaw cron run a1b2 # openclaw:cron";
           OPENCLAW_BLOCK_END ].
Proof. eexists. split; vm_compute; reflexivity. Qed.

(** X29 on the same jobs, over the lines of the user; the content is read
    back as [runCommand] reports it. *)
Lemma sync_twice_witness :
  exists content,
    sync_content reference_host [sample_isolated_job; one_shot_job]
      user_lines_before = Ok content
    /\ sync_content reference_host [sample_isolated_job; one_shot_job]
         (split_nl (trimEnd content)) = Ok content.
Proof.
  destruct (sync_content reference_host [sample_isolated_job; one_shot_job]
              user_lines_before)
    as [content|] eqn:E; [| vm_compute in E; discriminate E].
  exists content. split; [reflexivity|].
  apply (sync_twice reference_host [sample_isolated_job; one_shot_job]
           user_lines_before content (trimEnd content)).
  - repeat constructor.
  - vm_compute. repeat constructor.
  - repeat constructor.
  - exact E.
  - right. reflexivity.
Defined.

(** X30 on a begin marker, indented, between lines of the user. *)
Lemma unterminated_block_truncates_witness :
  stripManagedBlock
    (user_lines_before ++ lit "  # openclaw:cron begin" :: user_lines_after)
  = user_lines_before.
Proof.
  apply (unterminated_block_truncates user_lines_before user_lines_after
           (lit "  # openclaw:cron begin")).
  - repeat constructor.
  - reflexivity.
  - repeat constructor.
Defined.




(** C9 on [sample_job]. *)
Lemma toggle_changes_two_lines_witness :
  exists on off,
    buildTaggedEntryLines reference_host (set_enabled true sample_job) = Ok on
    /\ buildTaggedEntryLines reference_host (set_enabled false sample_job) = Ok off
    /\ length on = length off
    /\ last on [] = execution_line sample_job (lit "*/5 * * * *")
    /\ last off [] = lit "# " ++ execution_line sample_job (lit "*/5 * * * *")
    /\ (exists P Q,
          hd [] on = P ++ lit "enabled=true" ++ Q
          /\ hd [] off = P ++ lit "enabled=false" ++ Q)
    /\ (forall i, 0 < i -> S i < length on -> nth i on [] = nth i off []).
Proof.
  apply (toggle_changes_two_lines reference_host sample_job (lit "*/5 * * * *")).
  reflexivity.
Defined.

(** C6 where the clock is put forward: half a minute before the change
    the wall clock reads 01:59:30, the next whole minute, 02:00, is
    skipped, and the expression is the one of 03:00. *)
Lemma at_rounding_over_a_skipped_hour :
  resolveCrontabSchedule spring_host
    (ScheduleAt (lit "2030-03-31T00:59:30.000Z"))
  = ResolveOk (lit "0 3 31 3 *").
Proof. vm_compute. reflexivity. Qed.

